(** * The device power-management core (drivers/base/power/main.c)

    A shallow embedding of the suspend/resume transition engine: the five
    topology lists, the per-device phase functions, the asynchronous task
    pool and the phase executors, followed by the properties of the
    specification that were checked against it.

    Conventions of the embedding.

    - A [struct device *] is a [dev_id]; the device objects live in a store
      [devices : dev_id -> device] that is threaded through every function.
    - A [struct list_head] queue is the list of the devices linked on it,
      head ([.next]) first, tail ([.prev]) last.
    - A function pointer is an [option callback] ([None] is the NULL
      pointer).  What a driver callback returns is not decided by main.c: it
      is read from the environment, as a function of the history of events.
    - Everything main.c does that is visible from outside (callback
      invocations, tracepoints, pm_dev_err lines, runtime-PM calls) is
      recorded in [klog], most recent event first.
    - Functions queued with async_schedule are run as indivisible units at
      scheduling points chosen by the environment ([sched]); blocking in
      wait_for_completion changes nothing in the state of the caller and is
      not represented. *)

From Stdlib Require Import List String Ascii ZArith Bool Arith Lia.
Import ListNotations.


(** ** Identifiers, PM events and callback tables *)

Definition dev_id := nat.

(** The address of a callback function. *)
Definition callback := nat.

(** The [PM_EVENT_*] codes of include/linux/pm.h that main.c switches on.
    The header is not among the sources, so the codes stay symbolic; any
    other value of [state.event] is [PM_EVENT_OTHER]. *)
Inductive pm_event : Type :=
| PM_EVENT_ON
| PM_EVENT_FREEZE
| PM_EVENT_SUSPEND
| PM_EVENT_HIBERNATE
| PM_EVENT_QUIESCE
| PM_EVENT_RESUME
| PM_EVENT_THAW
| PM_EVENT_RESTORE
| PM_EVENT_RECOVER
| PM_EVENT_OTHER (code : Z).

Record pm_message_t : Type := PMSG { event : pm_event }.

Definition PMSG_ON := PMSG PM_EVENT_ON.
Definition PMSG_SUSPEND := PMSG PM_EVENT_SUSPEND.
Definition PMSG_RESUME := PMSG PM_EVENT_RESUME.
Definition PMSG_RECOVER := PMSG PM_EVENT_RECOVER.
Definition PMSG_RESTORE := PMSG PM_EVENT_RESTORE.

(** errno values used by main.c (include/uapi/asm-generic/errno-base.h). *)
Definition EAGAIN : Z := 11.
Definition EBUSY : Z := 16.

(** [struct dev_pm_ops], restricted to the slots main.c reads. *)
Record dev_pm_ops : Type := {
  prepare : option callback;
  complete : option callback;
  suspend : option callback;
  resume : option callback;
  freeze : option callback;
  thaw : option callback;
  poweroff : option callback;
  restore : option callback;
  suspend_late : option callback;
  resume_early : option callback;
  freeze_late : option callback;
  thaw_early : option callback;
  poweroff_late : option callback;
  restore_early : option callback;
  suspend_noirq : option callback;
  resume_noirq : option callback;
  freeze_noirq : option callback;
  thaw_noirq : option callback;
  poweroff_noirq : option callback;
  restore_noirq : option callback
}.

Record dev_pm_domain : Type := { ops : dev_pm_ops }.

Record device_type : Type := { type_pm : option dev_pm_ops }.

Record class_type : Type := {
  class_pm : option dev_pm_ops;
  class_suspend : option callback;
  class_resume : option callback
}.

Record bus_type : Type := {
  bus_pm : option dev_pm_ops;
  bus_suspend : option callback;
  bus_resume : option callback
}.

Record device_driver : Type := {
  driver_pm : option dev_pm_ops;
  driver_suspend : option callback;
  driver_resume : option callback
}.

(** ** The device record *)

(** [struct dev_pm_info], the fields main.c reads or writes.  [completion]
    is the [done] state of [power.completion]; [wakeup] says whether
    [power.wakeup] is non-NULL; [power_async_suspend] is the field
    [power.async_suspend]. *)
Record dev_pm_info : Type := {
  can_wakeup : bool;
  wakeup : bool;
  power_async_suspend : bool;
  in_dpm_list : bool;
  is_prepared : bool;
  is_suspended : bool;
  is_noirq_suspended : bool;
  is_late_suspended : bool;
  no_pm : bool;
  direct_complete : bool;
  wakeup_path : bool;
  syscore : bool;
  no_pm_callbacks : bool;
  ignore_children : bool;
  completion : bool
}.

(** [struct device_link], the fields main.c reads: the two ends of the link,
    and whether [status] is DL_STATE_DORMANT. *)
Record device_link : Type := {
  link_supplier : dev_id;
  link_consumer : dev_id;
  link_dormant : bool
}.

(** [struct device].  [children] are the devices that device_for_each_child
    visits; [suppliers] is the list [links.suppliers] (the links in which the
    device is the consumer) and [consumers] the list [links.consumers]. *)
Record device : Type := {
  dev_name : string;
  parent : option dev_id;
  children : list dev_id;
  pm_domain : option dev_pm_domain;
  type : option device_type;
  class : option class_type;
  bus : option bus_type;
  driver : option device_driver;
  suppliers : list device_link;
  consumers : list device_link;
  power : dev_pm_info
}.

(** ** The denylist *)

Definition suspend_deny_list : list string := [
  "cpu0";
  "cpu1";
  "cpu2";
  "cpu3";
  "cpu4";
  "cpu5";
  "cpu6";
  "cpu7";
  "vtcon0";
  "slimbus";
  "ac000000.ramoops";
  "pmsg0";
  "soc";
  "soc:smp2p-mpss";
  "soc:smp2p-lpass";
  "soc:smp2p-slpi";
  "10f004.qcom,gdsc";
  "16b004.qcom,gdsc";
  "175004.qcom,gdsc";
  "17d034.qcom,gdsc";
  "17d038.qcom,gdsc";
  "c8ce024.syscon";
  "c8c1024.qcom,gdsc";
  "c8c1040.qcom,gdsc";
  "c8c1044.qcom,gdsc";
  "c8c34a0.qcom,gdsc";
  "c8c3664.qcom,gdsc";
  "c8c3674.qcom,gdsc";
  "c8c36d4.qcom,gdsc";
  "c8c2304.qcom,gdsc";
  "5066008.syscon";
  "5066004.qcom,gdsc";
  "5065130.syscon";
  "5066090.syscon";
  "soc:timer";
  "10ac000.restart";
  "778000.memory";
  "1f40000.syscon";
  "soc:hwlock";
  "1d00000.syscon";
  "17911000.mailbox";
  "1d0501c.mailbox";
  "soc:qcom,smem";
  "soc:qcom,smp2p_sleepstate";
  "soc:qcom,qsee_irq";
  "soc:qcom,qsee_irq_bridge";
  "soc:qcom,rpm-smd";
  "soc:rpm-glink";
  "soc:rpm-glink.rpmsg_ctrl.0.0";
  "soc:rpm-glink.rpm_requests.-1.-1";
  "soc:qcom,rpm-smd:qcom,rpmcc";
  "800f000.qcom,spmi";
  "soc:qcom,sps";
  "msm_sps";
  "spmi-0";
  "spmi0-00";
  "c1b0000.serial";
  "soc:qcom,glink";
  "800f000.qcom,spmi:qcom,pm8998@0:qcom,revid@100";
  "171c0000.slim";
  "800f000.qcom,spmi:qcom,pm8998@0:qcom,power-on@800";
  "17240000.slim";
  "17920000.timer";
  "soc:ddr-bw-opp-table";
  "soc:qcom,cpubw";
  "1008000.qcom,cpu-bwmon";
  "soc:qcom,mincpubw";
  "soc:qcom,memlat-cpu0";
  "soc:qcom,memlat-cpu4";
  "800f000.qcom,spmi:qcom,pm8998@0:pinctrl@c000";
  "soc:qcom,arm-memlat-mon-0";
  "800f000.qcom,spmi:qcom,pm8998@0:qcom,coincell@2800";
  "soc:qcom,arm-memlat-mon-4";
  "800f000.qcom,spmi:qcom,pm8998@0:qcom,pm8998_rtc";
  "800f000.qcom,spmi:qcom,pm8998@0:adc@3100";
  "soc:arm64-cpu-erp";
  "800f000.qcom,spmi:qcom,pm8998@0:clock-controller@5b00";
  "spmi0-01";
  "800f000.qcom,spmi:qcom,pm8998@1:regulator@2f00";
  "c8c0000.vote-clock-controller";
  "regulator.1";
  "800f000.qcom,spmi:qcom,pm8998@1:regulator@3800";
  "0.qcom,rmtfs_sharedmem";
  "soc:qcom,msm_gsi";
  "soc:qcom,rmnet-ipa";
  "regulator.2";
  "spmi0-02";
  "1e00000.qcom,ipa";
  "soc:qcom,ipa_fws@1e08000";
  "soc:qcom,chd_silver";
  "800f000.qcom,spmi:qcom,pmi8998@2:qcom,revid@100";
  "soc:qcom,chd_gold";
  "800f000.qcom,spmi:qcom,pmi8998@2:qcom,misc@900";
  "soc:qcom,ghd";
  "17900000.qcom,msm-gladiator-v2";
  "800f000.qcom,spmi:qcom,pmi8998@2:qcom,power-on@800";
  "soc:qcom,glink_pkt";
  "soc:qcom,msm-adsprpc-mem";
  "soc:qcom,msm_fastrpc";
  "soc:qcom,spcom";
  "soc:qcom,spss_utils";
  "1da7000.ufsphy";
  "1db0000.ufsice";
  "800f000.qcom,spmi:qcom,pmi8998@2:pinctrl@c000";
  "1da4000.ufshc";
  "c012000.qusb";
  "c010000.ssphy";
  "soc:usb_audio_qmi_dev";
  "800f000.qcom,spmi:qcom,pmi8998@2:qcom,qpnp-qnovo@1500";
  "soc:usb_nop_phy";
  "soc:qcom,rpm-smd:rpm-regulator-smpa1";
  "17300000.qcom,lpass";
  "soc:qcom,rpm-smd:rpm-regulator-smpa1:regulator-s1-level";
  "soc:qcom,memshare";
  "regulator.3";
  "soc:qcom,rpm-smd:rpm-regulator-smpa1:regulator-s1-floor-level";
  "4080000.qcom,mss";
  "regulator.4";
  "soc:qcom,rpm-smd:rpm-regulator-smpa1:regulator-s1-level-ao";
  "10aa000.tsens";
  "regulator.5";
  "10ad000.tsens";
  "soc:qcom,rpm-smd:rpm-regulator-smpa1:regulator-cx-cdev";
  "86600000.qseecom";
  "soc:qcom,rpm-smd:rpm-regulator-smpa2";
  "86600000.smcinvoke";
  "soc:qcom,rpm-smd:rpm-regulator-smpa2:regulator-s2";
  "146bf720.tz-log";
  "regulator.6";
  "soc:qcom,msm_hdcp";
  "soc:qcom,rpm-smd:rpm-regulator-smpa3";
  "1de0000.qcrypto";
  "soc:qcom,rpm-smd:rpm-regulator-smpa3:regulator-s3";
  "1de0000.qcedev";
  "regulator.7";
  "793000.qrng";
  "soc:qcom,rpm-smd:rpm-regulator-smpa4";
  "soc:qcom,bcl";
  "soc:qcom,rpm-smd:rpm-regulator-smpa4:regulator-s4";
  "regulator.8";
  "5c00000.qcom,ssc";
  "soc:qcom,rpm-smd:rpm-regulator-smpa5";
  "cce0000.qcom,venus";
  "soc:qcom,rpm-smd:rpm-regulator-smpa5:regulator-s5";
  "17817000.qcom,wdt";
  "800f000.qcom,spmi:qcom,pmi8998@2:qcom,qpnp-smb2";
  "regulator.9";
  "soc:qcom,rpm-smd:rpm-regulator-smpa7";
  "soc:qcom,rpm-smd:rpm-regulator-smpa7:regulator-s7";
  "800f000.qcom,spmi:qcom,pmi8998@2:bcl@4200";
  "800f000.qcom,spmi:qcom,pmi8998@2:rradc@4500";
  "800f000.qcom,spmi:qcom,pmi8998@2:gpio-leds";
  "spmi0-03";
  "800f000.qcom,spmi:qcom,pmi8998@3:qcom,pwms@b100";
  "800f000.qcom,spmi:qcom,pmi8998@3:pwm@b300";
  "800f000.qcom,spmi:qcom,pmi8998@3:pwm@b400";
  "800f000.qcom,spmi:qcom,pmi8998@3:pwm@b500";
  "800f000.qcom,spmi:qcom,pmi8998@3:qcom,leds@d000";
  "800f000.qcom,spmi:qcom,pmi8998@3:qcom,leds@d800";
  "800f000.qcom,spmi:qcom,pmi8998@3:qcom,leds@d300";
  "800f000.qcom,spmi:qcom,pmi8998@3:qcom,haptics@c000";
  "spmi0-04";
  "800f000.qcom,spmi:qcom,pm8005@4:qcom,revid@100";
  "800f000.qcom,spmi:qcom,pm8005@4:qcom,temp-alarm@2400";
  "800f000.qcom,spmi:qcom,pm8005@4:pinctrl@c000";
  "spmi0-05";
  "800f000.qcom,spmi:qcom,pm8005@5:regulator@1400";
  "regulator.10";
  "regulator.11";
  "soc:qcom,rpm-smd:rpm-regulator-smpa8";
  "soc:qcom,rpm-smd:rpm-regulator-smpa8:regulator-s8";
  "regulator.12";
  "soc:qcom,rpm-smd:rpm-regulator-smpa9";
  "soc:qcom,rpm-smd:rpm-regulator-smpa9:regulator-s9-level";
  "regulator.13";
  "soc:qcom,rpm-smd:rpm-regulator-smpa9:regulator-s9-floor-level";
  "regulator.14";
  "soc:qcom,rpm-smd:rpm-regulator-smpa9:regulator-s9-level-ao";
  "regulator.15";
  "1d0101c.qcom,spss";
  "soc:qcom,rpm-smd:rpm-regulator-smpa9:regulator-mx-cdev";
  "soc:qcom,msm-rtb";
  "soc:qcom,rpm-smd:rpm-regulator-ldoa1";
  "10a3000.qcom,mpm2-sleep-counter";
  "soc:qcom,rpm-smd:rpm-regulator-ldoa1:regulator-l1";
  "146bf000.qcom,msm-imem";
  "soc:cpu-pmu";
  "regulator.16";
  "soc:cpuss_dump";
  "soc:qcom,rpm-smd:rpm-regulator-ldoa2";
  "soc:qcom,msm-ssc-sensors";
  "soc:qcom,rpm-smd:rpm-regulator-ldoa2:regulator-l2";
  "10b3000.dcc";
  "regulator.17";
  "soc:qcom,rpm-smd:rpm-regulator-ldoa3";
  "soc:qcom,rpm-smd:rpm-regulator-ldoa3:regulator-l3";
  "regulator.18";
  "18800000.qcom,icnss";
  "soc:qcom,rpm-smd:rpm-regulator-ldoa4";
  "soc:qcom,rpm-smd:rpm-regulator-ldoa4:regulator-l4-level";
  "c1e7000.msm_tspp";
  "regulator.19";
  "soc:qcom,wil6210";
  "soc:qcom,rpm-smd:rpm-regulator-ldoa4:regulator-l4-floor-level";
  "soc:wcd9xxx-irq";
  "soc:qmi-tmd-devices";
  "regulator.20";
  "soc:qcom,rpm-smd:rpm-regulator-ldoa5";
  "soc:qcom,rpm-smd:rpm-regulator-ldoa5:regulator-l5";
  "regulator.21";
  "soc:qcom,rpm-smd:rpm-regulator-ldoa6";
  "soc:qcom,rpm-smd:rpm-regulator-ldoa6:regulator-l6";
  "1fcf004.regulator";
  "regulator.22";
  "regulator.23";
  "17812000.qcom,spm";
  "soc:qcom,rpm-smd:rpm-regulator-ldoa7";
  "soc:qcom,rpm-smd:rpm-regulator-ldoa7:regulator-l7";
  "regulator.24";
  "17912000.qcom,spm";
  "soc:qcom,rpm-smd:rpm-regulator-ldoa7:regulator-l7-pin-ctrl";
  "regulator.25";
  "soc:qcom,rpm-smd:rpm-regulator-ldoa8";
  "soc:qcom,lpm-levels";
  "soc:qcom,rpm-smd:rpm-regulator-ldoa8:regulator-l8";
  "200000.qcom,rpm-stats";
  "regulator.26";
  "200000.qcom,rpm-rail-stats";
  "soc:qcom,rpm-smd:rpm-regulator-ldoa9";
  "200000.qcom,rpm-log";
  "soc:qcom,rpm-smd:rpm-regulator-ldoa9:regulator-l9";
  "778150.qcom,rpm-master-stats";
  "regulator.27";
  "soc:qcom,rpm-smd:rpm-regulator-ldoa10";
  "soc:qcom,rpm-smd:rpm-regulator-ldoa10:regulator-l10";
  "regulator.28";
  "soc:qcom,rpm-smd:rpm-regulator-ldoa11";
  "soc:qcom,rpm-smd:rpm-regulator-ldoa11:regulator-l11";
  "regulator.29";
  "soc:qcom,rpm-smd:rpm-regulator-ldoa12";
  "soc:qcom,rpm-smd:rpm-regulator-ldoa12:regulator-l12";
  "regulator.30";
  "soc:qcom,rpm-smd:rpm-regulator-ldoa13";
  "soc:qcom,rpm-smd:rpm-regulator-ldoa13:regulator-l13";
  "regulator.31";
  "soc:qcom,rpm-smd:rpm-regulator-ldoa14";
  "soc:qcom,rpm-smd:rpm-regulator-ldoa14:regulator-l14";
  "regulator.32";
  "soc:qcom,rpm-smd:rpm-regulator-ldoa15";
  "soc:qcom,rpm-smd:rpm-regulator-ldoa15:regulator-l15";
  "regulator.33";
  "soc:qcom,rpm-smd:rpm-regulator-ldoa16";
  "soc:qcom,rpm-smd:rpm-regulator-ldoa16:regulator-l16";
  "soc:iommu_test_device";
  "soc:iommu_coherent_test_device";
  "regulator.34";
  "soc:qcom,ion";
  "soc:qcom,rpm-smd:rpm-regulator-ldoa17";
  "8c0000.qcom,msm-cam";
  "soc:qcom,rpm-smd:rpm-regulator-ldoa17:regulator-l17";
  "ca34000.qcom,csiphy";
  "regulator.35";
  "ca35000.qcom,csiphy";
  "soc:qcom,rpm-smd:rpm-regulator-ldoa17:regulator-l17-pin-ctrl";
  "ca36000.qcom,csiphy";
  "regulator.36";
  "soc:qcom,rpm-smd:rpm-regulator-ldoa18";
  "ca30000.qcom,csid";
  "soc:qcom,rpm-smd:rpm-regulator-ldoa18:regulator-l18";
  "ca30400.qcom,csid";
  "regulator.37";
  "ca30800.qcom,csid";
  "soc:qcom,rpm-smd:rpm-regulator-ldoa19";
  "soc:qcom,rpm-smd:rpm-regulator-ldoa19:regulator-l19";
  "ca30c00.qcom,csid";
  "soc:qcom,cam_smmu";
  "regulator.38";
  "soc:qcom,rpm-smd:rpm-regulator-ldoa20";
  "caa4000.qcom,fd";
  "soc:qcom,rpm-smd:rpm-regulator-ldoa20:regulator-l20";
  "ca04000.qcom,cpp";
  "regulator.39";
  "ca31000.qcom,ispif";
  "soc:qcom,rpm-smd:rpm-regulator-ldoa21";
  "soc:qcom,rpm-smd:rpm-regulator-ldoa21:regulator-l21";
  "ca10000.qcom,vfe0";
  "regulator.40";
  "ca14000.qcom,vfe1";
  "soc:qcom,rpm-smd:rpm-regulator-ldoa22";
  "soc:qcom,vfe";
  "soc:qcom,rpm-smd:rpm-regulator-ldoa22:regulator-l22";
  "ca0c000.qcom,cci";
  "regulator.41";
  "ca1c000.qcom,jpeg";
  "soc:qcom,rpm-smd:rpm-regulator-ldoa23";
  "soc:qcom,rpm-smd:rpm-regulator-ldoa23:regulator-l23";
  "caa0000.qcom,jpeg";
  "regulator.42";
  "cc00000.qcom,vidc";
  "soc:qcom,rpm-smd:rpm-regulator-ldoa24";
  "c880000.qcom,vmem";
  "soc:qcom,rpm-smd:rpm-regulator-ldoa24:regulator-l24";
  "6048000.tmc";
  "regulator.43";
  "6046000.replicator";
  "soc:qcom,rpm-smd:rpm-regulator-ldoa25";
  "6047000.tmc";
  "soc:qcom,rpm-smd:rpm-regulator-ldoa25:regulator-l25";
  "6045000.funnel";
  "6041000.funnel";
  "regulator.44";
  "6042000.funnel";
  "soc:qcom,rpm-smd:rpm-regulator-ldoa25:regulator-l25-pin-ctrl";
  "7b70000.funnel";
  "regulator.45";
  "7b60000.funnel";
  "soc:qcom,rpm-smd:rpm-regulator-ldoa26";
  "6002000.stm";
  "soc:qcom,rpm-smd:rpm-regulator-ldoa26:regulator-l26";
  "7840000.etm";
  "7940000.etm";
  "regulator.46";
  "7a40000.etm";
  "soc:qcom,rpm-smd:rpm-regulator-ldoa27";
  "7b40000.etm";
  "soc:qcom,rpm-smd:rpm-regulator-ldoa27:regulator-l27-level";
  "7c40000.etm";
  "7d40000.etm";
  "regulator.47";
  "7e40000.etm";
  "soc:qcom,rpm-smd:rpm-regulator-ldoa27:regulator-l27-floor-level";
  "7f40000.etm";
  "6010000.cti";
  "6011000.cti";
  "regulator.48";
  "6012000.cti";
  "soc:qcom,rpm-smd:rpm-regulator-ldoa28";
  "6013000.cti";
  "soc:qcom,rpm-smd:rpm-regulator-ldoa28:regulator-l28";
  "6014000.cti";
  "6015000.cti";
  "regulator.49";
  "6016000.cti";
  "soc:qcom,rpm-smd:rpm-regulator-vsa1";
  "6017000.cti";
  "soc:qcom,rpm-smd:rpm-regulator-vsa1:regulator-lvs1";
  "6018000.cti";
  "regulator.50";
  "6019000.cti";
  "soc:qcom,rpm-smd:rpm-regulator-vsa2";
  "601a000.cti";
  "soc:qcom,rpm-smd:rpm-regulator-vsa2:regulator-lvs2";
  "601b000.cti";
  "regulator.51";
  "601c000.cti";
  "soc:qcom,rpm-smd:rpm-regulator-bobb";
  "601d000.cti";
  "soc:qcom,rpm-smd:rpm-regulator-bobb:regulator-bob";
  "601e000.cti";
  "601f000.cti";
  "regulator.52";
  "7820000.cti";
  "soc:qcom,rpm-smd:rpm-regulator-bobb:regulator-bob-pin1";
  "7920000.cti";
  "regulator.53";
  "7a20000.cti";
  "soc:qcom,rpm-smd:rpm-regulator-bobb:regulator-bob-pin2";
  "7b20000.cti";
  "7c20000.cti";
  "regulator.54";
  "soc:qcom,rpm-smd:rpm-regulator-bobb:regulator-bob-pin3";
  "7d20000.cti";
  "7e20000.cti";
  "regulator.55";
  "7f20000.cti";
  "soc:rpm-glink.glink_ssr.-1.-1";
  "7b80000.cti";
  "7bc1000.cti";
  "7b91000.cti";
  "6005000.funnel";
  "6004000.tpda";
  "7038000.tpdm";
  "7054000.tpdm";
  "704c000.tpdm";
  "71d0000.tpdm";
  "7050000.tpdm";
  "7bc2000.tpda";
  "7bc0000.tpdm";
  "7043000.tpda";
  "7042000.tpdm";
  "7191000.tpda";
  "7190000.tpdm";
  "7b92000.tpda";
  "7b90000.tpdm";
  "7083000.funnel";
  "7082000.tpda";
  "7080000.tpdm";
  "158000.hwevent";
  "6001000.csr";
  "soc:modem_etm0";
  "soc:audio_etm0";
  "soc:rpm_etm0";
  "7225000.funnel";
  "soc:dummy-tpdm-wcss";
  "1620000.ad-hoc-bus";
  "soc:devfreq_spdm_cpu";
  "soc:devfreq_spdm_gov";
  "soc:qcom,kgsl-hyp";
  "soc:qcom,kgsl-busmon";
  "soc:ddr-bw-opp-table-gpu";
  "soc:qcom,gpubw";
  "5000000.qcom,kgsl-3d0";
  "5040000.qcom,kgsl-iommu";
  "3400000.pinctrl";
  "gpiochip0";
  "gpiochip0";
  "soc:qcom,msm-pcm";
  "soc:qcom,msm-pcm-routing";
  "soc:qcom,msm-compr-dsp";
  "soc:qcom,msm-pcm-low-latency";
  "soc:qcom,msm-ultra-low-latency";
  "soc:qcom,msm-pcm-dsp-noirq";
  "soc:qcom,msm-transcode-loopback";
  "soc:qcom,msm-compress-dsp";
  "soc:qcom,msm-stub-codec";
  "soc:qcom,msm-dai-fe";
  "soc:qcom,msm-pcm-afe";
  "soc:qcom,msm-dai-q6-hdmi";
  "soc:qcom,msm-dai-q6-dp";
  "soc:qcom,msm-pcm-loopback";
  "soc:qcom,msm-pcm-loopback-low-latency";
  "soc:qcom,msm-pcm-dtmf";
  "soc:qcom,msm-dai-mi2s";
  "soc:qcom,msm-dai-cdc-dma";
  "soc:qcom,msm-lsm-client";
  "soc:qcom,msm-dai-q6";
  "soc:qcom,msm-pcm-hostless";
  "soc:qcom,msm-audio-apr";
  "soc:qcom,msm-pri-auxpcm";
  "soc:qcom,msm-sec-auxpcm";
  "soc:qcom,msm-tert-auxpcm";
  "soc:qcom,msm-quat-auxpcm";
  "soc:qcom,msm-quin-auxpcm";
  "soc:qcom,msm-hdmi-dba-codec-rx";
  "soc:qcom,msm-adsp-loader";
  "soc:qcom,msm-dai-tdm-pri-rx";
  "soc:qcom,msm-dai-tdm-pri-tx";
  "soc:qcom,msm-dai-tdm-sec-rx";
  "soc:qcom,msm-dai-tdm-sec-tx";
  "soc:qcom,msm-dai-tdm-tert-rx";
  "soc:qcom,msm-dai-tdm-tert-tx";
  "soc:qcom,msm-dai-tdm-quat-rx";
  "soc:qcom,msm-dai-tdm-quat-tx";
  "soc:qcom,msm-dai-tdm-quin-rx";
  "soc:qcom,msm-dai-tdm-quin-tx";
  "soc:qcom,msm-dai-q6-spdif-pri-rx";
  "soc:qcom,msm-dai-q6-spdif-pri-tx";
  "soc:qcom,msm-dai-q6-spdif-sec-rx";
  "soc:qcom,msm-dai-q6-spdif-sec-tx";
  "soc:qcom,msm-dai-q6-afe-loopback-tx";
  "c900000.qcom,mdss_mdp";
  "soc:qcom,mdss_dsi@0";
  "soc:qcom,mdss_wb_panel";
  "soc:qcom,msm_ext_disp";
  "c900000.qcom,mdss_rotator";
  "c994a00.qcom,mdss_dsi_pll";
  "c996a00.qcom,mdss_dsi_pll";
  "c144000.qcom,sps-dma";
  "c184000.qcom,sps-dma";
  "c175000.spi";
  "c1b8000.spi";
  "c171000.uart";
  "soc:msm_cdc_pinctrl@64";
  "170f700c.qcom,avtimer";
  "soc:qcom,msm-cpe-lsm";
  "soc:qcom,msm-cpe-lsm@3";
  "soc:qcom,wcd-dsp-mgr";
  "soc:qcom,wcd-dsp-glink";
  "soc:msm_cdc_pinctrl@67";
  "soc:msm_cdc_pinctrl@68";
  "soc:audio_ext_clk";
  "c900000.qcom,sde_kms";
  "c994000.qcom,sde_dsi_ctrl0";
  "c996000.qcom,sde_dsi_ctrl1";
  "c994400.qcom,mdss_dsi_phy0";
  "c996400.qcom,mdss_dsi_phy1";
  "c9a0000.qcom,hdmi_tx_8998";
  "soc:qcom,wb-display@0";
  "soc:qcom,hdmi-display";
  "c9a0000.qcom,hdmi-cec";
  "soc:gpio_keys";
  "soc:virtual_therm@0";
  "soc:tri_state_key";
  "soc:fingerprint_detect";
  "soc:fpc_fpc1020";
  "soc:qcom,camera-flash@0";
  "psci";
  "vendor";
  "vendor:bt_wcn3990";
  "writeback";
  "pwmchip0";
  "pwmchip1";
  "pwmchip2";
  "regulator.56";
  "regulator.57";
  "regulator.58";
  "regulator.59";
  "regulator.60";
  "regulator.61";
  "regulator.62";
  "regulator.63";
  "regulator.64";
  "regulator.65";
  "regulator.66";
  "regulator.67";
  "regulator.68";
  "regulator.69";
  "vga_arbiter";
  "input0";
  "thermal_zone0";
  "thermal_zone1";
  "thermal_zone2";
  "thermal_zone3";
  "thermal_zone4";
  "thermal_zone5";
  "thermal_zone6";
  "thermal_zone7";
  "thermal_zone8";
  "thermal_zone9";
  "thermal_zone10";
  "thermal_zone11";
  "thermal_zone12";
  "thermal_zone13";
  "thermal_zone14";
  "thermal_zone15";
  "thermal_zone16";
  "thermal_zone17";
  "thermal_zone18";
  "thermal_zone19";
  "thermal_zone20";
  "thermal_zone21";
  "thermal_zone22";
  "thermal_zone23";
  "thermal_zone24";
  "thermal_zone25";
  "thermal_zone26";
  "thermal_zone27";
  "thermal_zone28";
  "thermal_zone29";
  "thermal_zone30";
  "thermal_zone31";
  "thermal_zone32";
  "thermal_zone33";
  "thermal_zone34";
  "thermal_zone35";
  "thermal_zone36";
  "thermal_zone37";
  "thermal_zone38";
  "thermal_zone39";
  "thermal_zone40";
  "thermal_zone41";
  "thermal_zone42";
  "thermal_zone43";
  "thermal_zone44";
  "thermal_zone45";
  "thermal_zone46";
  "thermal_zone47";
  "thermal_zone48";
  "thermal_zone49";
  "thermal_zone50";
  "thermal_zone51";
  "thermal_zone52";
  "thermal_zone53";
  "thermal_zone54";
  "thermal_zone55";
  "thermal_zone56";
  "thermal_zone57";
  "thermal_zone58";
  "thermal_zone59";
  "thermal_zone60";
  "thermal_zone61";
  "thermal_zone62";
  "thermal_zone63";
  "thermal_zone64";
  "thermal_zone65";
  "edac";
  "mc";
  "soc:qcom,ion:qcom,ion-heap@25";
  "soc:qcom,ion:qcom,ion-heap@22";
  "soc:qcom,ion:qcom,ion-heap@26";
  "soc:qcom,ion:qcom,ion-heap@27";
  "soc:qcom,ion:qcom,ion-heap@19";
  "soc:qcom,ion:qcom,ion-heap@13";
  "soc:qcom,ion:qcom,ion-heap@10";
  "soc:qcom,ion:qcom,ion-heap@9";
  "ion";
  "extcon0";
  "extcon1";
  "soc:qcom,msm_ext_disp:qcom,msm-ext-disp-audio-codec-rx";
  "lo";
  "regulatory.0";
  "rfkill";
  "100000.qcom,gcc";
  "c8c0000.qcom,mmsscc";
  "5065000.qcom,early_gpucc";
  "179c8000.cprh-ctrl";
  "regulator.70";
  "179c4000.cprh-ctrl";
  "regulator.71";
  "5061000.cpr4-ctrl";
  "regulator.72";
  "c8ce020.qcom,gdsc";
  "regulator.73";
  "c179000.i2c";
  "i2c-5";
  "5-0020";
  "c17a000.i2c";
  "i2c-6";
  "6-0028";
  "c1b5000.i2c";
  "i2c-7";
  "7-0008";
  "7-0055";
  "7-0026";
  "c1b7000.i2c";
  "i2c-9";
  "9-0036";
  "5065000.qcom,gpucc";
  "179c0000.qcom,cpu-clock-8998";
  "179c0000.qcom,cpu-clock-8998:qcom,limits-dcvs@179ce800";
  "179c0000.qcom,cpu-clock-8998:qcom,limits-dcvs@179cc800";
  "5066094.qcom,gdsc";
  "regulator.74";
  "soc:qcom,msm-cpufreq";
  "fab-a1noc";
  "fab-a2noc";
  "fab-bimc";
  "fab-cnoc";
  "fab-cr_virt";
  "fab-gnoc";
  "fab-mnoc";
  "fab-snoc";
  "fab-mnoc-ahb";
  "mas-pcie-0";
  "mas-usb3";
  "mas-ufs";
  "mas-blsp-2";
  "mas-cnoc-a2noc";
  "mas-ipa";
  "mas-sdcc-2";
  "mas-sdcc-4";
  "mas-tsif";
  "mas-blsp-1";
  "mas-cr-virt-a2noc";
  "mas-gnoc-bimc";
  "mas-oxili";
  "mas-mnoc-bimc";
  "mas-snoc-bimc";
  "mas-snoc-cnoc";
  "mas-qdss-dap";
  "mas-crypto-c0";
  "mas-apps-proc";
  "mas-cnoc-mnoc-mmss-cfg";
  "mas-cnoc-mnoc-cfg";
  "mas-cpp";
  "mas-jpeg";
  "mas-mdp-p0";
  "mas-mdp-p1";
  "mas-rotator";
  "mas-venus";
  "mas-vfe";
  "mas-venus-vmem";
  "mas-hmss";
  "mas-qdss-bam";
  "mas-snoc-cfg";
  "mas-bimc-snoc-0";
  "mas-bimc-snoc-1";
  "mas-a1noc-snoc";
  "mas-a2noc-snoc";
  "mas-qdss-etr";
  "slv-a1noc-snoc";
  "slv-a2noc-snoc";
  "slv-ebi";
  "slv-hmss-l3";
  "slv-bimc-snoc-0";
  "slv-bimc-snoc-1";
  "slv-cnoc-a2noc";
  "slv-ssc-cfg";
  "slv-mpm";
  "slv-pmic-arb";
  "slv-tlmm-north";
  "slv-pimem-cfg";
  "slv-imem-cfg";
  "slv-message-ram";
  "slv-skl";
  "slv-bimc-cfg";
  "slv-prng";
  "slv-a2noc-cfg";
  "slv-ipa";
  "slv-tcsr";
  "slv-snoc-cfg";
  "slv-clk-ctl";
  "slv-glm";
  "slv-spdm";
  "slv-gpuss-cfg";
  "slv-cnoc-mnoc-cfg";
  "slv-qm-cfg";
  "slv-mss-cfg";
  "slv-ufs-cfg";
  "slv-tlmm-west";
  "slv-a1noc-cfg";
  "slv-ahb2phy";
  "slv-blsp-2";
  "slv-pdm";
  "slv-usb3-0";
  "slv-a1noc-smmu-cfg";
  "slv-blsp-1";
  "slv-sdcc-2";
  "slv-sdcc-4";
  "slv-tsif";
  "slv-qdss-cfg";
  "slv-tlmm-east";
  "slv-cnoc-mnoc-mmss-cfg";
  "slv-srvc-cnoc";
  "slv-cr-virt-a2noc";
  "slv-gnoc-bimc";
  "slv-camera-cfg";
  "slv-camera-throttle-cfg";
  "slv-misc-cfg";
  "slv-venus-throttle-cfg";
  "slv-venus-cfg";
  "slv-vmem-cfg";
  "slv-mmss-clk-xpu-cfg";
  "slv-mmss-clk-cfg";
  "slv-display-cfg";
  "slv-display-throttle-cfg";
  "slv-smmu-cfg";
  "slv-mnoc-bimc";
  "slv-vmem";
  "slv-srvc-mnoc";
  "slv-hmss";
  "slv-lpass";
  "slv-wlan";
  "slv-snoc-bimc";
  "slv-snoc-cnoc";
  "slv-imem";
  "slv-pimem";
  "slv-qdss-stm";
  "slv-pcie-0";
  "slv-srvc-snoc";
  "null";
  "zero";
  "full";
  "random";
  "urandom";
  "kmsg";
  "tty";
  "console";
  "tty0";
  "vcs";
  "vcsa";
  "vcs1";
  "vcsa1";
  "tty1";
  "tty2";
  "tty3";
  "tty4";
  "tty5";
  "tty6";
  "tty7";
  "tty8";
  "tty9";
  "tty10";
  "tty11";
  "tty12";
  "tty13";
  "tty14";
  "tty15";
  "tty16";
  "tty17";
  "tty18";
  "tty19";
  "tty20";
  "tty21";
  "tty22";
  "tty23";
  "tty24";
  "tty25";
  "tty26";
  "tty27";
  "tty28";
  "tty29";
  "tty30";
  "tty31";
  "tty32";
  "tty33";
  "tty34";
  "tty35";
  "tty36";
  "tty37";
  "tty38";
  "tty39";
  "tty40";
  "tty41";
  "tty42";
  "tty43";
  "tty44";
  "tty45";
  "tty46";
  "tty47";
  "tty48";
  "tty49";
  "tty50";
  "tty51";
  "tty52";
  "tty53";
  "tty54";
  "tty55";
  "tty56";
  "tty57";
  "tty58";
  "tty59";
  "tty60";
  "tty61";
  "tty62";
  "tty63"
]%string.

(** strcmp of lib/string.c on NUL-terminated buffers: a [string] stands for
    the buffer made of its characters followed by a NUL, so the comparison
    also stops at a NUL character inside the string. *)
Fixpoint strcmp (cs ct : string) : Z :=
  match cs, ct with
  | EmptyString, EmptyString => 0
  | EmptyString, String c2 _ =>
      if Ascii.eqb c2 zero then 0 else -1
  | String c1 _, EmptyString =>
      if Ascii.eqb c1 zero then 0 else 1
  | String c1 cs', String c2 ct' =>
      if Ascii.eqb c1 c2 then
        if Ascii.eqb c1 zero then 0 else strcmp cs' ct'
      else if (nat_of_ascii c1 <? nat_of_ascii c2)%nat then -1 else 1
  end%Z.

(** The loop of is_device_in_suspend_denied_list over a table. *)
Fixpoint deny_scan (table : list string) (name : string) : bool :=
  match table with
  | [] => false
  | entry :: rest =>
      if (strcmp name entry =? 0)%Z then true else deny_scan rest name
  end.

Definition is_device_in_suspend_denied_list (name : string) : bool :=
  deny_scan suspend_deny_list name.

(** ** Failure statistics *)

Inductive suspend_stat_step : Type :=
| SUSPEND_FREEZE
| SUSPEND_PREPARE
| SUSPEND_SUSPEND
| SUSPEND_SUSPEND_LATE
| SUSPEND_SUSPEND_NOIRQ
| SUSPEND_RESUME_NOIRQ
| SUSPEND_RESUME_EARLY
| SUSPEND_RESUME.

(** Modelled from the spec: [struct suspend_stats] and its helpers
    dpm_save_failed_dev and dpm_save_failed_step are declared in
    include/linux/suspend.h, which is not among the sources.  The spec
    describes "a process-wide failure-statistics record (counts per phase,
    last failing device name, last failing step identifier)": one counter
    per phase, the name of the device that failed last and the step that
    failed last ([None] as long as nothing failed). *)
Record suspend_stats_rec : Type := {
  failed_prepare : Z;
  failed_suspend : Z;
  failed_suspend_late : Z;
  failed_suspend_noirq : Z;
  failed_resume : Z;
  failed_resume_early : Z;
  failed_resume_noirq : Z;
  last_failed_dev : option string;
  last_failed_step : option suspend_stat_step
}.

(** The counters are C ints, and main.c increments them with [++]: a
    32-bit value in two's complement, so that INT_MAX is followed by
    INT_MIN. *)
Definition INT_MIN : Z := -2147483648.
Definition INT_MAX : Z := 2147483647.

Definition int_incr (x : Z) : Z :=
  ((x + 1 - INT_MIN) mod 4294967296 + INT_MIN)%Z.

(** ** Events *)

Inductive rpm_call : Type :=
| PM_RUNTIME_DISABLE
| PM_RUNTIME_ENABLE
| PM_RUNTIME_BARRIER
| PM_RUNTIME_GET_NORESUME
| PM_RUNTIME_PUT.

Inductive sys_call : Type :=
| CPUIDLE_PAUSE
| DEVICE_WAKEUP_ARM_WAKE_IRQS
| SUSPEND_DEVICE_IRQS
| RESUME_DEVICE_IRQS
| DEVICE_WAKEUP_DISARM_WAKE_IRQS
| CPUIDLE_RESUME
| CPUFREQ_SUSPEND
| CPUFREQ_RESUME
| WAIT_FOR_DEVICE_PROBE
| DEVICE_BLOCK_PROBING
| DEVICE_UNBLOCK_PROBING.

Inductive trace_event : Type :=
| ev_call (cb : callback) (dev : dev_id) (ret : Z)
    (* [cb(dev)] was called and returned [ret] *)
| ev_call_legacy (cb : callback) (dev : dev_id) (state : pm_message_t) (ret : Z)
    (* [cb(dev, state)] of a legacy suspend hook returned [ret] *)
| ev_call_void (cb : callback) (dev : dev_id)
    (* a callback that returns void (->complete) was called *)
| ev_TRACE_DEVICE (dev : dev_id)
| ev_trace_suspend_resume (action : string) (ev : pm_event) (start : bool)
| ev_trace_device_pm_callback_start (dev : dev_id) (info : string) (ev : pm_event)
| ev_trace_device_pm_callback_end (dev : dev_id) (error : Z)
| ev_pm_dev_err (dev : dev_id) (state : pm_message_t) (info : string) (error : Z)
| ev_runtime_pm (call : rpm_call) (dev : dev_id)
| ev_sys (call : sys_call).

(** ** The state of the PM core *)

Inductive list_head : Type :=
| DPM_LIST
| DPM_PREPARED_LIST
| DPM_SUSPENDED_LIST
| DPM_LATE_EARLY_LIST
| DPM_NOIRQ_LIST.

Definition list_head_eqb (a b : list_head) : bool :=
  match a, b with
  | DPM_LIST, DPM_LIST
  | DPM_PREPARED_LIST, DPM_PREPARED_LIST
  | DPM_SUSPENDED_LIST, DPM_SUSPENDED_LIST
  | DPM_LATE_EARLY_LIST, DPM_LATE_EARLY_LIST
  | DPM_NOIRQ_LIST, DPM_NOIRQ_LIST => true
  | _, _ => false
  end.

(** The functions handed to async_schedule. *)
Inductive async_func_t : Type :=
| ASYNC_SUSPEND
| ASYNC_SUSPEND_LATE
| ASYNC_SUSPEND_NOIRQ
| ASYNC_RESUME
| ASYNC_RESUME_EARLY
| ASYNC_RESUME_NOIRQ.

(** A queued [async_schedule(func, dev)]. *)
Definition async_entry : Type := (async_func_t * dev_id)%type.

Record pm_state : Type := {
  devices : dev_id -> device;
  queues : list_head -> list dev_id;
  suspend_stats : suspend_stats_rec;
  pm_transition : pm_message_t;
  async_error : Z;
  async_pending : list async_entry;
  klog : list trace_event
}.

Definition dpm_list (st : pm_state) := queues st DPM_LIST.
Definition dpm_prepared_list (st : pm_state) := queues st DPM_PREPARED_LIST.
Definition dpm_suspended_list (st : pm_state) := queues st DPM_SUSPENDED_LIST.
Definition dpm_late_early_list (st : pm_state) := queues st DPM_LATE_EARLY_LIST.
Definition dpm_noirq_list (st : pm_state) := queues st DPM_NOIRQ_LIST.

(** What main.c takes from the rest of the kernel.  The oracles receive the
    history [klog], so that a callback may answer differently each time it
    is called. *)
Record environment : Type := {
  pm_async_enabled : bool;
  pm_trace_is_enabled : bool;
  CONFIG_SUSPEND : bool;
  CONFIG_HIBERNATE_CALLBACKS : bool;
  cb_result : list trace_event -> callback -> dev_id -> Z;
  legacy_result : list trace_event -> callback -> dev_id -> pm_message_t -> Z;
  pm_wakeup_pending : list trace_event -> bool;
  pm_runtime_status_suspended : list trace_event -> dev_id -> bool;
  sched : list trace_event -> list async_entry -> option nat
}.

(** ** Field updates

    Rocq records have no assignment; [set_f v r] is [r] with field [f]
    replaced by [v]. *)

Definition set_in_dpm_list (v : bool) (p : dev_pm_info) : dev_pm_info :=
  {| can_wakeup := can_wakeup p;
     wakeup := wakeup p;
     power_async_suspend := power_async_suspend p;
     in_dpm_list := v;
     is_prepared := is_prepared p;
     is_suspended := is_suspended p;
     is_noirq_suspended := is_noirq_suspended p;
     is_late_suspended := is_late_suspended p;
     no_pm := no_pm p;
     direct_complete := direct_complete p;
     wakeup_path := wakeup_path p;
     syscore := syscore p;
     no_pm_callbacks := no_pm_callbacks p;
     ignore_children := ignore_children p;
     completion := completion p |}.

Definition set_is_prepared (v : bool) (p : dev_pm_info) : dev_pm_info :=
  {| can_wakeup := can_wakeup p;
     wakeup := wakeup p;
     power_async_suspend := power_async_suspend p;
     in_dpm_list := in_dpm_list p;
     is_prepared := v;
     is_suspended := is_suspended p;
     is_noirq_suspended := is_noirq_suspended p;
     is_late_suspended := is_late_suspended p;
     no_pm := no_pm p;
     direct_complete := direct_complete p;
     wakeup_path := wakeup_path p;
     syscore := syscore p;
     no_pm_callbacks := no_pm_callbacks p;
     ignore_children := ignore_children p;
     completion := completion p |}.

Definition set_is_suspended (v : bool) (p : dev_pm_info) : dev_pm_info :=
  {| can_wakeup := can_wakeup p;
     wakeup := wakeup p;
     power_async_suspend := power_async_suspend p;
     in_dpm_list := in_dpm_list p;
     is_prepared := is_prepared p;
     is_suspended := v;
     is_noirq_suspended := is_noirq_suspended p;
     is_late_suspended := is_late_suspended p;
     no_pm := no_pm p;
     direct_complete := direct_complete p;
     wakeup_path := wakeup_path p;
     syscore := syscore p;
     no_pm_callbacks := no_pm_callbacks p;
     ignore_children := ignore_children p;
     completion := completion p |}.

Definition set_is_noirq_suspended (v : bool) (p : dev_pm_info) : dev_pm_info :=
  {| can_wakeup := can_wakeup p;
     wakeup := wakeup p;
     power_async_suspend := power_async_suspend p;
     in_dpm_list := in_dpm_list p;
     is_prepared := is_prepared p;
     is_suspended := is_suspended p;
     is_noirq_suspended := v;
     is_late_suspended := is_late_suspended p;
     no_pm := no_pm p;
     direct_complete := direct_complete p;
     wakeup_path := wakeup_path p;
     syscore := syscore p;
     no_pm_callbacks := no_pm_callbacks p;
     ignore_children := ignore_children p;
     completion := completion p |}.

Definition set_is_late_suspended (v : bool) (p : dev_pm_info) : dev_pm_info :=
  {| can_wakeup := can_wakeup p;
     wakeup := wakeup p;
     power_async_suspend := power_async_suspend p;
     in_dpm_list := in_dpm_list p;
     is_prepared := is_prepared p;
     is_suspended := is_suspended p;
     is_noirq_suspended := is_noirq_suspended p;
     is_late_suspended := v;
     no_pm := no_pm p;
     direct_complete := direct_complete p;
     wakeup_path := wakeup_path p;
     syscore := syscore p;
     no_pm_callbacks := no_pm_callbacks p;
     ignore_children := ignore_children p;
     completion := completion p |}.

Definition set_direct_complete (v : bool) (p : dev_pm_info) : dev_pm_info :=
  {| can_wakeup := can_wakeup p;
     wakeup := wakeup p;
     power_async_suspend := power_async_suspend p;
     in_dpm_list := in_dpm_list p;
     is_prepared := is_prepared p;
     is_suspended := is_suspended p;
     is_noirq_suspended := is_noirq_suspended p;
     is_late_suspended := is_late_suspended p;
     no_pm := no_pm p;
     direct_complete := v;
     wakeup_path := wakeup_path p;
     syscore := syscore p;
     no_pm_callbacks := no_pm_callbacks p;
     ignore_children := ignore_children p;
     completion := completion p |}.

Definition set_wakeup_path (v : bool) (p : dev_pm_info) : dev_pm_info :=
  {| can_wakeup := can_wakeup p;
     wakeup := wakeup p;
     power_async_suspend := power_async_suspend p;
     in_dpm_list := in_dpm_list p;
     is_prepared := is_prepared p;
     is_suspended := is_suspended p;
     is_noirq_suspended := is_noirq_suspended p;
     is_late_suspended := is_late_suspended p;
     no_pm := no_pm p;
     direct_complete := direct_complete p;
     wakeup_path := v;
     syscore := syscore p;
     no_pm_callbacks := no_pm_callbacks p;
     ignore_children := ignore_children p;
     completion := completion p |}.

Definition set_no_pm_callbacks (v : bool) (p : dev_pm_info) : dev_pm_info :=
  {| can_wakeup := can_wakeup p;
     wakeup := wakeup p;
     power_async_suspend := power_async_suspend p;
     in_dpm_list := in_dpm_list p;
     is_prepared := is_prepared p;
     is_suspended := is_suspended p;
     is_noirq_suspended := is_noirq_suspended p;
     is_late_suspended := is_late_suspended p;
     no_pm := no_pm p;
     direct_complete := direct_complete p;
     wakeup_path := wakeup_path p;
     syscore := syscore p;
     no_pm_callbacks := v;
     ignore_children := ignore_children p;
     completion := completion p |}.

Definition set_completion (v : bool) (p : dev_pm_info) : dev_pm_info :=
  {| can_wakeup := can_wakeup p;
     wakeup := wakeup p;
     power_async_suspend := power_async_suspend p;
     in_dpm_list := in_dpm_list p;
     is_prepared := is_prepared p;
     is_suspended := is_suspended p;
     is_noirq_suspended := is_noirq_suspended p;
     is_late_suspended := is_late_suspended p;
     no_pm := no_pm p;
     direct_complete := direct_complete p;
     wakeup_path := wakeup_path p;
     syscore := syscore p;
     no_pm_callbacks := no_pm_callbacks p;
     ignore_children := ignore_children p;
     completion := v |}.

Definition set_power (v : dev_pm_info) (d : device) : device :=
  {| dev_name := dev_name d;
     parent := parent d;
     children := children d;
     pm_domain := pm_domain d;
     type := type d;
     class := class d;
     bus := bus d;
     driver := driver d;
     suppliers := suppliers d;
     consumers := consumers d;
     power := v |}.

Definition set_failed_prepare (v : Z) (s : suspend_stats_rec) : suspend_stats_rec :=
  {| failed_prepare := v;
     failed_suspend := failed_suspend s;
     failed_suspend_late := failed_suspend_late s;
     failed_suspend_noirq := failed_suspend_noirq s;
     failed_resume := failed_resume s;
     failed_resume_early := failed_resume_early s;
     failed_resume_noirq := failed_resume_noirq s;
     last_failed_dev := last_failed_dev s;
     last_failed_step := last_failed_step s |}.

Definition set_failed_suspend (v : Z) (s : suspend_stats_rec) : suspend_stats_rec :=
  {| failed_prepare := failed_prepare s;
     failed_suspend := v;
     failed_suspend_late := failed_suspend_late s;
     failed_suspend_noirq := failed_suspend_noirq s;
     failed_resume := failed_resume s;
     failed_resume_early := failed_resume_early s;
     failed_resume_noirq := failed_resume_noirq s;
     last_failed_dev := last_failed_dev s;
     last_failed_step := last_failed_step s |}.

Definition set_failed_suspend_late (v : Z) (s : suspend_stats_rec) : suspend_stats_rec :=
  {| failed_prepare := failed_prepare s;
     failed_suspend := failed_suspend s;
     failed_suspend_late := v;
     failed_suspend_noirq := failed_suspend_noirq s;
     failed_resume := failed_resume s;
     failed_resume_early := failed_resume_early s;
     failed_resume_noirq := failed_resume_noirq s;
     last_failed_dev := last_failed_dev s;
     last_failed_step := last_failed_step s |}.

Definition set_failed_suspend_noirq (v : Z) (s : suspend_stats_rec) : suspend_stats_rec :=
  {| failed_prepare := failed_prepare s;
     failed_suspend := failed_suspend s;
     failed_suspend_late := failed_suspend_late s;
     failed_suspend_noirq := v;
     failed_resume := failed_resume s;
     failed_resume_early := failed_resume_early s;
     failed_resume_noirq := failed_resume_noirq s;
     last_failed_dev := last_failed_dev s;
     last_failed_step := last_failed_step s |}.

Definition set_failed_resume (v : Z) (s : suspend_stats_rec) : suspend_stats_rec :=
  {| failed_prepare := failed_prepare s;
     failed_suspend := failed_suspend s;
     failed_suspend_late := failed_suspend_late s;
     failed_suspend_noirq := failed_suspend_noirq s;
     failed_resume := v;
     failed_resume_early := failed_resume_early s;
     failed_resume_noirq := failed_resume_noirq s;
     last_failed_dev := last_failed_dev s;
     last_failed_step := last_failed_step s |}.

Definition set_failed_resume_early (v : Z) (s : suspend_stats_rec) : suspend_stats_rec :=
  {| failed_prepare := failed_prepare s;
     failed_suspend := failed_suspend s;
     failed_suspend_late := failed_suspend_late s;
     failed_suspend_noirq := failed_suspend_noirq s;
     failed_resume := failed_resume s;
     failed_resume_early := v;
     failed_resume_noirq := failed_resume_noirq s;
     last_failed_dev := last_failed_dev s;
     last_failed_step := last_failed_step s |}.

Definition set_failed_resume_noirq (v : Z) (s : suspend_stats_rec) : suspend_stats_rec :=
  {| failed_prepare := failed_prepare s;
     failed_suspend := failed_suspend s;
     failed_suspend_late := failed_suspend_late s;
     failed_suspend_noirq := failed_suspend_noirq s;
     failed_resume := failed_resume s;
     failed_resume_early := failed_resume_early s;
     failed_resume_noirq := v;
     last_failed_dev := last_failed_dev s;
     last_failed_step := last_failed_step s |}.

Definition set_last_failed_dev (v : option string) (s : suspend_stats_rec) : suspend_stats_rec :=
  {| failed_prepare := failed_prepare s;
     failed_suspend := failed_suspend s;
     failed_suspend_late := failed_suspend_late s;
     failed_suspend_noirq := failed_suspend_noirq s;
     failed_resume := failed_resume s;
     failed_resume_early := failed_resume_early s;
     failed_resume_noirq := failed_resume_noirq s;
     last_failed_dev := v;
     last_failed_step := last_failed_step s |}.

Definition set_last_failed_step (v : option suspend_stat_step) (s : suspend_stats_rec) : suspend_stats_rec :=
  {| failed_prepare := failed_prepare s;
     failed_suspend := failed_suspend s;
     failed_suspend_late := failed_suspend_late s;
     failed_suspend_noirq := failed_suspend_noirq s;
     failed_resume := failed_resume s;
     failed_resume_early := failed_resume_early s;
     failed_resume_noirq := failed_resume_noirq s;
     last_failed_dev := last_failed_dev s;
     last_failed_step := v |}.

Definition set_devices (v : dev_id -> device) (st : pm_state) : pm_state :=
  {| devices := v;
     queues := queues st;
     suspend_stats := suspend_stats st;
     pm_transition := pm_transition st;
     async_error := async_error st;
     async_pending := async_pending st;
     klog := klog st |}.

Definition set_queues (v : list_head -> list dev_id) (st : pm_state) : pm_state :=
  {| devices := devices st;
     queues := v;
     suspend_stats := suspend_stats st;
     pm_transition := pm_transition st;
     async_error := async_error st;
     async_pending := async_pending st;
     klog := klog st |}.

Definition set_suspend_stats (v : suspend_stats_rec) (st : pm_state) : pm_state :=
  {| devices := devices st;
     queues := queues st;
     suspend_stats := v;
     pm_transition := pm_transition st;
     async_error := async_error st;
     async_pending := async_pending st;
     klog := klog st |}.

Definition set_pm_transition (v : pm_message_t) (st : pm_state) : pm_state :=
  {| devices := devices st;
     queues := queues st;
     suspend_stats := suspend_stats st;
     pm_transition := v;
     async_error := async_error st;
     async_pending := async_pending st;
     klog := klog st |}.

Definition set_async_error (v : Z) (st : pm_state) : pm_state :=
  {| devices := devices st;
     queues := queues st;
     suspend_stats := suspend_stats st;
     pm_transition := pm_transition st;
     async_error := v;
     async_pending := async_pending st;
     klog := klog st |}.

Definition set_async_pending (v : list async_entry) (st : pm_state) : pm_state :=
  {| devices := devices st;
     queues := queues st;
     suspend_stats := suspend_stats st;
     pm_transition := pm_transition st;
     async_error := async_error st;
     async_pending := v;
     klog := klog st |}.

Definition set_klog (v : list trace_event) (st : pm_state) : pm_state :=
  {| devices := devices st;
     queues := queues st;
     suspend_stats := suspend_stats st;
     pm_transition := pm_transition st;
     async_error := async_error st;
     async_pending := async_pending st;
     klog := v |}.

(** ** Elementary operations on the state *)

Definition fupd {A : Type} (f : dev_id -> A) (d : dev_id) (v : A) : dev_id -> A :=
  fun x => if Nat.eqb x d then v else f x.

(** [dev->power.f = v], written [set_dev dev (set_f v)]. *)
Definition set_dev (dev : dev_id) (f : dev_pm_info -> dev_pm_info)
    (st : pm_state) : pm_state :=
  set_devices
    (fupd (devices st) dev (set_power (f (power (devices st dev))) (devices st dev)))
    st.

Definition pw (st : pm_state) (dev : dev_id) : dev_pm_info :=
  power (devices st dev).

Definition log_event (e : trace_event) (st : pm_state) : pm_state :=
  set_klog (e :: klog st) st.

Definition complete_all (dev : dev_id) (st : pm_state) : pm_state :=
  set_dev dev (set_completion true) st.

Definition reinit_completion (dev : dev_id) (st : pm_state) : pm_state :=
  set_dev dev (set_completion false) st.

Definition device_may_wakeup (d : device) : bool :=
  can_wakeup (power d) && wakeup (power d).

Definition device_pm_not_required (d : device) : bool := no_pm (power d).

Definition device_pm_initialized (d : device) : bool := in_dpm_list (power d).

(** Modelled from the spec: dpm_save_failed_dev and dpm_save_failed_step
    (include/linux/suspend.h, not among the sources) record "last failing
    device name, last failing step identifier". *)
Definition dpm_save_failed_dev (name : string) (st : pm_state) : pm_state :=
  set_suspend_stats (set_last_failed_dev (Some name) (suspend_stats st)) st.

Definition dpm_save_failed_step (step : suspend_stat_step) (st : pm_state) : pm_state :=
  set_suspend_stats (set_last_failed_step (Some step) (suspend_stats st)) st.

(** ** List primitives *)

(** The entry at [head.next]; [None] when the list is empty. *)
Definition first_entry (l : list dev_id) : option dev_id :=
  match l with
  | [] => None
  | d :: _ => Some d
  end.

(** The entry at [head.prev]; [None] when the list is empty. *)
Fixpoint last_entry (l : list dev_id) : option dev_id :=
  match l with
  | [] => None
  | [d] => Some d
  | _ :: l' => last_entry l'
  end.

Definition list_remove (dev : dev_id) (l : list dev_id) : list dev_id :=
  filter (fun x => negb (Nat.eqb x dev)) l.

(** [!list_empty(&dev->power.entry)]: the entry is linked on one of the
    lists. *)
Definition entry_linked (dev : dev_id) (st : pm_state) : bool :=
  existsb (fun h => existsb (Nat.eqb dev) (queues st h))
    [DPM_LIST; DPM_PREPARED_LIST; DPM_SUSPENDED_LIST; DPM_LATE_EARLY_LIST;
     DPM_NOIRQ_LIST].

(** [list_del(&dev->power.entry)]: the entry leaves the list it is on. *)
Definition list_del (dev : dev_id) (st : pm_state) : pm_state :=
  set_queues (fun h => list_remove dev (queues st h)) st.

Definition set_queue (h : list_head) (l : list dev_id) (st : pm_state) : pm_state :=
  set_queues (fun h' => if list_head_eqb h' h then l else queues st h') st.

(** [list_add_tail(&dev->power.entry, &head)]. *)
Definition list_add_tail (dev : dev_id) (h : list_head) (st : pm_state) : pm_state :=
  set_queue h (queues st h ++ [dev]) st.

(** [list_add(&dev->power.entry, &head)]. *)
Definition list_add (dev : dev_id) (h : list_head) (st : pm_state) : pm_state :=
  set_queue h (dev :: queues st h) st.

(** [list_move_tail(&dev->power.entry, &head)]. *)
Definition list_move_tail (dev : dev_id) (h : list_head) (st : pm_state) : pm_state :=
  list_add_tail dev h (list_del dev st).

(** [list_move(&dev->power.entry, &head)]. *)
Definition list_move (dev : dev_id) (h : list_head) (st : pm_state) : pm_state :=
  list_add dev h (list_del dev st).

Fixpoint insert_before (a b : dev_id) (l : list dev_id) : list dev_id :=
  match l with
  | [] => []
  | x :: l' => if Nat.eqb x b then a :: x :: l' else x :: insert_before a b l'
  end.

Fixpoint insert_after (a b : dev_id) (l : list dev_id) : list dev_id :=
  match l with
  | [] => []
  | x :: l' => if Nat.eqb x b then x :: a :: l' else x :: insert_after a b l'
  end.

(** [list_move_tail(&deva->power.entry, &devb->power.entry)]: [deva] is
    unlinked and linked again just before [devb], on the list [devb] is on. *)
Definition list_move_tail_entry (deva devb : dev_id) (st : pm_state) : pm_state :=
  let st := list_del deva st in
  set_queues (fun h => insert_before deva devb (queues st h)) st.

(** [list_move(&deva->power.entry, &devb->power.entry)]. *)
Definition list_move_entry (deva devb : dev_id) (st : pm_state) : pm_state :=
  let st := list_del deva st in
  set_queues (fun h => insert_after deva devb (queues st h)) st.

(** ** Registration and reordering (main.c, device_pm_add and below) *)

Definition pm_ops_is_empty (ops : option dev_pm_ops) : bool :=
  match ops with
  | None => true
  | Some ops =>
      match prepare ops, suspend ops, suspend_late ops, suspend_noirq ops,
            resume_noirq ops, resume_early ops, resume ops, complete ops with
      | None, None, None, None, None, None, None, None => true
      | _, _, _, _, _, _, _, _ => false
      end
  end.

Definition is_null {A : Type} (p : option A) : bool :=
  match p with
  | None => true
  | Some _ => false
  end.

Definition device_pm_check_callbacks (dev : dev_id) (st : pm_state) : pm_state :=
  let d := devices st dev in
  set_dev dev
    (set_no_pm_callbacks
       ((match bus d with
         | None => true
         | Some b => pm_ops_is_empty (bus_pm b) && is_null (bus_suspend b)
                     && is_null (bus_resume b)
         end)
        && (match class d with
            | None => true
            | Some c => pm_ops_is_empty (class_pm c) && is_null (class_suspend c)
                        && is_null (class_resume c)
            end)
        && (match type d with
            | None => true
            | Some t => pm_ops_is_empty (type_pm t)
            end)
        && (match pm_domain d with
            | None => true
            | Some pd => pm_ops_is_empty (Some (ops pd))
            end)
        && (match driver d with
            | None => true
            | Some drv => pm_ops_is_empty (driver_pm drv) && is_null (driver_suspend drv)
                          && is_null (driver_resume drv)
            end)))
    st.

Definition device_pm_add (dev : dev_id) (st : pm_state) : pm_state :=
  if device_pm_not_required (devices st dev) then st
  else if is_device_in_suspend_denied_list (dev_name (devices st dev)) then st
  else
    let st := device_pm_check_callbacks dev st in
    let st := list_add_tail dev DPM_LIST st in
    set_dev dev (set_in_dpm_list true) st.

Definition device_pm_move_before (deva devb : dev_id) (st : pm_state) : pm_state :=
  list_move_tail_entry deva devb st.

Definition device_pm_move_after (deva devb : dev_id) (st : pm_state) : pm_state :=
  list_move_entry deva devb st.

Definition device_pm_move_last (dev : dev_id) (st : pm_state) : pm_state :=
  if is_device_in_suspend_denied_list (dev_name (devices st dev)) then st
  else list_move_tail dev DPM_LIST st.

(** * The transition engine *)

(** The per-device functions run on the thread that drives the transition
    or on a worker of the asynchronous pool.  What they need from the thread
    that runs them is how mutex_unlock(&dpm_list_mtx) and
    wait_for_completion behave there; the two threads are [worker] and
    [main_thread] below. *)
Record thread : Type := {
  th_mutex_unlock : pm_state -> pm_state;
  th_wait_for_completion : dev_id -> pm_state -> pm_state
}.

Section Engine.

Variable E : environment.

(** ** Choice of the callback *)

(** pm_op - Return the PM operation appropriate for given PM event. *)
Definition pm_op (ops : dev_pm_ops) (state : pm_message_t) : option callback :=
  match event state with
  | PM_EVENT_SUSPEND => if CONFIG_SUSPEND E then suspend ops else None
  | PM_EVENT_RESUME => if CONFIG_SUSPEND E then resume ops else None
  | PM_EVENT_FREEZE
  | PM_EVENT_QUIESCE => if CONFIG_HIBERNATE_CALLBACKS E then freeze ops else None
  | PM_EVENT_HIBERNATE => if CONFIG_HIBERNATE_CALLBACKS E then poweroff ops else None
  | PM_EVENT_THAW
  | PM_EVENT_RECOVER => if CONFIG_HIBERNATE_CALLBACKS E then thaw ops else None
  | PM_EVENT_RESTORE => if CONFIG_HIBERNATE_CALLBACKS E then restore ops else None
  | _ => None
  end.

Definition pm_late_early_op (ops : dev_pm_ops) (state : pm_message_t) : option callback :=
  match event state with
  | PM_EVENT_SUSPEND => if CONFIG_SUSPEND E then suspend_late ops else None
  | PM_EVENT_RESUME => if CONFIG_SUSPEND E then resume_early ops else None
  | PM_EVENT_FREEZE
  | PM_EVENT_QUIESCE => if CONFIG_HIBERNATE_CALLBACKS E then freeze_late ops else None
  | PM_EVENT_HIBERNATE => if CONFIG_HIBERNATE_CALLBACKS E then poweroff_late ops else None
  | PM_EVENT_THAW
  | PM_EVENT_RECOVER => if CONFIG_HIBERNATE_CALLBACKS E then thaw_early ops else None
  | PM_EVENT_RESTORE => if CONFIG_HIBERNATE_CALLBACKS E then restore_early ops else None
  | _ => None
  end.

Definition pm_noirq_op (ops : dev_pm_ops) (state : pm_message_t) : option callback :=
  match event state with
  | PM_EVENT_SUSPEND => if CONFIG_SUSPEND E then suspend_noirq ops else None
  | PM_EVENT_RESUME => if CONFIG_SUSPEND E then resume_noirq ops else None
  | PM_EVENT_FREEZE
  | PM_EVENT_QUIESCE => if CONFIG_HIBERNATE_CALLBACKS E then freeze_noirq ops else None
  | PM_EVENT_HIBERNATE => if CONFIG_HIBERNATE_CALLBACKS E then poweroff_noirq ops else None
  | PM_EVENT_THAW
  | PM_EVENT_RECOVER => if CONFIG_HIBERNATE_CALLBACKS E then thaw_noirq ops else None
  | PM_EVENT_RESTORE => if CONFIG_HIBERNATE_CALLBACKS E then restore_noirq ops else None
  | _ => None
  end.

(** [dev->type && dev->type->pm] and its analogues: the structured table of
    a layer, when the layer is there and has one. *)
Definition type_ops (d : device) : option dev_pm_ops :=
  match type d with
  | Some t => type_pm t
  | None => None
  end.

Definition class_ops (d : device) : option dev_pm_ops :=
  match class d with
  | Some c => class_pm c
  | None => None
  end.

Definition bus_ops (d : device) : option dev_pm_ops :=
  match bus d with
  | Some b => bus_pm b
  | None => None
  end.

Definition driver_ops (d : device) : option dev_pm_ops :=
  match driver d with
  | Some drv => driver_pm drv
  | None => None
  end.

(** [if (!callback && dev->driver && dev->driver->pm)]: the driver's table
    is read when nothing was found above. *)
Definition driver_fallback (op : dev_pm_ops -> option callback) (drv_info : string)
    (d : device) (found : string * option callback) : string * option callback :=
  match snd found, driver_ops d with
  | None, Some p => (drv_info, op p)
  | _, _ => found
  end.

(** The [if (dev->pm_domain) ... else if (dev->type && dev->type->pm) ...
    else if (dev->class && dev->class->pm) ... else if (dev->bus &&
    dev->bus->pm) ...] chain followed by the driver test, as it stands in
    device_resume_noirq, device_resume_early, device_complete,
    __device_suspend_noirq, __device_suspend_late and device_prepare.  The
    copies differ by the slot read ([op]) and by the prefix of the [info]
    string.  The pair is [(info, callback)]; NULL [info] is the empty string. *)
Definition chain_callback (op : dev_pm_ops -> option callback) (prefix : string)
    (d : device) : string * option callback :=
  driver_fallback op (append prefix "driver ") d
    match pm_domain d with
    | Some pd => (append prefix "power domain ", op (ops pd))
    | None =>
        match type_ops d with
        | Some p => (append prefix "type ", op p)
        | None =>
            match class_ops d with
            | Some p => (append prefix "class ", op p)
            | None =>
                match bus_ops d with
                | Some p => (append prefix "bus ", op p)
                | None => (EmptyString, None)
                end
            end
        end
    end.

(** The choice made by device_resume (labels Driver and End). *)
Definition device_resume_callback (d : device) (state : pm_message_t)
    : string * option callback :=
  let Driver := driver_fallback (fun p => pm_op p state) "driver " d in
  let Bus :=
    match bus d with
    | Some b =>
        match bus_pm b with
        | Some p => Driver ("bus "%string, pm_op p state)
        | None =>
            match bus_resume b with
            | Some f => ("legacy bus "%string, Some f)
            | None => Driver (EmptyString, None)
            end
        end
    | None => Driver (EmptyString, None)
    end in
  match pm_domain d with
  | Some pd => Driver ("power domain "%string, pm_op (ops pd) state)
  | None =>
      match type_ops d with
      | Some p => Driver ("type "%string, pm_op p state)
      | None =>
          match class d with
          | Some c =>
              match class_pm c with
              | Some p => Driver ("class "%string, pm_op p state)
              | None =>
                  match class_resume c with
                  | Some f => ("legacy class "%string, Some f)
                  | None => Bus
                  end
              end
          | None => Bus
          end
      end
  end.

(** What __device_suspend decides to run: a callback through
    dpm_run_callback (label Run) or a legacy hook through legacy_suspend. *)
Inductive suspend_action : Type :=
| Run (info : string) (callback : option callback)
| Legacy (info : string) (cb : callback).

Definition device_suspend_callback (d : device) (state : pm_message_t)
    : suspend_action :=
  let Run_ found :=
    let r := driver_fallback (fun p => pm_op p state) "driver " d found in
    Run (fst r) (snd r) in
  let Bus :=
    match bus d with
    | Some b =>
        match bus_pm b with
        | Some p => Run_ ("bus "%string, pm_op p state)
        | None =>
            match bus_suspend b with
            | Some f => Legacy "legacy bus " f
            | None => Run_ (EmptyString, None)
            end
        end
    | None => Run_ (EmptyString, None)
    end in
  match pm_domain d with
  | Some pd => Run_ ("power domain "%string, pm_op (ops pd) state)
  | None =>
      match type_ops d with
      | Some p => Run_ ("type "%string, pm_op p state)
      | None =>
          match class d with
          | Some c =>
              match class_pm c with
              | Some p => Run_ ("class "%string, pm_op p state)
              | None =>
                  match class_suspend c with
                  | Some f => Legacy "legacy class " f
                  | None => Bus
                  end
              end
          | None => Bus
          end
      end
  end.

(** ** Running a callback *)

Definition dpm_run_callback (cb : option callback) (dev : dev_id)
    (state : pm_message_t) (info : string) (st : pm_state) : Z * pm_state :=
  match cb with
  | None => (0%Z, st)
  | Some f =>
      let st := log_event (ev_trace_device_pm_callback_start dev info (event state)) st in
      let error := cb_result E (klog st) f dev in
      let st := log_event (ev_call f dev error) st in
      let st := log_event (ev_trace_device_pm_callback_end dev error) st in
      (error, st)
  end.

Definition legacy_suspend (dev : dev_id) (state : pm_message_t) (cb : callback)
    (info : string) (st : pm_state) : Z * pm_state :=
  let st := log_event (ev_trace_device_pm_callback_start dev info (event state)) st in
  let error := legacy_result E (klog st) cb dev state in
  let st := log_event (ev_call_legacy cb dev state error) st in
  let st := log_event (ev_trace_device_pm_callback_end dev error) st in
  (error, st).

(** ** Waiting for dependencies *)

Section PerDevice.

Variable T : thread.

(** dpm_wait; [dev] is [None] for a NULL pointer. *)
Definition dpm_wait (dev : option dev_id) (async : bool) (st : pm_state) : pm_state :=
  match dev with
  | None => st
  | Some d =>
      if async || (pm_async_enabled E && power_async_suspend (pw st d))
      then th_wait_for_completion T d st
      else st
  end.

Definition dpm_wait_for_children (dev : dev_id) (async : bool)
    (st : pm_state) : pm_state :=
  fold_left (fun st child => dpm_wait (Some child) async st)
    (children (devices st dev)) st.

Definition dpm_wait_for_suppliers (dev : dev_id) (async : bool)
    (st : pm_state) : pm_state :=
  fold_left
    (fun st link =>
       if negb (link_dormant link) then dpm_wait (Some (link_supplier link)) async st
       else st)
    (suppliers (devices st dev)) st.

(** The result is the state after the waits and the value returned. *)
Definition dpm_wait_for_superior (dev : dev_id) (async : bool)
    (st : pm_state) : bool * pm_state :=
  if negb (device_pm_initialized (devices st dev)) then (false, th_mutex_unlock T st)
  else
    let parent := parent (devices st dev) in
    let st := th_mutex_unlock T st in
    let st := dpm_wait parent async st in
    let st := dpm_wait_for_suppliers dev async st in
    (device_pm_initialized (devices st dev), st).

Definition dpm_wait_for_consumers (dev : dev_id) (async : bool)
    (st : pm_state) : pm_state :=
  fold_left
    (fun st link =>
       if negb (link_dormant link) then dpm_wait (Some (link_consumer link)) async st
       else st)
    (consumers (devices st dev)) st.

Definition dpm_wait_for_subordinate (dev : dev_id) (async : bool)
    (st : pm_state) : pm_state :=
  dpm_wait_for_consumers dev async (dpm_wait_for_children dev async st).

(** ** Resume routines, per device *)

Definition device_resume_noirq (dev : dev_id) (state : pm_message_t)
    (async : bool) (st : pm_state) : Z * pm_state :=
  let st := log_event (ev_TRACE_DEVICE dev) st in
  let Out (error : Z) (st : pm_state) := (error, complete_all dev st) in
  if syscore (pw st dev) || direct_complete (pw st dev) then Out 0%Z st
  else if negb (is_noirq_suspended (pw st dev)) then Out 0%Z st
  else
    let '(ok, st) := dpm_wait_for_superior dev async st in
    if negb ok then Out 0%Z st
    else
    let '(info, callback) :=
      chain_callback (fun p => pm_noirq_op p state) "noirq " (devices st dev) in
    let '(error, st) := dpm_run_callback callback dev state info st in
    let st := set_dev dev (set_is_noirq_suspended false) st in
    Out error st.

Definition is_async (dev : dev_id) (st : pm_state) : bool :=
  power_async_suspend (pw st dev) && pm_async_enabled E
  && negb (pm_trace_is_enabled E).

Definition device_resume_early (dev : dev_id) (state : pm_message_t)
    (async : bool) (st : pm_state) : Z * pm_state :=
  let st := log_event (ev_TRACE_DEVICE dev) st in
  let Out (error : Z) (st : pm_state) :=
    (error, complete_all dev (log_event (ev_runtime_pm PM_RUNTIME_ENABLE dev) st)) in
  if syscore (pw st dev) || direct_complete (pw st dev) then Out 0%Z st
  else if negb (is_late_suspended (pw st dev)) then Out 0%Z st
  else
    let '(ok, st) := dpm_wait_for_superior dev async st in
    if negb ok then Out 0%Z st
    else
    let '(info, callback) :=
      chain_callback (fun p => pm_late_early_op p state) "early " (devices st dev) in
    let '(error, st) := dpm_run_callback callback dev state info st in
    let st := set_dev dev (set_is_late_suspended false) st in
    Out error st.

Definition device_resume (dev : dev_id) (state : pm_message_t)
    (async : bool) (st : pm_state) : Z * pm_state :=
  let st := log_event (ev_TRACE_DEVICE dev) st in
  let Complete (error : Z) (st : pm_state) := (error, complete_all dev st) in
  if syscore (pw st dev) then Complete 0%Z st
  else if direct_complete (pw st dev) then
    Complete 0%Z (log_event (ev_runtime_pm PM_RUNTIME_ENABLE dev) st)
  else
    let '(ok, st) := dpm_wait_for_superior dev async st in
    if negb ok then Complete 0%Z st
    else
    let st := set_dev dev (set_is_prepared false) st in
    if negb (is_suspended (pw st dev)) then Complete 0%Z st
    else
      let '(info, callback) := device_resume_callback (devices st dev) state in
      let '(error, st) := dpm_run_callback callback dev state info st in
      let st := set_dev dev (set_is_suspended false) st in
      Complete error st.

Definition device_complete (dev : dev_id) (state : pm_message_t)
    (st : pm_state) : pm_state :=
  if syscore (pw st dev) then st
  else
    let '(info, callback) := chain_callback complete "completing " (devices st dev) in
    let st :=
      match callback with
      | Some f => log_event (ev_call_void f dev) st
      | None => st
      end in
    log_event (ev_runtime_pm PM_RUNTIME_PUT dev) st.

(** ** Suspend routines, per device *)

Definition resume_event (sleep_state : pm_message_t) : pm_message_t :=
  match event sleep_state with
  | PM_EVENT_SUSPEND => PMSG_RESUME
  | PM_EVENT_FREEZE
  | PM_EVENT_QUIESCE => PMSG_RECOVER
  | PM_EVENT_HIBERNATE => PMSG_RESTORE
  | _ => PMSG_ON
  end.

Definition __device_suspend_noirq (dev : dev_id) (state : pm_message_t)
    (async : bool) (st : pm_state) : Z * pm_state :=
  let st := log_event (ev_TRACE_DEVICE dev) st in
  let st := dpm_wait_for_subordinate dev async st in
  let Complete (error : Z) (st : pm_state) := (error, complete_all dev st) in
  if negb (async_error st =? 0)%Z then Complete 0%Z st
  else if pm_wakeup_pending E (klog st) then
    Complete 0%Z (set_async_error (- EBUSY)%Z st)
  else if syscore (pw st dev) || direct_complete (pw st dev) then Complete 0%Z st
  else
    let '(info, callback) :=
      chain_callback (fun p => pm_noirq_op p state) "noirq " (devices st dev) in
    let '(error, st) := dpm_run_callback callback dev state info st in
    let st :=
      if (error =? 0)%Z then set_dev dev (set_is_noirq_suspended true) st
      else set_async_error error st in
    Complete error st.

Definition __device_suspend_late (dev : dev_id) (state : pm_message_t)
    (async : bool) (st : pm_state) : Z * pm_state :=
  let st := log_event (ev_TRACE_DEVICE dev) st in
  let st := log_event (ev_runtime_pm PM_RUNTIME_DISABLE dev) st in
  let st := dpm_wait_for_subordinate dev async st in
  let Complete (error : Z) (st : pm_state) := (error, complete_all dev st) in
  if negb (async_error st =? 0)%Z then Complete 0%Z st
  else if pm_wakeup_pending E (klog st) then
    Complete 0%Z (set_async_error (- EBUSY)%Z st)
  else if syscore (pw st dev) || direct_complete (pw st dev) then Complete 0%Z st
  else
    let '(info, callback) :=
      chain_callback (fun p => pm_late_early_op p state) "late " (devices st dev) in
    let '(error, st) := dpm_run_callback callback dev state info st in
    let st :=
      if (error =? 0)%Z then set_dev dev (set_is_late_suspended true) st
      else set_async_error error st in
    Complete error st.

Definition dpm_clear_suppliers_direct_complete (dev : dev_id)
    (st : pm_state) : pm_state :=
  fold_left (fun st link => set_dev (link_supplier link) (set_direct_complete false) st)
    (suppliers (devices st dev)) st.

(** The [if (dev->power.direct_complete)] block of __device_suspend; the
    boolean says whether the function jumps to Complete. *)
Definition suspend_direct_complete (dev : dev_id) (st : pm_state) : bool * pm_state :=
  if direct_complete (pw st dev) then
    if pm_runtime_status_suspended E (klog st) dev then
      let st := log_event (ev_runtime_pm PM_RUNTIME_DISABLE dev) st in
      if pm_runtime_status_suspended E (klog st) dev then (true, st)
      else
        let st := log_event (ev_runtime_pm PM_RUNTIME_ENABLE dev) st in
        (false, set_dev dev (set_direct_complete false) st)
    else (false, set_dev dev (set_direct_complete false) st)
  else (false, st).

(** The block under [if (!error)] at label End of __device_suspend. *)
Definition suspend_succeeded (dev : dev_id) (st : pm_state) : pm_state :=
  let st := set_dev dev (set_is_suspended true) st in
  let st :=
    match parent (devices st dev) with
    | Some p =>
        let st := set_dev p (set_direct_complete false) st in
        if wakeup_path (pw st dev) && negb (ignore_children (pw st p))
        then set_dev p (set_wakeup_path true) st
        else st
    | None => st
    end in
  dpm_clear_suppliers_direct_complete dev st.

Definition __device_suspend (dev : dev_id) (state : pm_message_t)
    (async : bool) (st : pm_state) : Z * pm_state :=
  let st := log_event (ev_TRACE_DEVICE dev) st in
  let st := dpm_wait_for_subordinate dev async st in
  let Complete (error : Z) (st : pm_state) :=
    let st := if negb (error =? 0)%Z then set_async_error error st else st in
    (error, complete_all dev st) in
  if negb (async_error st =? 0)%Z then
    Complete 0%Z (set_dev dev (set_direct_complete false) st)
  else
    let st := log_event (ev_runtime_pm PM_RUNTIME_BARRIER dev) st in
    if pm_wakeup_pending E (klog st) then
      let st := set_dev dev (set_direct_complete false) st in
      Complete 0%Z (set_async_error (- EBUSY)%Z st)
    else if syscore (pw st dev) then Complete 0%Z st
    else
      let st :=
        if device_may_wakeup (devices st dev) || wakeup_path (pw st dev)
        then set_dev dev (set_direct_complete false) st
        else st in
      let '(skip, st) := suspend_direct_complete dev st in
      if skip then Complete 0%Z st
      else
        let '(error, st) :=
          match device_suspend_callback (devices st dev) state with
          | Run info callback => dpm_run_callback callback dev state info st
          | Legacy info cb => legacy_suspend dev state cb info st
          end in
        let st := if (error =? 0)%Z then suspend_succeeded dev st else st in
        Complete error st.

Definition device_prepare (dev : dev_id) (state : pm_message_t)
    (st : pm_state) : Z * pm_state :=
  if syscore (pw st dev) then (0%Z, st)
  else
    let st := log_event (ev_runtime_pm PM_RUNTIME_GET_NORESUME dev) st in
    let st := set_dev dev (set_wakeup_path (device_may_wakeup (devices st dev))) st in
    let '(ret, st) :=
      if no_pm_callbacks (pw st dev) then (1%Z, st)
      else
        match snd (chain_callback prepare "" (devices st dev)) with
        | Some f =>
            let ret := cb_result E (klog st) f dev in
            (ret, log_event (ev_call f dev ret) st)
        | None => (0%Z, st)
        end in
    if (ret <? 0)%Z then (ret, log_event (ev_runtime_pm PM_RUNTIME_PUT dev) st)
    else
      (0%Z,
       set_dev dev
         (set_direct_complete
            ((0 <? ret)%Z
             && match event state with PM_EVENT_SUSPEND => true | _ => false end))
         st).

End PerDevice.

(** ** The functions run by the asynchronous pool

    A function queued with async_schedule runs on a worker thread of the
    pool.  In this model it runs as one indivisible step, and the pool
    starts it only in a state in which every completion it waits for is
    done ([ready], below): on a worker the waits therefore return at once,
    and dpm_list_mtx is free whenever a step begins.  A worker that would
    have to sleep in wait_for_completion is a queued function that has not
    run yet. *)

Definition worker : thread :=
  {| th_mutex_unlock := fun st => st;
     th_wait_for_completion := fun _ st => st |}.

Definition async_resume_noirq (dev : dev_id) (st : pm_state) : pm_state :=
  let '(error, st) := device_resume_noirq worker dev (pm_transition st) true st in
  if negb (error =? 0)%Z
  then log_event (ev_pm_dev_err dev (pm_transition st) " async" error) st
  else st.

Definition async_resume_early (dev : dev_id) (st : pm_state) : pm_state :=
  let '(error, st) := device_resume_early worker dev (pm_transition st) true st in
  if negb (error =? 0)%Z
  then log_event (ev_pm_dev_err dev (pm_transition st) " async" error) st
  else st.

Definition async_resume (dev : dev_id) (st : pm_state) : pm_state :=
  let '(error, st) := device_resume worker dev (pm_transition st) true st in
  if negb (error =? 0)%Z
  then log_event (ev_pm_dev_err dev (pm_transition st) " async" error) st
  else st.

Definition async_suspend_noirq (dev : dev_id) (st : pm_state) : pm_state :=
  let '(error, st) := __device_suspend_noirq worker dev (pm_transition st) true st in
  if negb (error =? 0)%Z then
    let st := dpm_save_failed_dev (dev_name (devices st dev)) st in
    log_event (ev_pm_dev_err dev (pm_transition st) " async" error) st
  else st.

Definition async_suspend_late (dev : dev_id) (st : pm_state) : pm_state :=
  let '(error, st) := __device_suspend_late worker dev (pm_transition st) true st in
  if negb (error =? 0)%Z then
    let st := dpm_save_failed_dev (dev_name (devices st dev)) st in
    log_event (ev_pm_dev_err dev (pm_transition st) " async" error) st
  else st.

Definition async_suspend (dev : dev_id) (st : pm_state) : pm_state :=
  let '(error, st) := __device_suspend worker dev (pm_transition st) true st in
  if negb (error =? 0)%Z then
    let st := dpm_save_failed_dev (dev_name (devices st dev)) st in
    log_event (ev_pm_dev_err dev (pm_transition st) " async" error) st
  else st.

(** ** The asynchronous pool

    async_schedule queues a function for a worker (or runs it at once when
    the pool is saturated), and the workers run in parallel with the thread
    that drives the transition.  Here a queued function runs as one
    indivisible step, once the completions it waits for are done.  The pool
    gets to run where the driving thread calls async_schedule, where it
    releases dpm_list_mtx and where it sleeps in wait_for_completion; which
    queued entry runs, and whether any does, is the choice of [sched].
    async_synchronize_full runs whatever is still queued. *)

Definition run_async (t : async_entry) (st : pm_state) : pm_state :=
  match fst t with
  | ASYNC_SUSPEND => async_suspend (snd t) st
  | ASYNC_SUSPEND_LATE => async_suspend_late (snd t) st
  | ASYNC_SUSPEND_NOIRQ => async_suspend_noirq (snd t) st
  | ASYNC_RESUME => async_resume (snd t) st
  | ASYNC_RESUME_EARLY => async_resume_early (snd t) st
  | ASYNC_RESUME_NOIRQ => async_resume_noirq (snd t) st
  end.

(** The links of a list whose status is not DL_STATE_DORMANT. *)
Definition active_links (l : list device_link) : list device_link :=
  filter (fun link => negb (link_dormant link)) l.

(** The devices dpm_wait_for_subordinate calls dpm_wait on. *)
Definition subordinates (dev : dev_id) (st : pm_state) : list dev_id :=
  children (devices st dev)
  ++ map link_consumer (active_links (consumers (devices st dev))).

(** The devices dpm_wait_for_superior calls dpm_wait on. *)
Definition superiors (dev : dev_id) (st : pm_state) : list dev_id :=
  match parent (devices st dev) with
  | Some p => [p]
  | None => []
  end
  ++ map link_supplier (active_links (suppliers (devices st dev))).

(** The devices whose completion the queued function [t] waits for.  It is
    called with [async] true, so that every dpm_wait it reaches is a
    wait_for_completion: a suspend-direction function waits for the
    subordinates of its device first of all; a resume-direction function
    waits for the superiors when it gets as far as dpm_wait_for_superior
    and finds the device registered. *)
Definition awaited (t : async_entry) (st : pm_state) : list dev_id :=
  let dev := snd t in
  let p := pw st dev in
  match fst t with
  | ASYNC_SUSPEND | ASYNC_SUSPEND_LATE | ASYNC_SUSPEND_NOIRQ => subordinates dev st
  | ASYNC_RESUME_NOIRQ =>
      if syscore p || direct_complete p || negb (is_noirq_suspended p)
         || negb (in_dpm_list p)
      then [] else superiors dev st
  | ASYNC_RESUME_EARLY =>
      if syscore p || direct_complete p || negb (is_late_suspended p)
         || negb (in_dpm_list p)
      then [] else superiors dev st
  | ASYNC_RESUME =>
      if syscore p || direct_complete p || negb (in_dpm_list p)
      then [] else superiors dev st
  end.

(** The queued function [t] would not sleep: the completions it waits for
    are done. *)
Definition ready (t : async_entry) (st : pm_state) : bool :=
  forallb (fun d => completion (pw st d)) (awaited t st).

Fixpoint remove_nth {A : Type} (n : nat) (l : list A) : list A :=
  match n, l with
  | _, [] => []
  | O, _ :: l' => l'
  | S n', x :: l' => x :: remove_nth n' l'
  end.

(** Takes entry [i] off the queue and runs it. *)
Definition run_entry (i : nat) (t : async_entry) (st : pm_state) : pm_state :=
  run_async t (set_async_pending (remove_nth i (async_pending st)) st).

(** The pool runs the entries the scheduler names, as long as it names a
    queued entry that is ready. *)
Fixpoint run_scheduled (fuel : nat) (st : pm_state) : pm_state :=
  match fuel with
  | O => st
  | S fuel' =>
      match sched E (klog st) (async_pending st) with
      | None => st
      | Some i =>
          match nth_error (async_pending st) i with
          | None => st
          | Some t =>
              if ready t st then run_scheduled fuel' (run_entry i t st) else st
          end
      end
  end.

(** A point where the pool may run.  A queued function queues nothing, so
    no more than [List.length (async_pending st)] entries can run. *)
Definition sched_point (st : pm_state) : pm_state :=
  run_scheduled (List.length (async_pending st)) st.

Definition async_schedule (func : async_func_t) (dev : dev_id)
    (st : pm_state) : pm_state :=
  sched_point (set_async_pending (async_pending st ++ [(func, dev)]) st).

Definition mutex_unlock (st : pm_state) : pm_state := sched_point st.

(** The position of the oldest entry of [l] that is ready. *)
Fixpoint first_ready (l : list async_entry) (st : pm_state) : option nat :=
  match l with
  | [] => None
  | t :: l' => if ready t st then Some O else option_map S (first_ready l' st)
  end.

(** The entry the pool runs while the driving thread sleeps: the
    scheduler's choice when it names a queued entry that is ready, the
    oldest ready entry otherwise; [None] when no queued entry is ready. *)
Definition ready_entry (st : pm_state) : option nat :=
  match sched E (klog st) (async_pending st) with
  | Some i =>
      match nth_error (async_pending st) i with
      | Some t => if ready t st then Some i else first_ready (async_pending st) st
      | None => first_ready (async_pending st) st
      end
  | None => first_ready (async_pending st) st
  end.

(** When functions are queued and none is ready, they wait for one another
    or for a device that nobody completes: the kernel would sleep for ever.
    The model has no such state; it goes on with the oldest entry. *)
Definition next_entry (st : pm_state) : nat :=
  match ready_entry st with
  | Some i => i
  | None => O
  end.

Fixpoint run_all (fuel : nat) (st : pm_state) : pm_state :=
  match fuel with
  | O => st
  | S fuel' =>
      match nth_error (async_pending st) (next_entry st) with
      | None => st
      | Some t => run_all fuel' (run_entry (next_entry st) t st)
      end
  end.

Definition async_synchronize_full (st : pm_state) : pm_state :=
  run_all (List.length (async_pending st)) st.

(** wait_for_completion(&d->power.completion) on the driving thread: the
    pool runs until the completion of [d] is done.  When it is not done
    and no queued entry is ready the kernel would sleep for ever; the
    function then returns with the completion as it is. *)
Fixpoint run_until (fuel : nat) (d : dev_id) (st : pm_state) : pm_state :=
  match fuel with
  | O => st
  | S fuel' =>
      if completion (pw st d) then st
      else
        match ready_entry st with
        | None => st
        | Some i =>
            match nth_error (async_pending st) i with
            | None => st
            | Some t => run_until fuel' d (run_entry i t st)
            end
        end
  end.

Definition wait_for_completion (d : dev_id) (st : pm_state) : pm_state :=
  run_until (List.length (async_pending st)) d st.

(** The thread that drives the transition. *)
Definition main_thread : thread :=
  {| th_mutex_unlock := mutex_unlock;
     th_wait_for_completion := wait_for_completion |}.

(** ** Resume-direction phases *)

(** The [list_for_each_entry] loop at the head of the three resume phases:
    completions are reset and the asynchronous devices are started. *)
Definition start_async_resume (func : async_func_t) (l : list dev_id)
    (st : pm_state) : pm_state :=
  fold_left
    (fun st dev =>
       let st := reinit_completion dev st in
       if is_async dev st then async_schedule func dev st else st)
    l st.

Definition inc_failed_resume_noirq (st : pm_state) : pm_state :=
  set_suspend_stats
    (set_failed_resume_noirq (int_incr (failed_resume_noirq (suspend_stats st)))
       (suspend_stats st)) st.

Definition inc_failed_resume_early (st : pm_state) : pm_state :=
  set_suspend_stats
    (set_failed_resume_early (int_incr (failed_resume_early (suspend_stats st)))
       (suspend_stats st)) st.

Definition inc_failed_resume (st : pm_state) : pm_state :=
  set_suspend_stats
    (set_failed_resume (int_incr (failed_resume (suspend_stats st)))
       (suspend_stats st)) st.

Definition inc_failed_suspend (st : pm_state) : pm_state :=
  set_suspend_stats
    (set_failed_suspend (int_incr (failed_suspend (suspend_stats st)))
       (suspend_stats st)) st.

Definition inc_failed_suspend_late (st : pm_state) : pm_state :=
  set_suspend_stats
    (set_failed_suspend_late (int_incr (failed_suspend_late (suspend_stats st)))
       (suspend_stats st)) st.

Definition inc_failed_suspend_noirq (st : pm_state) : pm_state :=
  set_suspend_stats
    (set_failed_suspend_noirq (int_incr (failed_suspend_noirq (suspend_stats st)))
       (suspend_stats st)) st.

Definition inc_failed_prepare (st : pm_state) : pm_state :=
  set_suspend_stats
    (set_failed_prepare (int_incr (failed_prepare (suspend_stats st)))
       (suspend_stats st)) st.

(** The [while (!list_empty(&dpm_noirq_list))] loop.  Every turn takes the
    head entry off dpm_noirq_list, so [fuel] turns empty a list of [fuel]
    entries (lemma [dpm_noirq_resume_loop_drains]). *)
Fixpoint dpm_noirq_resume_loop (fuel : nat) (state : pm_message_t)
    (st : pm_state) : pm_state :=
  match fuel with
  | O => st
  | S fuel' =>
      match first_entry (dpm_noirq_list st) with
      | None => st
      | Some dev =>
          let st := list_move_tail dev DPM_LATE_EARLY_LIST st in
          let st := mutex_unlock st in
          let st :=
            if negb (is_async dev st) then
              let '(error, st) := device_resume_noirq main_thread dev state false st in
              if negb (error =? 0)%Z then
                let st := inc_failed_resume_noirq st in
                let st := dpm_save_failed_step SUSPEND_RESUME_NOIRQ st in
                let st := dpm_save_failed_dev (dev_name (devices st dev)) st in
                log_event (ev_pm_dev_err dev state " noirq" error) st
              else st
            else st in
          dpm_noirq_resume_loop fuel' state st
      end
  end.

Definition dpm_noirq_resume_devices (state : pm_message_t) (st : pm_state) : pm_state :=
  let st := log_event (ev_trace_suspend_resume "dpm_resume_noirq" (event state) true) st in
  let st := set_pm_transition state st in
  let st := start_async_resume ASYNC_RESUME_NOIRQ (dpm_noirq_list st) st in
  let st := dpm_noirq_resume_loop (List.length (dpm_noirq_list st)) state st in
  let st := mutex_unlock st in
  let st := async_synchronize_full st in
  log_event (ev_trace_suspend_resume "dpm_resume_noirq" (event state) false) st.

Definition dpm_noirq_end (st : pm_state) : pm_state :=
  let st := log_event (ev_sys RESUME_DEVICE_IRQS) st in
  let st := log_event (ev_sys DEVICE_WAKEUP_DISARM_WAKE_IRQS) st in
  log_event (ev_sys CPUIDLE_RESUME) st.

Definition dpm_resume_noirq (state : pm_message_t) (st : pm_state) : pm_state :=
  dpm_noirq_end (dpm_noirq_resume_devices state st).

Fixpoint dpm_resume_early_loop (fuel : nat) (state : pm_message_t)
    (st : pm_state) : pm_state :=
  match fuel with
  | O => st
  | S fuel' =>
      match first_entry (dpm_late_early_list st) with
      | None => st
      | Some dev =>
          let st := list_move_tail dev DPM_SUSPENDED_LIST st in
          let st := mutex_unlock st in
          let st :=
            if negb (is_async dev st) then
              let '(error, st) := device_resume_early main_thread dev state false st in
              if negb (error =? 0)%Z then
                let st := inc_failed_resume_early st in
                let st := dpm_save_failed_step SUSPEND_RESUME_EARLY st in
                let st := dpm_save_failed_dev (dev_name (devices st dev)) st in
                log_event (ev_pm_dev_err dev state " early" error) st
              else st
            else st in
          dpm_resume_early_loop fuel' state st
      end
  end.

Definition dpm_resume_early (state : pm_message_t) (st : pm_state) : pm_state :=
  let st := log_event (ev_trace_suspend_resume "dpm_resume_early" (event state) true) st in
  let st := set_pm_transition state st in
  let st := start_async_resume ASYNC_RESUME_EARLY (dpm_late_early_list st) st in
  let st := dpm_resume_early_loop (List.length (dpm_late_early_list st)) state st in
  let st := mutex_unlock st in
  let st := async_synchronize_full st in
  log_event (ev_trace_suspend_resume "dpm_resume_early" (event state) false) st.

Definition dpm_resume_start (state : pm_message_t) (st : pm_state) : pm_state :=
  dpm_resume_early state (dpm_resume_noirq state st).

Fixpoint dpm_resume_loop (fuel : nat) (state : pm_message_t)
    (st : pm_state) : pm_state :=
  match fuel with
  | O => st
  | S fuel' =>
      match first_entry (dpm_suspended_list st) with
      | None => st
      | Some dev =>
          let st :=
            if negb (is_async dev st) then
              let st := mutex_unlock st in
              let '(error, st) := device_resume main_thread dev state false st in
              if negb (error =? 0)%Z then
                let st := inc_failed_resume st in
                let st := dpm_save_failed_step SUSPEND_RESUME st in
                let st := dpm_save_failed_dev (dev_name (devices st dev)) st in
                log_event (ev_pm_dev_err dev state "" error) st
              else st
            else st in
          let st :=
            if entry_linked dev st then list_move_tail dev DPM_PREPARED_LIST st
            else st in
          dpm_resume_loop fuel' state st
      end
  end.

Definition dpm_resume (state : pm_message_t) (st : pm_state) : pm_state :=
  let st := log_event (ev_trace_suspend_resume "dpm_resume" (event state) true) st in
  let st := set_pm_transition state st in
  let st := set_async_error 0%Z st in
  let st := start_async_resume ASYNC_RESUME (dpm_suspended_list st) st in
  let st := dpm_resume_loop (List.length (dpm_suspended_list st)) state st in
  let st := mutex_unlock st in
  let st := async_synchronize_full st in
  let st := log_event (ev_sys CPUFREQ_RESUME) st in
  log_event (ev_trace_suspend_resume "dpm_resume" (event state) false) st.

(** The loop of dpm_complete; [local] is the list head [list] local to dpm_complete. *)
Fixpoint dpm_complete_loop (fuel : nat) (state : pm_message_t)
    (local : list dev_id) (st : pm_state) : list dev_id * pm_state :=
  match fuel with
  | O => (local, st)
  | S fuel' =>
      match last_entry (dpm_prepared_list st) with
      | None => (local, st)
      | Some dev =>
          let st := set_dev dev (set_is_prepared false) st in
          let st := list_del dev st in
          let local := dev :: local in
          let st := mutex_unlock st in
          let st := log_event (ev_trace_device_pm_callback_start dev "" (event state)) st in
          let st := device_complete dev state st in
          let st := log_event (ev_trace_device_pm_callback_end dev 0) st in
          dpm_complete_loop fuel' state local st
      end
  end.

Definition dpm_complete (state : pm_message_t) (st : pm_state) : pm_state :=
  let st := log_event (ev_trace_suspend_resume "dpm_complete" (event state) true) st in
  let '(local, st) :=
    dpm_complete_loop (List.length (dpm_prepared_list st)) state [] st in
  let st := set_queue DPM_LIST (local ++ dpm_list st) st in
  let st := mutex_unlock st in
  let st := log_event (ev_sys DEVICE_UNBLOCK_PROBING) st in
  log_event (ev_trace_suspend_resume "dpm_complete" (event state) false) st.

Definition dpm_resume_end (state : pm_message_t) (st : pm_state) : pm_state :=
  dpm_complete state (dpm_resume state st).

(** ** Suspend-direction phases *)

Definition device_suspend_noirq (dev : dev_id) (st : pm_state) : Z * pm_state :=
  let st := reinit_completion dev st in
  if is_async dev st then (0%Z, async_schedule ASYNC_SUSPEND_NOIRQ dev st)
  else __device_suspend_noirq main_thread dev (pm_transition st) false st.

Definition dpm_noirq_begin (st : pm_state) : pm_state :=
  let st := log_event (ev_sys CPUIDLE_PAUSE) st in
  let st := log_event (ev_sys DEVICE_WAKEUP_ARM_WAKE_IRQS) st in
  log_event (ev_sys SUSPEND_DEVICE_IRQS) st.

(** The [while (!list_empty(&dpm_late_early_list))] loop; the result is the
    value of [error] on exit. *)
Fixpoint dpm_noirq_suspend_loop (fuel : nat) (state : pm_message_t)
    (st : pm_state) : Z * pm_state :=
  match fuel with
  | O => (0%Z, st)
  | S fuel' =>
      match last_entry (dpm_late_early_list st) with
      | None => (0%Z, st)
      | Some dev =>
          let st := mutex_unlock st in
          let '(error, st) := device_suspend_noirq dev st in
          if negb (error =? 0)%Z then
            let st := log_event (ev_pm_dev_err dev state " noirq" error) st in
            (error, dpm_save_failed_dev (dev_name (devices st dev)) st)
          else
            let st :=
              if entry_linked dev st then list_move dev DPM_NOIRQ_LIST st
              else st in
            if negb (async_error st =? 0)%Z then (error, st)
            else dpm_noirq_suspend_loop fuel' state st
      end
  end.

Definition dpm_noirq_suspend_devices (state : pm_message_t)
    (st : pm_state) : Z * pm_state :=
  let st := log_event (ev_trace_suspend_resume "dpm_suspend_noirq" (event state) true) st in
  let st := set_pm_transition state st in
  let st := set_async_error 0%Z st in
  let '(error, st) :=
    dpm_noirq_suspend_loop (List.length (dpm_late_early_list st)) state st in
  let st := mutex_unlock st in
  let st := async_synchronize_full st in
  let error := if (error =? 0)%Z then async_error st else error in
  let st :=
    if negb (error =? 0)%Z then
      dpm_save_failed_step SUSPEND_SUSPEND_NOIRQ (inc_failed_suspend_noirq st)
    else st in
  (error, log_event (ev_trace_suspend_resume "dpm_suspend_noirq" (event state) false) st).

Definition dpm_suspend_noirq (state : pm_message_t) (st : pm_state) : Z * pm_state :=
  let st := dpm_noirq_begin st in
  let '(ret, st) := dpm_noirq_suspend_devices state st in
  if negb (ret =? 0)%Z then (ret, dpm_resume_noirq (resume_event state) st)
  else (ret, st).

Definition device_suspend_late (dev : dev_id) (st : pm_state) : Z * pm_state :=
  let st := reinit_completion dev st in
  if is_async dev st then (0%Z, async_schedule ASYNC_SUSPEND_LATE dev st)
  else __device_suspend_late main_thread dev (pm_transition st) false st.

Fixpoint dpm_suspend_late_loop (fuel : nat) (state : pm_message_t)
    (st : pm_state) : Z * pm_state :=
  match fuel with
  | O => (0%Z, st)
  | S fuel' =>
      match last_entry (dpm_suspended_list st) with
      | None => (0%Z, st)
      | Some dev =>
          let st := mutex_unlock st in
          let '(error, st) := device_suspend_late dev st in
          let st :=
            if entry_linked dev st then list_move dev DPM_LATE_EARLY_LIST st
            else st in
          if negb (error =? 0)%Z then
            let st := log_event (ev_pm_dev_err dev state " late" error) st in
            (error, dpm_save_failed_dev (dev_name (devices st dev)) st)
          else if negb (async_error st =? 0)%Z then (error, st)
          else dpm_suspend_late_loop fuel' state st
      end
  end.

(** dpm_suspend_late up to the test [if (error)] that follows
    async_synchronize_full. *)
Definition dpm_suspend_late_devices (state : pm_message_t)
    (st : pm_state) : Z * pm_state :=
  let st := log_event (ev_trace_suspend_resume "dpm_suspend_late" (event state) true) st in
  let st := set_pm_transition state st in
  let st := set_async_error 0%Z st in
  let '(error, st) :=
    dpm_suspend_late_loop (List.length (dpm_suspended_list st)) state st in
  let st := mutex_unlock st in
  let st := async_synchronize_full st in
  (if (error =? 0)%Z then async_error st else error, st).

Definition dpm_suspend_late (state : pm_message_t) (st : pm_state) : Z * pm_state :=
  let '(error, st) := dpm_suspend_late_devices state st in
  let st :=
    if negb (error =? 0)%Z then
      let st := inc_failed_suspend_late st in
      let st := dpm_save_failed_step SUSPEND_SUSPEND_LATE st in
      dpm_resume_early (resume_event state) st
    else st in
  (error, log_event (ev_trace_suspend_resume "dpm_suspend_late" (event state) false) st).

Definition dpm_suspend_end (state : pm_message_t) (st : pm_state) : Z * pm_state :=
  let '(error, st) := dpm_suspend_late state st in
  if negb (error =? 0)%Z then (error, st)
  else
    let '(error, st) := dpm_suspend_noirq state st in
    if negb (error =? 0)%Z then (error, dpm_resume_early (resume_event state) st)
    else (0%Z, st).

Definition device_suspend (dev : dev_id) (st : pm_state) : Z * pm_state :=
  let st := reinit_completion dev st in
  if is_async dev st then (0%Z, async_schedule ASYNC_SUSPEND dev st)
  else __device_suspend main_thread dev (pm_transition st) false st.

Fixpoint dpm_suspend_loop (fuel : nat) (state : pm_message_t)
    (st : pm_state) : Z * pm_state :=
  match fuel with
  | O => (0%Z, st)
  | S fuel' =>
      match last_entry (dpm_prepared_list st) with
      | None => (0%Z, st)
      | Some dev =>
          let st := mutex_unlock st in
          let '(error, st) := device_suspend dev st in
          if negb (error =? 0)%Z then
            let st := log_event (ev_pm_dev_err dev state "" error) st in
            (error, dpm_save_failed_dev (dev_name (devices st dev)) st)
          else
            let st :=
              if entry_linked dev st then list_move dev DPM_SUSPENDED_LIST st
              else st in
            if negb (async_error st =? 0)%Z then (error, st)
            else dpm_suspend_loop fuel' state st
      end
  end.

Definition dpm_suspend (state : pm_message_t) (st : pm_state) : Z * pm_state :=
  let st := log_event (ev_trace_suspend_resume "dpm_suspend" (event state) true) st in
  let st := log_event (ev_sys CPUFREQ_SUSPEND) st in
  let st := set_pm_transition state st in
  let st := set_async_error 0%Z st in
  let '(error, st) :=
    dpm_suspend_loop (List.length (dpm_prepared_list st)) state st in
  let st := mutex_unlock st in
  let st := async_synchronize_full st in
  let error := if (error =? 0)%Z then async_error st else error in
  let st :=
    if negb (error =? 0)%Z then
      dpm_save_failed_step SUSPEND_SUSPEND (inc_failed_suspend st)
    else st in
  (error, log_event (ev_trace_suspend_resume "dpm_suspend" (event state) false) st).

(** ** Prepare *)

(** One turn of the [while (!list_empty(&dpm_list))] loop of dpm_prepare,
    from get_device to the test of [error]. *)
Definition dpm_prepare_device (dev : dev_id) (state : pm_message_t)
    (st : pm_state) : Z * pm_state :=
  let st := mutex_unlock st in
  let st := log_event (ev_trace_device_pm_callback_start dev "" (event state)) st in
  let '(error, st) := device_prepare dev state st in
  (error, log_event (ev_trace_device_pm_callback_end dev error) st).

(** The loop of dpm_prepare.  A device that answers -EAGAIN stays at the
    head of dpm_list and is taken again on the next turn, so the number of
    turns has no bound that main.c knows of: [fuel] turns are allowed, and
    [None] means that they did not suffice. *)
Fixpoint dpm_prepare_loop (fuel : nat) (state : pm_message_t)
    (st : pm_state) : option (Z * pm_state) :=
  match fuel with
  | O => None
  | S fuel' =>
      match first_entry (dpm_list st) with
      | None => Some (0%Z, st)
      | Some dev =>
          let '(error, st) := dpm_prepare_device dev state st in
          if negb (error =? 0)%Z then
            if (error =? - EAGAIN)%Z then dpm_prepare_loop fuel' state st
            else Some (error, dpm_save_failed_dev (dev_name (devices st dev)) st)
          else
            let st := set_dev dev (set_is_prepared true) st in
            let st :=
              if entry_linked dev st then list_move_tail dev DPM_PREPARED_LIST st
              else st in
            dpm_prepare_loop fuel' state st
      end
  end.

Definition dpm_prepare (fuel : nat) (state : pm_message_t) (st : pm_state)
    : option (Z * pm_state) :=
  let st := log_event (ev_trace_suspend_resume "dpm_prepare" (event state) true) st in
  let st := log_event (ev_sys WAIT_FOR_DEVICE_PROBE) st in
  let st := log_event (ev_sys DEVICE_BLOCK_PROBING) st in
  match dpm_prepare_loop fuel state st with
  | None => None
  | Some (error, st) =>
      let st := mutex_unlock st in
      Some (error, log_event (ev_trace_suspend_resume "dpm_prepare" (event state) false) st)
  end.

Definition dpm_suspend_start (fuel : nat) (state : pm_message_t) (st : pm_state)
    : option (Z * pm_state) :=
  match dpm_prepare fuel state st with
  | None => None
  | Some (error, st) =>
      if negb (error =? 0)%Z then
        Some (error, dpm_save_failed_step SUSPEND_PREPARE (inc_failed_prepare st))
      else Some (dpm_suspend state st)
  end.

End Engine.

(** * The callback resolver

    The layers of a device, as the specification and main.c both see them,
    and two ways of choosing among them: [resolve_callback] follows the
    words of the specification, [layered_callback] the rule that the
    if/else chains of main.c implement.  They are compared with each other
    and with the code below. *)

Section Resolver.

Variable E : environment.

Inductive pm_phase : Type :=
| PHASE_PREPARE
| PHASE_SUSPEND
| PHASE_SUSPEND_LATE
| PHASE_SUSPEND_NOIRQ
| PHASE_RESUME_NOIRQ
| PHASE_RESUME_EARLY
| PHASE_RESUME
| PHASE_COMPLETE.

(** "only the specific field read from each layer's table changes per
    phase". *)
Definition phase_slot (ph : pm_phase) (state : pm_message_t)
    (table : dev_pm_ops) : option callback :=
  match ph with
  | PHASE_PREPARE => prepare table
  | PHASE_COMPLETE => complete table
  | PHASE_SUSPEND | PHASE_RESUME => pm_op E table state
  | PHASE_SUSPEND_LATE | PHASE_RESUME_EARLY => pm_late_early_op E table state
  | PHASE_SUSPEND_NOIRQ | PHASE_RESUME_NOIRQ => pm_noirq_op E table state
  end.

(** What a layer offers: a structured table, or a legacy single-function
    hook. *)
Inductive provider : Type :=
| Structured (table : dev_pm_ops)
| LegacyHook (hook : callback).

(** Classes and buses have one legacy hook for suspend and one for resume,
    and none for the other phases. *)
Definition legacy_hook (ph : pm_phase) (on_suspend on_resume : option callback)
    : option provider :=
  match ph with
  | PHASE_SUSPEND => option_map LegacyHook on_suspend
  | PHASE_RESUME => option_map LegacyHook on_resume
  | _ => None
  end.

Definition power_domain_layer (d : device) : option provider :=
  option_map (fun pd => Structured (ops pd)) (pm_domain d).

Definition type_layer (d : device) : option provider :=
  match type d with
  | Some t => option_map Structured (type_pm t)
  | None => None
  end.

(** "falling back to bus/class legacy single-function hooks where no
    structured table exists". *)
Definition class_layer (ph : pm_phase) (d : device) : option provider :=
  match class d with
  | Some c =>
      match class_pm c with
      | Some table => Some (Structured table)
      | None => legacy_hook ph (class_suspend c) (class_resume c)
      end
  | None => None
  end.

Definition bus_layer (ph : pm_phase) (d : device) : option provider :=
  match bus d with
  | Some b =>
      match bus_pm b with
      | Some table => Some (Structured table)
      | None => legacy_hook ph (bus_suspend b) (bus_resume b)
      end
  | None => None
  end.

(** The layers above the driver, strongest first. *)
Definition layers (ph : pm_phase) (d : device) : list (option provider) :=
  [power_domain_layer d; type_layer d; class_layer ph d; bus_layer ph d].

Definition driver_slot (ph : pm_phase) (state : pm_message_t) (d : device)
    : option callback :=
  match driver d with
  | Some drv =>
      match driver_pm drv with
      | Some table => phase_slot ph state table
      | None => None
      end
  | None => None
  end.

(** The callback a layer supplies for a phase, if any. *)
Definition provided (ph : pm_phase) (state : pm_message_t) (p : option provider)
    : option callback :=
  match p with
  | Some (Structured table) => phase_slot ph state table
  | Some (LegacyHook hook) => Some hook
  | None => None
  end.

Fixpoint first_callback (l : list (option callback)) : option callback :=
  match l with
  | [] => None
  | Some cb :: _ => Some cb
  | None :: l' => first_callback l'
  end.

(** Modelled from the spec: "resolve the applicable callback using strict
    priority: power-domain ops > device-type ops > device-class ops > bus
    ops > driver ops, falling back to bus/class legacy single-function hooks
    where no structured table exists, and always falling through to a
    driver-level override if no higher layer supplied a callback for that
    specific phase.  Returns a null callback if nothing in the chain
    supplies one."  The design notes ask for "an ordered list of
    optional-callback providers tried in fixed priority order": the
    providers are tried in that order and the first callback found is the
    result. *)
Definition resolve_callback (ph : pm_phase) (state : pm_message_t) (d : device)
    : option callback :=
  first_callback (map (provided ph state) (layers ph d) ++ [driver_slot ph state d]).

Fixpoint first_provider (l : list (option provider)) : option provider :=
  match l with
  | [] => None
  | Some p :: _ => Some p
  | None :: l' => first_provider l'
  end.

(** The rule of main.c: the strongest layer that is there decides, whether
    or not it has a callback for the phase, and the weaker layers are not
    looked at; when the deciding layer is a structured table without a
    callback for the phase, or when no layer is there, the driver's table is
    read; [None] is the null callback. *)
Definition layered_callback (ph : pm_phase) (state : pm_message_t) (d : device)
    : option callback :=
  match first_provider (layers ph d) with
  | Some (LegacyHook hook) => Some hook
  | Some (Structured table) =>
      match phase_slot ph state table with
      | Some cb => Some cb
      | None => driver_slot ph state d
      end
  | None => driver_slot ph state d
  end.

End Resolver.

(** The callback in a [suspend_action]. *)
Definition action_callback (a : suspend_action) : option callback :=
  match a with
  | Run _ callback => callback
  | Legacy _ cb => Some cb
  end.

(** * Reading the log *)

(** An event that records the call of a device callback. *)
Definition is_call (e : trace_event) : bool :=
  match e with
  | ev_call _ _ _ | ev_call_legacy _ _ _ _ | ev_call_void _ _ => true
  | _ => false
  end.

(** A call that returned an error. *)
Definition is_failed_call (e : trace_event) : bool :=
  match e with
  | ev_call _ _ ret | ev_call_legacy _ _ _ ret => negb (ret =? 0)%Z
  | _ => false
  end.

(** A tracepoint at the entry or exit of a phase. *)
Definition is_phase_event (e : trace_event) : bool :=
  match e with
  | ev_trace_suspend_resume _ _ _ => true
  | _ => false
  end.

(** The devices entered by a per-device function ([TRACE_DEVICE]), most
    recent first. *)
Fixpoint visited (evs : list trace_event) : list dev_id :=
  match evs with
  | [] => []
  | ev_TRACE_DEVICE dev :: evs' => dev :: visited evs'
  | _ :: evs' => visited evs'
  end.

(** The devices for which [trace_device_pm_callback_start] fired, most
    recent first. *)
Fixpoint started (evs : list trace_event) : list dev_id :=
  match evs with
  | [] => []
  | ev_trace_device_pm_callback_start dev _ _ :: evs' => dev :: started evs'
  | _ :: evs' => started evs'
  end.

(** [extends P st st']: the log of [st'] is the log of [st] with new events
    in front, all of which satisfy [P]. *)
Definition extends (P : trace_event -> Prop) (st st' : pm_state) : Prop :=
  exists evs, klog st' = evs ++ klog st /\ Forall P evs.

(** The only callback an event may report is [cb], called on [dev]. *)
Definition calls_only (dev : dev_id) (cb : option callback) (e : trace_event) : Prop :=
  match e with
  | ev_call f d _ | ev_call_legacy f d _ _ | ev_call_void f d => d = dev /\ cb = Some f
  | _ => True
  end.

Definition suspend_kind (t : async_entry) : bool :=
  match fst t with
  | ASYNC_SUSPEND | ASYNC_SUSPEND_LATE | ASYNC_SUSPEND_NOIRQ => true
  | _ => false
  end.

(** * A small machine for the examples

    Two devices, 0 and 1, bound to one driver that fills the slots of the
    suspend-to-RAM transition. *)

Definition no_ops : dev_pm_ops :=
  {| prepare := None; complete := None; suspend := None; resume := None;
     freeze := None; thaw := None; poweroff := None; restore := None;
     suspend_late := None; resume_early := None; freeze_late := None;
     thaw_early := None; poweroff_late := None; restore_early := None;
     suspend_noirq := None; resume_noirq := None; freeze_noirq := None;
     thaw_noirq := None; poweroff_noirq := None; restore_noirq := None |}.

(** The callbacks of the example driver. *)
Definition CB_PREPARE : callback := 1%nat.
Definition CB_COMPLETE : callback := 2%nat.
Definition CB_SUSPEND : callback := 3%nat.
Definition CB_RESUME : callback := 4%nat.
Definition CB_SUSPEND_LATE : callback := 5%nat.
Definition CB_RESUME_EARLY : callback := 6%nat.
Definition CB_SUSPEND_NOIRQ : callback := 7%nat.
Definition CB_RESUME_NOIRQ : callback := 8%nat.

Definition demo_ops : dev_pm_ops :=
  {| prepare := Some CB_PREPARE; complete := Some CB_COMPLETE;
     suspend := Some CB_SUSPEND; resume := Some CB_RESUME;
     freeze := None; thaw := None; poweroff := None; restore := None;
     suspend_late := Some CB_SUSPEND_LATE; resume_early := Some CB_RESUME_EARLY;
     freeze_late := None; thaw_early := None; poweroff_late := None;
     restore_early := None;
     suspend_noirq := Some CB_SUSPEND_NOIRQ; resume_noirq := Some CB_RESUME_NOIRQ;
     freeze_noirq := None; thaw_noirq := None; poweroff_noirq := None;
     restore_noirq := None |}.

Definition demo_driver : device_driver :=
  {| driver_pm := Some demo_ops; driver_suspend := None; driver_resume := None |}.

(** A registered device; [async] is power.async_suspend and [flag] the value
    of the four phase flags. *)
Definition demo_power (async flag : bool) : dev_pm_info :=
  {| can_wakeup := false; wakeup := false; power_async_suspend := async;
     in_dpm_list := true; is_prepared := flag; is_suspended := flag;
     is_noirq_suspended := flag; is_late_suspended := flag; no_pm := false;
     direct_complete := false; wakeup_path := false; syscore := false;
     no_pm_callbacks := false; ignore_children := false; completion := true |}.

Definition demo_device (name : string) (async flag : bool) : device :=
  {| dev_name := name; parent := None; children := []; pm_domain := None;
     type := None; class := None; bus := None; driver := Some demo_driver;
     suppliers := []; consumers := []; power := demo_power async flag |}.

Definition demo_names (d : dev_id) : string :=
  if Nat.eqb d 0 then "alpha"%string else "beta"%string.

Definition no_stats : suspend_stats_rec :=
  {| failed_prepare := 0; failed_suspend := 0; failed_suspend_late := 0;
     failed_suspend_noirq := 0; failed_resume := 0; failed_resume_early := 0;
     failed_resume_noirq := 0; last_failed_dev := None; last_failed_step := None |}.

(** The machine at rest, with the devices [l] on the list [h]. *)
Definition demo_machine (names : dev_id -> string) (async flag : bool)
    (h : list_head) (l : list dev_id) : pm_state :=
  {| devices := fun d => demo_device (names d) async flag;
     queues := fun h' => if list_head_eqb h' h then l else [];
     suspend_stats := no_stats;
     pm_transition := PMSG_ON;
     async_error := 0;
     async_pending := [];
     klog := [] |}.

(** A kernel in which a callback returns [result cb dev]; the pool runs its
    functions, oldest first, when async_synchronize_full waits for them. *)
Definition demo_env (async : bool) (result : callback -> dev_id -> Z) : environment :=
  {| pm_async_enabled := async;
     pm_trace_is_enabled := false;
     CONFIG_SUSPEND := true;
     CONFIG_HIBERNATE_CALLBACKS := true;
     cb_result := fun _ cb dev => result cb dev;
     legacy_result := fun _ _ _ _ => 0%Z;
     pm_wakeup_pending := fun _ => false;
     pm_runtime_status_suspended := fun _ _ => false;
     sched := fun _ _ => None |}.

Definition all_succeed (cb : callback) (dev : dev_id) : Z := 0%Z.

(** Callback [cb] of device [dev] fails with -EIO (-5). *)
Definition fail_on (cb : callback) (dev : dev_id) (c : callback) (d : dev_id) : Z :=
  if Nat.eqb c cb && Nat.eqb d dev then (-5)%Z else 0%Z.

(** The prepare callback of device 0 answers -EAGAIN the first time and 0
    afterwards; that of device 1 answers 1. *)
Definition eagain_once_env : environment :=
  {| pm_async_enabled := false;
     pm_trace_is_enabled := false;
     CONFIG_SUSPEND := true;
     CONFIG_HIBERNATE_CALLBACKS := true;
     cb_result := fun log cb dev =>
       if Nat.eqb dev 0 then
         if existsb (fun e => match e with
                              | ev_call _ d _ => Nat.eqb d 0
                              | _ => false
                              end) log
         then 0%Z else (- EAGAIN)%Z
       else 1%Z;
     legacy_result := fun _ _ _ _ => 0%Z;
     pm_wakeup_pending := fun _ => false;
     pm_runtime_status_suspended := fun _ _ => false;
     sched := fun _ _ => None |}.

(** Both devices are prepared; the suspend callback of device 0 fails. *)
Definition failed_suspend_env : environment := demo_env false (fail_on CB_SUSPEND 0).
Definition prepared_machine : pm_state :=
  demo_machine demo_names false false DPM_PREPARED_LIST [0; 1]%nat.

(** Both devices are late-suspended; the noirq callback of device 0 fails. *)
Definition failed_noirq_env : environment := demo_env false (fail_on CB_SUSPEND_NOIRQ 0).

(** Both devices are suspended and resume asynchronously; the resume
    callback of device 0 fails. *)
Definition failed_resume_env (async : bool) : environment :=
  demo_env async (fail_on CB_RESUME 0).
Definition suspended_machine (async : bool) : pm_state :=
  demo_machine demo_names async true DPM_SUSPENDED_LIST [0; 1]%nat.

(** Device 0 is noirq-suspended; its resume_noirq callback fails. *)
Definition failed_resume_noirq_env : environment :=
  demo_env false (fail_on CB_RESUME_NOIRQ 0).
Definition noirq_machine : pm_state :=
  demo_machine demo_names false true DPM_NOIRQ_LIST [0]%nat.

(** The devices are registered and no transition is going on. *)
Definition registered_machine : pm_state :=
  demo_machine demo_names false false DPM_LIST [0; 1]%nat.

(** A machine whose devices are all called cpu0. *)
Definition cpu0_machine : pm_state :=
  demo_machine (fun _ => "cpu0"%string) false false DPM_LIST [1]%nat.

(** A kernel whose pool runs a function as soon as it is queued. *)
Definition eager_env (result : callback -> dev_id -> Z) : environment :=
  {| pm_async_enabled := true;
     pm_trace_is_enabled := false;
     CONFIG_SUSPEND := true;
     CONFIG_HIBERNATE_CALLBACKS := true;
     cb_result := fun _ cb dev => result cb dev;
     legacy_result := fun _ _ _ _ => 0%Z;
     pm_wakeup_pending := fun _ => false;
     pm_runtime_status_suspended := fun _ _ => false;
     sched := fun _ _ => Some 0%nat |}.

(** Both devices are prepared and suspend asynchronously, in the middle of
    dpm_suspend(PMSG_SUSPEND); the suspend callback of device 1 fails. *)
Definition failed_async_suspend_env : environment := eager_env (fail_on CB_SUSPEND 1).
Definition prepared_async_machine : pm_state :=
  set_pm_transition PMSG_SUSPEND
    (demo_machine demo_names true false DPM_PREPARED_LIST [0; 1]%nat).

(** Both devices are on dpm_prepared_list with power.is_prepared set, as
    dpm_prepare leaves them. *)
Definition completing_machine : pm_state :=
  demo_machine demo_names false true DPM_PREPARED_LIST [0; 1]%nat.

(** A power domain whose table is empty, over a bus that has callbacks. *)
Definition empty_domain : dev_pm_domain := {| ops := no_ops |}.

Definition demo_bus : bus_type :=
  {| bus_pm := Some demo_ops; bus_suspend := None; bus_resume := None |}.

(** Device 0 is suspended; it sits in [empty_domain] on [demo_bus] and has
    no driver. *)
Definition hidden_bus_device : device :=
  {| dev_name := "alpha"; parent := None; children := []; pm_domain := Some empty_domain;
     type := None; class := None; bus := Some demo_bus; driver := None;
     suppliers := []; consumers := []; power := demo_power false true |}.

Definition hidden_bus_machine : pm_state :=
  {| devices := fun _ => hidden_bus_device;
     queues := fun h => if list_head_eqb h DPM_SUSPENDED_LIST then [0%nat] else [];
     suspend_stats := no_stats;
     pm_transition := PMSG_RESUME;
     async_error := 0;
     async_pending := [];
     klog := [] |}.

(** Device 0 is late-suspended and has no callback at all. *)
Definition bare_device : device :=
  {| dev_name := "alpha"; parent := None; children := []; pm_domain := None;
     type := None; class := None; bus := None; driver := None;
     suppliers := []; consumers := []; power := demo_power false false |}.

Definition bare_machine : pm_state :=
  {| devices := fun _ => bare_device;
     queues := fun h => if list_head_eqb h DPM_LATE_EARLY_LIST then [0%nat] else [];
     suspend_stats := no_stats;
     pm_transition := PMSG_SUSPEND;
     async_error := 0;
     async_pending := [];
     klog := [] |}.




(** * The vocabulary of the properties

    Predicates on events, logs and pairs of states, and the loops of
    main.c cut into turns, as the statements below use them. *)

(** An event that is not the call of a callback. *)
Definition not_call (e : trace_event) : Prop := is_call e = false.

(** An event that is not a call that returned an error. *)
Definition not_failed_call (e : trace_event) : Prop := is_failed_call e = false.

(** The phase flags, the two marks and the completion, which the transition
    engine writes, set to false. *)
Definition static_power (p : dev_pm_info) : dev_pm_info :=
  {| can_wakeup := can_wakeup p;
     wakeup := wakeup p;
     power_async_suspend := power_async_suspend p;
     in_dpm_list := in_dpm_list p;
     is_prepared := false;
     is_suspended := false;
     is_noirq_suspended := false;
     is_late_suspended := false;
     no_pm := no_pm p;
     direct_complete := false;
     wakeup_path := false;
     syscore := syscore p;
     no_pm_callbacks := no_pm_callbacks p;
     ignore_children := ignore_children p;
     completion := false |}.

(** The part of a device record that the transition engine never writes
    to: the record with the fields it writes blanked. *)
Definition static_part (d : device) : device := set_power (static_power (power d)) d.

(** The events a suspend- or resume-direction function may log for [dev]
    when it returns [err]. *)
Definition step_event (dev : dev_id) (err : Z) (e : trace_event) : Prop :=
  match e with
  | ev_call _ d r | ev_call_legacy _ d _ r => d = dev /\ r = err
  | ev_TRACE_DEVICE d => d = dev
  | ev_trace_device_pm_callback_start d _ _ => d = dev
  | ev_trace_device_pm_callback_end d r => d = dev /\ r = err
  | ev_runtime_pm _ d => d = dev
  | ev_call_void _ _ | ev_trace_suspend_resume _ _ _ | ev_pm_dev_err _ _ _ _
  | ev_sys _ => False
  end.

(** A stretch of a per-device function on [dev] that returns [err], in
    which the thread does not wait: it logs [evs] and touches nothing but
    the device records. *)
Record device_step (dev : dev_id) (err : Z) (evs : list trace_event)
    (st st' : pm_state) : Prop := {
  step_queues : queues st' = queues st;
  step_pending : async_pending st' = async_pending st;
  step_transition : pm_transition st' = pm_transition st;
  step_stats : suspend_stats st' = suspend_stats st;
  step_static : forall d, static_part (devices st' d) = static_part (devices st d);
  step_log : klog st' = evs ++ klog st;
  step_events : Forall (step_event dev err) evs;
  step_completions : forall d, completion (pw st d) = true -> completion (pw st' d) = true
}.

(** [st'] is reached from [st] by the waits of a thread: releases of
    dpm_list_mtx and wait_for_completion calls. *)
Inductive waits (T : thread) : pm_state -> pm_state -> Prop :=
| waits_done st : waits T st st
| waits_unlock st st' : waits T (th_mutex_unlock T st) st' -> waits T st st'
| waits_completion d st st' :
    waits T (th_wait_for_completion T d st) st' -> waits T st st'.

(** A per-device function on [dev], run by the thread [T] from [st], that
    returns [err] in [st']: it enters the device ([TRACE_DEVICE]), waits,
    which takes it to [st2], and goes on from there without waiting again,
    logging [evs]; the completion of the device is done when it returns. *)
Definition device_run (T : thread) (dev : dev_id) (err : Z)
    (st st2 : pm_state) (evs : list trace_event) (st' : pm_state) : Prop :=
  (exists st1 pre,
     device_step dev err pre st st1 /\ visited pre = [dev]
     /\ Forall not_call pre /\ async_error st1 = async_error st
     /\ (forall d, pw st1 d = pw st d)
     /\ waits T st1 st2)
  /\ device_step dev err evs st2 st'
  /\ visited evs = []
  /\ completion (pw st' dev) = true.

(** What a suspend-direction function does with async_error. *)
Record suspend_error (err : Z) (evs : list trace_event) (st st' : pm_state) : Prop := {
  error_recorded : err <> 0%Z -> async_error st' = err;
  error_seen : async_error st <> 0%Z ->
               async_error st' = async_error st /\ err = 0%Z /\ Forall not_call evs;
  error_kept : err = 0%Z ->
               async_error st' = async_error st
               \/ (async_error st = 0%Z /\ async_error st' = (- EBUSY)%Z)
}.

Arguments step_queues {dev err evs st st'} _.
Arguments step_pending {dev err evs st st'} _.
Arguments step_transition {dev err evs st st'} _.
Arguments step_stats {dev err evs st st'} _.
Arguments step_static {dev err evs st st'} _.
Arguments step_log {dev err evs st st'} _.
Arguments step_events {dev err evs st st'} _.
Arguments step_completions {dev err evs st st'} _.
Arguments error_recorded {err evs st st'} _.
Arguments error_seen {err evs st st'} _.
Arguments error_kept {err evs st st'} _.

Definition not_phase_event (e : trace_event) : Prop := is_phase_event e = false.

(** A failed call is reported when a pm_dev_err line for the same device
    and the same error is among [evs]. *)
Definition reported (evs : list trace_event) (e : trace_event) : Prop :=
  match e with
  | ev_call _ d r | ev_call_legacy _ d _ r =>
      r <> 0%Z -> exists s info, In (ev_pm_dev_err d s info r) evs
  | _ => True
  end.

(** The pm_dev_err lines of [evs] all carry the text [info]. *)
Definition err_info (info : string) (e : trace_event) : Prop :=
  match e with
  | ev_pm_dev_err _ _ i _ => i = info
  | _ => True
  end.

(** What a queued function does when it runs. *)
Record task_step (t : async_entry) (evs : list trace_event)
    (st st' : pm_state) : Prop := {
  task_queues : queues st' = queues st;
  task_pending : async_pending st' = async_pending st;
  task_transition : pm_transition st' = pm_transition st;
  task_static : forall d, static_part (devices st' d) = static_part (devices st d);
  task_log : klog st' = evs ++ klog st;
  task_quiet : Forall not_phase_event evs;
  task_visited : In (ev_TRACE_DEVICE (snd t)) evs;
  task_reported : Forall (reported evs) evs;
  task_err_info : Forall (err_info " async") evs;
  task_stats : set_last_failed_dev (last_failed_dev (suspend_stats st)) (suspend_stats st')
               = suspend_stats st;
  task_completion : completion (pw st' (snd t)) = true;
  task_completions : forall d, completion (pw st d) = true -> completion (pw st' d) = true;
  task_error_suspend :
    suspend_kind t = true ->
    (async_error st <> 0%Z ->
     async_error st' = async_error st /\ Forall not_call evs)
    /\ (existsb is_failed_call evs = true -> async_error st' <> 0%Z);
  task_error_resume :
    suspend_kind t = false -> async_error st' = async_error st;
  task_stats_resume :
    suspend_kind t = false -> suspend_stats st' = suspend_stats st
}.

Arguments task_queues {t evs st st'} _.
Arguments task_pending {t evs st st'} _.
Arguments task_transition {t evs st st'} _.
Arguments task_static {t evs st st'} _.
Arguments task_log {t evs st st'} _.
Arguments task_quiet {t evs st st'} _.
Arguments task_visited {t evs st st'} _.
Arguments task_reported {t evs st st'} _.
Arguments task_err_info {t evs st st'} _.
Arguments task_stats {t evs st st'} _.
Arguments task_completion {t evs st st'} _.
Arguments task_completions {t evs st st'} _.
Arguments task_error_suspend {t evs st st'} _.
Arguments task_error_resume {t evs st st'} _.
Arguments task_stats_resume {t evs st st'} _.

(** Nothing but the device flags, the log, the statistics and async_error
    moves, and nothing is queued. *)
Definition calm (st st' : pm_state) : Prop :=
  queues st' = queues st
  /\ pm_transition st' = pm_transition st
  /\ (forall d, static_part (devices st' d) = static_part (devices st d))
  /\ (forall t, In t (async_pending st') -> In t (async_pending st)).

(** No phase is entered or left. *)
Definition quiet (st st' : pm_state) : Prop := extends not_phase_event st st'.




(** An event that is neither a call nor a pm_dev_err line. *)
Definition plain_event (e : trace_event) : Prop :=
  match e with
  | ev_call _ _ _ | ev_call_legacy _ _ _ _ | ev_pm_dev_err _ _ _ _ => False
  | _ => True
  end.

Definition no_err_line (e : trace_event) : Prop :=
  match e with
  | ev_pm_dev_err _ _ _ _ => False
  | _ => True
  end.

(** An update of suspend_stats: nothing else moves. *)
Definition counts (inc : pm_state -> pm_state) : Prop :=
  forall st,
    devices (inc st) = devices st /\ klog (inc st) = klog st
    /\ async_pending (inc st) = async_pending st /\ queues (inc st) = queues st
    /\ pm_transition (inc st) = pm_transition st
    /\ async_error (inc st) = async_error st.

(** What the drain of a resume phase does after a per-device function
    returned [err]. *)
Definition note_resume_failure (inc : pm_state -> pm_state) (step : suspend_stat_step)
    (info : string) (dev : dev_id) (state : pm_message_t) (err : Z)
    (st : pm_state) : pm_state :=
  if negb (err =? 0)%Z then
    let st := inc st in
    let st := dpm_save_failed_step step st in
    let st := dpm_save_failed_dev (dev_name (devices st dev)) st in
    log_event (ev_pm_dev_err dev state info err) st
  else st.

(** The resume drains have one shape: while the driving list is not empty,
    handle its head entry. *)
Fixpoint drain_head (src : list_head) (turn : dev_id -> pm_state -> pm_state)
    (fuel : nat) (st : pm_state) : pm_state :=
  match fuel with
  | O => st
  | S fuel' =>
      match first_entry (queues st src) with
      | None => st
      | Some dev => drain_head src turn fuel' (turn dev st)
      end
  end.

(** The devices a resume drain takes from its driving list, in the order
    it takes them. *)
Fixpoint drain_head_takes (src : list_head) (turn : dev_id -> pm_state -> pm_state)
    (fuel : nat) (st : pm_state) : list dev_id :=
  match fuel with
  | O => []
  | S fuel' =>
      match first_entry (queues st src) with
      | None => []
      | Some dev => dev :: drain_head_takes src turn fuel' (turn dev st)
      end
  end.

(** One turn of the three drains. *)
Definition dpm_noirq_resume_turn (E : environment) (state : pm_message_t) (dev : dev_id)
    (st : pm_state) : pm_state :=
  let st2 := mutex_unlock E (list_move_tail dev DPM_LATE_EARLY_LIST st) in
  if negb (is_async E dev st2)
  then note_resume_failure inc_failed_resume_noirq SUSPEND_RESUME_NOIRQ " noirq"
         dev state (fst (device_resume_noirq E (main_thread E) dev state false st2))
         (snd (device_resume_noirq E (main_thread E) dev state false st2))
  else st2.

Definition dpm_resume_early_turn (E : environment) (state : pm_message_t) (dev : dev_id)
    (st : pm_state) : pm_state :=
  let st2 := mutex_unlock E (list_move_tail dev DPM_SUSPENDED_LIST st) in
  if negb (is_async E dev st2)
  then note_resume_failure inc_failed_resume_early SUSPEND_RESUME_EARLY " early"
         dev state (fst (device_resume_early E (main_thread E) dev state false st2))
         (snd (device_resume_early E (main_thread E) dev state false st2))
  else st2.

Definition dpm_resume_turn (E : environment) (state : pm_message_t) (dev : dev_id)
    (st : pm_state) : pm_state :=
  let st2 :=
    if negb (is_async E dev st)
    then note_resume_failure inc_failed_resume SUSPEND_RESUME ""
           dev state (fst (device_resume E (main_thread E) dev state false (mutex_unlock E st)))
           (snd (device_resume E (main_thread E) dev state false (mutex_unlock E st)))
    else st in
  if entry_linked dev st2 then list_move_tail dev DPM_PREPARED_LIST st2 else st2.




(** list_move guarded by the test [!list_empty(&dev->power.entry)]. *)
Definition move_linked (dev : dev_id) (h : list_head) (st : pm_state) : pm_state :=
  if entry_linked dev st then list_move dev h st else st.

(** An event that device_complete may log for [dev]. *)
Definition complete_event (dev : dev_id) (e : trace_event) : Prop :=
  match e with
  | ev_call_void _ d | ev_runtime_pm _ d => d = dev
  | _ => False
  end.

(** The state after one turn of the loop of dpm_complete on [dev]. *)
Definition dpm_complete_turn (E : environment) (state : pm_message_t) (dev : dev_id)
    (st : pm_state) : pm_state :=
  let st := set_dev dev (set_is_prepared false) st in
  let st := list_del dev st in
  let st := mutex_unlock E st in
  let st := log_event (ev_trace_device_pm_callback_start dev "" (event state)) st in
  let st := device_complete dev state st in
  log_event (ev_trace_device_pm_callback_end dev 0) st.

(** list_move_tail guarded by the test [!list_empty(&dev->power.entry)]. *)
Definition move_tail_linked (dev : dev_id) (h : list_head) (st : pm_state) : pm_state :=
  if entry_linked dev st then list_move_tail dev h st else st.

(** [state.event == PM_EVENT_SUSPEND]. *)
Definition is_suspend_event (state : pm_message_t) : bool :=
  match event state with
  | PM_EVENT_SUSPEND => true
  | _ => false
  end.

(** The state in which the loop of dpm_prepare starts. *)
Definition dpm_prepare_entry (state : pm_message_t) (st : pm_state) : pm_state :=
  log_event (ev_sys DEVICE_BLOCK_PROBING)
    (log_event (ev_sys WAIT_FOR_DEVICE_PROBE)
       (log_event (ev_trace_suspend_resume "dpm_prepare" (event state) true) st)).

(** The suspend drains have one shape: while the driving list is not empty,
    handle its last entry, and stop when the turn says so. *)
Fixpoint drain_tail (src : list_head)
    (turn : dev_id -> pm_state -> Z * pm_state * bool)
    (fuel : nat) (st : pm_state) : Z * pm_state :=
  match fuel with
  | O => (0%Z, st)
  | S fuel' =>
      match last_entry (queues st src) with
      | None => (0%Z, st)
      | Some dev =>
          let '(error, st, stop) := turn dev st in
          if stop then (error, st) else drain_tail src turn fuel' st
      end
  end.

(** The devices a suspend drain takes from its driving list, in the order
    it takes them. *)
Fixpoint drain_tail_takes (src : list_head)
    (turn : dev_id -> pm_state -> Z * pm_state * bool)
    (fuel : nat) (st : pm_state) : list dev_id :=
  match fuel with
  | O => []
  | S fuel' =>
      match last_entry (queues st src) with
      | None => []
      | Some dev =>
          let '(error, st, stop) := turn dev st in
          dev :: (if stop then [] else drain_tail_takes src turn fuel' st)
      end
  end.

(** One turn of the three suspend drains: the error, the state, and whether
    the loop is left. *)
Definition dpm_suspend_turn (E : environment) (state : pm_message_t) (dev : dev_id)
    (st : pm_state) : Z * pm_state * bool :=
  let r := device_suspend E dev (mutex_unlock E st) in
  if negb (fst r =? 0)%Z then
    (fst r,
     dpm_save_failed_dev (dev_name (devices (snd r) dev))
       (log_event (ev_pm_dev_err dev state "" (fst r)) (snd r)),
     true)
  else
    (fst r, move_linked dev DPM_SUSPENDED_LIST (snd r),
     negb (async_error (move_linked dev DPM_SUSPENDED_LIST (snd r)) =? 0)%Z).

Definition dpm_suspend_late_turn (E : environment) (state : pm_message_t) (dev : dev_id)
    (st : pm_state) : Z * pm_state * bool :=
  let r := device_suspend_late E dev (mutex_unlock E st) in
  let st2 := move_linked dev DPM_LATE_EARLY_LIST (snd r) in
  if negb (fst r =? 0)%Z then
    (fst r,
     dpm_save_failed_dev (dev_name (devices st2 dev))
       (log_event (ev_pm_dev_err dev state " late" (fst r)) st2),
     true)
  else (fst r, st2, negb (async_error st2 =? 0)%Z).

Definition dpm_noirq_suspend_turn (E : environment) (state : pm_message_t) (dev : dev_id)
    (st : pm_state) : Z * pm_state * bool :=
  let r := device_suspend_noirq E dev (mutex_unlock E st) in
  if negb (fst r =? 0)%Z then
    (fst r,
     dpm_save_failed_dev (dev_name (devices (snd r) dev))
       (log_event (ev_pm_dev_err dev state " noirq" (fst r)) (snd r)),
     true)
  else
    (fst r, move_linked dev DPM_NOIRQ_LIST (snd r),
     negb (async_error (move_linked dev DPM_NOIRQ_LIST (snd r)) =? 0)%Z).

(** ** Reading a call off the log *)

(** Between [st] and [st'] the callback [f] was called on [dev], once, and
    returned [ret], the answer of the callback in the log of that moment;
    no other callback was called. *)
Definition runs_callback (E : environment) (f : callback) (dev : dev_id) (ret : Z)
    (st st' : pm_state) : Prop :=
  exists before after,
    klog st' = after ++ ev_call f dev ret :: before ++ klog st
    /\ ret = cb_result E (before ++ klog st) f dev
    /\ Forall not_call before /\ Forall not_call after.

(** The same for a legacy hook, which is called with the transition. *)
Definition runs_legacy_hook (E : environment) (f : callback) (dev : dev_id)
    (state : pm_message_t) (ret : Z) (st st' : pm_state) : Prop :=
  exists before after,
    klog st' = after ++ ev_call_legacy f dev state ret :: before ++ klog st
    /\ ret = legacy_result E (before ++ klog st) f dev state
    /\ Forall not_call before /\ Forall not_call after.

(** The same for a callback that returns nothing. *)
Definition runs_void_callback (f : callback) (dev : dev_id)
    (st st' : pm_state) : Prop :=
  exists before after,
    klog st' = after ++ ev_call_void f dev :: before ++ klog st
    /\ Forall not_call before /\ Forall not_call after.

(** The per-device function that returned [r] from [st] ran the callback
    that the layers of [dev] give for the phase [ph], and returned what the
    callback returned; when the layers give none it called nothing and
    returned 0.  A legacy suspend hook goes through legacy_suspend. *)
Definition runs_resolved (E : environment) (ph : pm_phase) (dev : dev_id)
    (state : pm_message_t) (st : pm_state) (r : Z * pm_state) : Prop :=
  match layered_callback E ph state (devices st dev) with
  | Some f =>
      match ph, first_provider (layers ph (devices st dev)) with
      | PHASE_SUSPEND, Some (LegacyHook _) =>
          runs_legacy_hook E f dev state (fst r) st (snd r)
      | _, _ => runs_callback E f dev (fst r) st (snd r)
      end
  | None => fst r = 0%Z /\ extends not_call st (snd r)
  end.

(** The state in which a suspend-direction function goes on after
    dpm_wait_for_subordinate. *)
Definition suspend_waited (E : environment) (T : thread) (dev : dev_id) (async : bool)
    (st : pm_state) : pm_state :=
  dpm_wait_for_subordinate E T dev async (log_event (ev_TRACE_DEVICE dev) st).

Definition suspend_late_waited (E : environment) (T : thread) (dev : dev_id)
    (async : bool) (st : pm_state) : pm_state :=
  dpm_wait_for_subordinate E T dev async
    (log_event (ev_runtime_pm PM_RUNTIME_DISABLE dev)
       (log_event (ev_TRACE_DEVICE dev) st)).

(** What dpm_wait_for_superior returns to a resume-direction function, and
    the state in which the function goes on. *)
Definition resume_wait_ok (E : environment) (T : thread) (dev : dev_id) (async : bool)
    (st : pm_state) : bool :=
  fst (dpm_wait_for_superior E T dev async (log_event (ev_TRACE_DEVICE dev) st)).

Definition resume_waited (E : environment) (T : thread) (dev : dev_id) (async : bool)
    (st : pm_state) : pm_state :=
  snd (dpm_wait_for_superior E T dev async (log_event (ev_TRACE_DEVICE dev) st)).

(** The state in which __device_suspend looks at power.direct_complete,
    when it gets there from [st], the state after the wait. *)
Definition suspend_checked (dev : dev_id) (st : pm_state) : pm_state :=
  let st := log_event (ev_runtime_pm PM_RUNTIME_BARRIER dev) st in
  if device_may_wakeup (devices st dev) || wakeup_path (pw st dev)
  then set_dev dev (set_direct_complete false) st
  else st.



(** The five lists are as they were. *)
Definition same_lists (st st' : pm_state) : Prop := queues st' = queues st.

(** What a suspend drain that took [takes] from the list [l] and returned
    [r] has done: it took a final segment of [l], its last device first, and
    at least one device when [l] is not empty; it took all of [l] when it
    returned 0 with async_error clear. *)
Definition took_from_tail (l takes : list dev_id) (r : Z * pm_state) : Prop :=
  exists kept taken,
    l = kept ++ taken
    /\ takes = rev taken
    /\ (l <> [] -> taken <> [])
    /\ (fst r = 0%Z -> async_error (snd r) = 0%Z -> kept = []).

(** A thread that holds no lock and sleeps in wait_for_completion exactly
    when the completion is not done. *)
Definition sleeps_when_blocked (T : thread) : Prop :=
  (forall st, th_mutex_unlock T st = st)
  /\ (forall d st, completion (pw st d) = true -> th_wait_for_completion T d st = st).

(** * Properties *)

(** ** Lists *)

Lemma list_remove_In (a b : dev_id) (l : list dev_id) :
  In b (list_remove a l) <-> In b l /\ b <> a.
Proof.
  unfold list_remove. rewrite filter_In.
  destruct (Nat.eqb_spec b a); simpl; intuition congruence.
Qed.

Lemma list_remove_not_In (a : dev_id) (l : list dev_id) :
  ~ In a l -> list_remove a l = l.
Proof.
  induction l as [|x l IH]; simpl; intros Hn; [reflexivity|].
  destruct (Nat.eqb_spec x a) as [->|Hx]; simpl.
  - exfalso. apply Hn. now left.
  - f_equal. apply IH. intros Hin. apply Hn. now right.
Qed.

Lemma list_remove_length (a : dev_id) (l : list dev_id) :
  (List.length (list_remove a l) <= List.length l)%nat.
Proof. apply filter_length_le. Qed.

Lemma list_remove_app (a : dev_id) (l1 l2 : list dev_id) :
  list_remove a (l1 ++ l2) = list_remove a l1 ++ list_remove a l2.
Proof. apply filter_app. Qed.

Lemma insert_before_In (a b : dev_id) (l : list dev_id) :
  In b l -> In a (insert_before a b l).
Proof.
  induction l as [|x l IH]; simpl; [tauto|].
  intros [->|Hin].
  - rewrite Nat.eqb_refl. now left.
  - destruct (Nat.eqb x b); [now left | right; auto].
Qed.

Lemma insert_after_In (a b : dev_id) (l : list dev_id) :
  In b l -> In a (insert_after a b l).
Proof.
  induction l as [|x l IH]; simpl; [tauto|].
  intros [->|Hin].
  - rewrite Nat.eqb_refl. right. now left.
  - destruct (Nat.eqb x b); [right; now left | right; auto].
Qed.

Lemma last_entry_app (l : list dev_id) (d : dev_id) :
  last_entry (l ++ [d]) = Some d.
Proof.
  induction l as [|x l IH]; [reflexivity|].
  simpl. rewrite IH. destruct (l ++ [d]) eqn:Heq; [|reflexivity].
  destruct l; discriminate.
Qed.

Lemma last_entry_Some (l : list dev_id) (d : dev_id) :
  last_entry l = Some d -> exists l', l = l' ++ [d].
Proof.
  induction l as [|x l IH]; [discriminate|].
  destruct l as [|y l].
  - simpl. intros [= ->]. now exists [].
  - intros H. destruct (IH H) as [l' Hl']. exists (x :: l'). now rewrite Hl'.
Qed.

Lemma last_entry_None (l : list dev_id) : last_entry l = None -> l = [].
Proof.
  induction l as [|x l IH]; [reflexivity|].
  destruct l as [|y l]; [discriminate|]. intros H. specialize (IH H). discriminate.
Qed.

(** ** The denylist (C6) *)

Lemma deny_scan_hit (table : list string) (name entry : string) :
  In entry table -> strcmp name entry = 0%Z -> deny_scan table name = true.
Proof.
  induction table as [|e table IH]; simpl; [tauto|].
  intros [->|Hin] Hcmp.
  - now rewrite Hcmp.
  - destruct (strcmp name e =? 0)%Z; auto.
Qed.

(** C6.  A device whose name compares equal (strcmp returns 0) to an entry
    of suspend_deny_list is left alone by device_pm_add and by
    device_pm_move_last: both return with the state unchanged, so neither
    puts the device on dpm_list.  device_pm_move_before and
    device_pm_move_after do not look at the denylist: they link the device
    next to [devb], on dpm_list when [devb] is there. *)
Theorem denylisted_device_kept_out :
  forall (st : pm_state) (dev : dev_id) (entry : string),
    In entry suspend_deny_list ->
    strcmp (dev_name (devices st dev)) entry = 0%Z ->
    device_pm_add dev st = st
    /\ device_pm_move_last dev st = st
    /\ (~ In dev (dpm_list st) ->
        ~ In dev (dpm_list (device_pm_add dev st))
        /\ ~ In dev (dpm_list (device_pm_move_last dev st)))
    /\ (forall devb : dev_id,
          devb <> dev -> In devb (dpm_list st) ->
          In dev (dpm_list (device_pm_move_before dev devb st))
          /\ In dev (dpm_list (device_pm_move_after dev devb st))).
Proof.
  intros st dev entry Hin Hcmp.
  assert (Hdeny : is_device_in_suspend_denied_list (dev_name (devices st dev)) = true)
    by (eapply deny_scan_hit; eauto).
  assert (Hadd : device_pm_add dev st = st).
  { unfold device_pm_add. rewrite Hdeny.
    now destruct (device_pm_not_required (devices st dev)). }
  assert (Hlast : device_pm_move_last dev st = st).
  { unfold device_pm_move_last. now rewrite Hdeny. }
  repeat split.
  - exact Hadd.
  - exact Hlast.
  - now rewrite Hadd.
  - now rewrite Hlast.
  - unfold device_pm_move_before, list_move_tail_entry, dpm_list. simpl.
    apply insert_before_In, list_remove_In. auto.
  - unfold device_pm_move_after, list_move_entry, dpm_list. simpl.
    apply insert_after_In, list_remove_In. auto.
Qed.

(** ** Elementary facts about the state *)

Lemma fupd_same {A : Type} (f : dev_id -> A) (d : dev_id) (v : A) :
  fupd f d v d = v.
Proof. unfold fupd. now rewrite Nat.eqb_refl. Qed.

Lemma fupd_other {A : Type} (f : dev_id -> A) (d d' : dev_id) (v : A) :
  d' <> d -> fupd f d v d' = f d'.
Proof. unfold fupd. intros H. now destruct (Nat.eqb_spec d' d). Qed.

Lemma pw_set_dev_same (dev : dev_id) (f : dev_pm_info -> dev_pm_info) (st : pm_state) :
  pw (set_dev dev f st) dev = f (pw st dev).
Proof. unfold pw, set_dev. simpl. now rewrite fupd_same. Qed.

Lemma pw_set_dev_other (dev d : dev_id) (f : dev_pm_info -> dev_pm_info) (st : pm_state) :
  d <> dev -> pw (set_dev dev f st) d = pw st d.
Proof. unfold pw, set_dev. simpl. intros H. now rewrite fupd_other. Qed.

Lemma devices_set_dev_same (dev : dev_id) (f : dev_pm_info -> dev_pm_info) (st : pm_state) :
  devices (set_dev dev f st) dev = set_power (f (pw st dev)) (devices st dev).
Proof. unfold set_dev, pw. simpl. now rewrite fupd_same. Qed.

Lemma pw_log_event (e : trace_event) (st : pm_state) (d : dev_id) :
  pw (log_event e st) d = pw st d.
Proof. reflexivity. Qed.

Lemma klog_log_event (e : trace_event) (st : pm_state) :
  klog (log_event e st) = e :: klog st.
Proof. reflexivity. Qed.

Lemma extends_refl (P : trace_event -> Prop) (st : pm_state) : extends P st st.
Proof. exists []. split; [reflexivity | constructor]. Qed.

Lemma extends_trans (P : trace_event -> Prop) (st1 st2 st3 : pm_state) :
  extends P st1 st2 -> extends P st2 st3 -> extends P st1 st3.
Proof.
  intros (e1 & H1 & F1) (e2 & H2 & F2). exists (e2 ++ e1). split.
  - now rewrite H2, H1, app_assoc.
  - apply Forall_app. now split.
Qed.

Lemma extends_weaken (P Q : trace_event -> Prop) (st st' : pm_state) :
  (forall e, P e -> Q e) -> extends P st st' -> extends Q st st'.
Proof.
  intros HPQ (evs & H & F). exists evs. split; [exact H|].
  eapply Forall_impl; eauto.
Qed.

(** The events in front of [base] in [l], when [l] is a literal extension
    of [base]. *)
Ltac new_events l base :=
  lazymatch l with
  | base => constr:(@nil trace_event)
  | ?e :: ?l' => let r := new_events l' base in constr:(e :: r)
  end.

(** Closes [extends P st st'] when the log of [st'] reduces to events consed
    on the log of [st]; leaves the conditions [P e]. *)
Ltac extends_by_events :=
  lazymatch goal with
  | |- extends _ ?st ?st' =>
      let l := eval cbn in (klog st') in
      let evs := new_events l (klog st) in
      exists evs; split; [reflexivity | repeat apply Forall_cons; try apply Forall_nil]
  end.

(** ** The waits *)

Section Waits.

Variable E : environment.

(** On a worker the waits return at once. *)
Lemma dpm_wait_worker d async st : dpm_wait E worker d async st = st.
Proof. unfold dpm_wait. destruct d; [|reflexivity]. now destruct (_ || _). Qed.

Lemma dpm_wait_for_children_worker dev async st :
  dpm_wait_for_children E worker dev async st = st.
Proof.
  unfold dpm_wait_for_children. generalize (children (devices st dev)).
  intros l. revert st. induction l as [|c l IH]; intros st; cbn; [reflexivity|].
  rewrite IH. now destruct (_ || _).
Qed.

Lemma dpm_wait_for_consumers_worker dev async st :
  dpm_wait_for_consumers E worker dev async st = st.
Proof.
  unfold dpm_wait_for_consumers. generalize (consumers (devices st dev)).
  intros l. revert st. induction l as [|c l IH]; intros st; cbn; [reflexivity|].
  rewrite IH. destruct (link_dormant c); cbn; [reflexivity|]. now destruct (_ || _).
Qed.

Lemma dpm_wait_for_suppliers_worker dev async st :
  dpm_wait_for_suppliers E worker dev async st = st.
Proof.
  unfold dpm_wait_for_suppliers. generalize (suppliers (devices st dev)).
  intros l. revert st. induction l as [|c l IH]; intros st; cbn; [reflexivity|].
  rewrite IH. destruct (link_dormant c); cbn; [reflexivity|]. now destruct (_ || _).
Qed.

Lemma dpm_wait_for_subordinate_worker dev async st :
  dpm_wait_for_subordinate E worker dev async st = st.
Proof.
  unfold dpm_wait_for_subordinate.
  now rewrite dpm_wait_for_children_worker, dpm_wait_for_consumers_worker.
Qed.

Lemma dpm_wait_for_superior_worker dev async st :
  dpm_wait_for_superior E worker dev async st
  = (device_pm_initialized (devices st dev), st).
Proof.
  unfold dpm_wait_for_superior. cbn.
  rewrite dpm_wait_worker, dpm_wait_for_suppliers_worker.
  now destruct (device_pm_initialized (devices st dev)).
Qed.

Lemma waits_trans T st1 st2 st3 : waits T st1 st2 -> waits T st2 st3 -> waits T st1 st3.
Proof.
  induction 1; intros H3; [exact H3 | |].
  - apply waits_unlock. auto.
  - eapply waits_completion. eauto.
Qed.

Lemma waits_worker st st' : waits worker st st' -> st' = st.
Proof. induction 1; auto. Qed.

Lemma dpm_wait_waits T d async st : waits T st (dpm_wait E T d async st).
Proof.
  unfold dpm_wait. destruct d as [d|]; [|constructor].
  destruct (_ || _); [|constructor].
  eapply waits_completion. constructor.
Qed.

Lemma fold_waits {A : Type} T (f : pm_state -> A -> pm_state) (l : list A) st :
  (forall st x, waits T st (f st x)) -> waits T st (fold_left f l st).
Proof.
  intros Hf. revert st. induction l as [|x l IH]; intros st; cbn; [constructor|].
  eapply waits_trans; [apply Hf | apply IH].
Qed.

Lemma dpm_wait_for_children_waits T dev async st :
  waits T st (dpm_wait_for_children E T dev async st).
Proof.
  unfold dpm_wait_for_children. apply fold_waits. intros s x. apply dpm_wait_waits.
Qed.

Lemma dpm_wait_for_consumers_waits T dev async st :
  waits T st (dpm_wait_for_consumers E T dev async st).
Proof.
  unfold dpm_wait_for_consumers. apply fold_waits. intros s x.
  destruct (negb _); [apply dpm_wait_waits | constructor].
Qed.

Lemma dpm_wait_for_suppliers_waits T dev async st :
  waits T st (dpm_wait_for_suppliers E T dev async st).
Proof.
  unfold dpm_wait_for_suppliers. apply fold_waits. intros s x.
  destruct (negb _); [apply dpm_wait_waits | constructor].
Qed.

Lemma dpm_wait_for_subordinate_waits T dev async st :
  waits T st (dpm_wait_for_subordinate E T dev async st).
Proof.
  unfold dpm_wait_for_subordinate.
  eapply waits_trans; [apply dpm_wait_for_children_waits|].
  apply dpm_wait_for_consumers_waits.
Qed.

Lemma dpm_wait_for_superior_waits T dev async st :
  waits T st (snd (dpm_wait_for_superior E T dev async st)).
Proof.
  unfold dpm_wait_for_superior.
  destruct (negb _); cbn; apply waits_unlock; [constructor|].
  eapply waits_trans; [apply dpm_wait_waits|].
  apply dpm_wait_for_suppliers_waits.
Qed.

End Waits.

(** ** The callback that is run (C4) *)

Section Callbacks.

Variable E : environment.

Lemma chain_callback_resolved (ph : pm_phase) (state : pm_message_t)
    (prefix : string) (d : device) :
  ph <> PHASE_SUSPEND -> ph <> PHASE_RESUME ->
  snd (chain_callback (phase_slot E ph state) prefix d) = layered_callback E ph state d.
Proof.
  intros Hs Hr.
  unfold chain_callback, driver_fallback, layered_callback, first_provider, layers, driver_slot,
    power_domain_layer, type_layer, class_layer, bus_layer, legacy_hook,
    type_ops, class_ops, bus_ops, driver_ops.
  destruct ph; try congruence;
    destruct (pm_domain d) as [pd|]; simpl;
    repeat match goal with
      | |- context [match ?x with _ => _ end] =>
          lazymatch x with
          | context [match _ with _ => _ end] => fail
          | _ => destruct x eqn:?; simpl
          end
      end; try reflexivity; try congruence.
Qed.

Lemma device_resume_callback_resolved (state : pm_message_t) (d : device) :
  snd (device_resume_callback E d state) = layered_callback E PHASE_RESUME state d.
Proof.
  unfold device_resume_callback, driver_fallback, layered_callback, first_provider, layers, driver_slot,
    power_domain_layer, type_layer, class_layer, bus_layer, legacy_hook,
    type_ops, class_ops, bus_ops, driver_ops, phase_slot.
  destruct (pm_domain d) as [pd|]; simpl;
    repeat match goal with
      | |- context [match ?x with _ => _ end] =>
          lazymatch x with
          | context [match _ with _ => _ end] => fail
          | _ => destruct x eqn:?; simpl
          end
      end; try reflexivity; try congruence.
Qed.

Lemma device_suspend_callback_resolved (state : pm_message_t) (d : device) :
  action_callback (device_suspend_callback E d state)
  = layered_callback E PHASE_SUSPEND state d.
Proof.
  unfold device_suspend_callback, driver_fallback, layered_callback, first_provider, layers, driver_slot,
    power_domain_layer, type_layer, class_layer, bus_layer, legacy_hook,
    type_ops, class_ops, bus_ops, driver_ops, phase_slot.
  destruct (pm_domain d) as [pd|]; simpl;
    repeat match goal with
      | |- context [match ?x with _ => _ end] =>
          lazymatch x with
          | context [match _ with _ => _ end] => fail
          | _ => destruct x eqn:?; simpl
          end
      end; try reflexivity; try congruence.
Qed.

(** Whether __device_suspend goes through legacy_suspend is decided by the
    layer that decides. *)
Lemma device_suspend_callback_provider (state : pm_message_t) (d : device) :
  match device_suspend_callback E d state with
  | Legacy _ f =>
      layered_callback E PHASE_SUSPEND state d = Some f
      /\ first_provider (layers PHASE_SUSPEND d) = Some (LegacyHook f)
  | Run _ cb =>
      layered_callback E PHASE_SUSPEND state d = cb
      /\ forall h, first_provider (layers PHASE_SUSPEND d) <> Some (LegacyHook h)
  end.
Proof.
  unfold device_suspend_callback, driver_fallback, layered_callback, first_provider,
    layers, driver_slot,
    power_domain_layer, type_layer, class_layer, bus_layer, legacy_hook,
    type_ops, class_ops, bus_ops, driver_ops, phase_slot.
  destruct (pm_domain d) as [pd|]; simpl;
    repeat match goal with
      | |- context [match ?x with _ => _ end] =>
          lazymatch x with
          | context [match _ with _ => _ end] => fail
          | _ => destruct x eqn:?; simpl
          end
      end; split; try reflexivity; try congruence; try discriminate.
Qed.

End Callbacks.

(** ** Tactics for the per-device functions *)

Lemma log_tail_nil (base : list trace_event) : base = [] ++ base.
Proof. reflexivity. Qed.

Lemma log_tail_cons (e : trace_event) (l evs base : list trace_event) :
  l = evs ++ base -> e :: l = (e :: evs) ++ base.
Proof. intros ->. reflexivity. Qed.

(** Solves [e1 :: ... :: en :: base = ?evs ++ base]. *)
Ltac log_shape := repeat (first [exact (log_tail_nil _) | apply log_tail_cons]).

(** Case analysis on the innermost test of the goal. *)
Ltac split_step :=
  match goal with
  | |- context [match ?x with _ => _ end] =>
      lazymatch x with
      | context [match _ with _ => _ end] => fail
      | _ => destruct x eqn:?
      end
  end.

Ltac split_cases := repeat (split_step; cbn).

Ltac fupd_hyps :=
  repeat match goal with
    | H : context [fupd _ ?d _ ?d] |- _ => rewrite fupd_same in H
    end.

(** Opens [extends P st st'] into the conditions [P e] on the new events. *)
Ltac extends_events :=
  unfold extends; eexists; (split; [cbn; log_shape | ]);
  repeat apply Forall_cons; try apply Forall_nil.

Section Calls.

Variable E : environment.

Lemma klog_dpm_clear_suppliers (dev : dev_id) (st : pm_state) :
  klog (dpm_clear_suppliers_direct_complete dev st) = klog st.
Proof.
  unfold dpm_clear_suppliers_direct_complete.
  generalize (suppliers (devices st dev)). intros l. revert st.
  induction l as [|s l IH]; intros st; simpl; [reflexivity|].
  now rewrite IH.
Qed.

Lemma klog_suspend_succeeded (dev : dev_id) (st : pm_state) :
  klog (suspend_succeeded dev st) = klog st.
Proof.
  unfold suspend_succeeded. rewrite klog_dpm_clear_suppliers.
  destruct (parent _); [|reflexivity].
  match goal with |- context [if ?c then _ else _] => destruct c end; reflexivity.
Qed.

(** dpm_run_callback calls the callback it is given and returns its
    answer. *)
Lemma dpm_run_callback_runs f dev state info st :
  runs_callback E f dev (fst (dpm_run_callback E (Some f) dev state info st))
    st (snd (dpm_run_callback E (Some f) dev state info st)).
Proof.
  exists [ev_trace_device_pm_callback_start dev info (event state)].
  eexists [_]. cbn. repeat split; repeat constructor.
Qed.

Lemma legacy_suspend_runs f dev state info st :
  runs_legacy_hook E f dev state (fst (legacy_suspend E dev state f info st))
    st (snd (legacy_suspend E dev state f info st)).
Proof.
  exists [ev_trace_device_pm_callback_start dev info (event state)].
  eexists [_]. cbn. repeat split; repeat constructor.
Qed.

(** Events that are no calls, logged before or after the call, do not
    matter. *)
Lemma runs_callback_frame f dev ret st0 st st' st1 pre post :
  runs_callback E f dev ret st st' ->
  klog st = pre ++ klog st0 -> Forall not_call pre ->
  klog st1 = post ++ klog st' -> Forall not_call post ->
  runs_callback E f dev ret st0 st1.
Proof.
  intros (b & a & L & R & Fb & Fa) L0 Fpre L1 Fpost.
  exists (b ++ pre), (post ++ a). repeat split.
  - rewrite L1, L, L0. now rewrite <- !app_assoc.
  - rewrite R, L0. now rewrite <- app_assoc.
  - apply Forall_app. now split.
  - apply Forall_app. now split.
Qed.

Lemma runs_legacy_hook_frame f dev state ret st0 st st' st1 pre post :
  runs_legacy_hook E f dev state ret st st' ->
  klog st = pre ++ klog st0 -> Forall not_call pre ->
  klog st1 = post ++ klog st' -> Forall not_call post ->
  runs_legacy_hook E f dev state ret st0 st1.
Proof.
  intros (b & a & L & R & Fb & Fa) L0 Fpre L1 Fpost.
  exists (b ++ pre), (post ++ a). repeat split.
  - rewrite L1, L, L0. now rewrite <- !app_assoc.
  - rewrite R, L0. now rewrite <- app_assoc.
  - apply Forall_app. now split.
  - apply Forall_app. now split.
Qed.

(** A structured table decides for every phase but the two with legacy
    hooks in the same way. *)
Lemma runs_resolved_plain ph dev state st r :
  ph <> PHASE_SUSPEND ->
  match layered_callback E ph state (devices st dev) with
  | Some f => runs_callback E f dev (fst r) st (snd r)
  | None => fst r = 0%Z /\ extends not_call st (snd r)
  end ->
  runs_resolved E ph dev state st r.
Proof.
  intros Hph H. unfold runs_resolved.
  destruct (layered_callback E ph state (devices st dev)); [|exact H].
  destruct ph; try congruence; exact H.
Qed.

(** Closes the goals [runs_callback] and [fst r = 0 /\ extends not_call]
    that remain once a per-device function has been taken apart. *)
Ltac ran :=
  cbn;
  first
    [ discriminate
    | congruence
    | split; [reflexivity | extends_events; reflexivity]
    | eexists; eexists; cbn; split; [log_shape3 | ];
      (split; [reflexivity | ]); split; repeat constructor ]
with log_shape3 :=
  first [ exact (eq_refl _ : _ = [] ++ _ :: _ ++ _)
        | idtac ].

(** Splits the log of the goal into [n] events after the call and [m]
    before it. *)
Ltac ran_call after before :=
  exists before; exists after; cbn;
  repeat split; repeat constructor.

Lemma device_resume_noirq_runs T dev state async st :
  syscore (pw st dev) = false -> direct_complete (pw st dev) = false ->
  is_noirq_suspended (pw st dev) = true ->
  resume_wait_ok E T dev async st = true ->
  runs_resolved E PHASE_RESUME_NOIRQ dev state (resume_waited E T dev async st)
    (device_resume_noirq E T dev state async st).
Proof.
  intros Hs Hd Hf Hok. apply runs_resolved_plain; [discriminate|].
  rewrite <- (chain_callback_resolved E _ state "noirq ") by discriminate.
  change (phase_slot E PHASE_RESUME_NOIRQ state) with (fun p => pm_noirq_op E p state).
  unfold resume_wait_ok, resume_waited in *. unfold device_resume_noirq.
  rewrite !pw_log_event, Hs, Hd, Hf. cbn.
  destruct (dpm_wait_for_superior E T dev async _) as [ok st2]. cbn in *. subst ok. cbn.
  destruct (chain_callback _ _ _) as [info [f|]]; cbn.
  - eexists [_], [_]. cbn. repeat split; repeat constructor.
  - split; [reflexivity | extends_events; try reflexivity].
Qed.

Lemma device_resume_early_runs T dev state async st :
  syscore (pw st dev) = false -> direct_complete (pw st dev) = false ->
  is_late_suspended (pw st dev) = true ->
  resume_wait_ok E T dev async st = true ->
  runs_resolved E PHASE_RESUME_EARLY dev state (resume_waited E T dev async st)
    (device_resume_early E T dev state async st).
Proof.
  intros Hs Hd Hf Hok. apply runs_resolved_plain; [discriminate|].
  rewrite <- (chain_callback_resolved E _ state "early ") by discriminate.
  change (phase_slot E PHASE_RESUME_EARLY state)
    with (fun p => pm_late_early_op E p state).
  unfold resume_wait_ok, resume_waited in *. unfold device_resume_early.
  rewrite !pw_log_event, Hs, Hd, Hf. cbn.
  destruct (dpm_wait_for_superior E T dev async _) as [ok st2]. cbn in *. subst ok. cbn.
  destruct (chain_callback _ _ _) as [info [f|]]; cbn.
  - eexists [_], [_; _]. cbn. repeat split; repeat constructor.
  - split; [reflexivity | extends_events; try reflexivity].
Qed.

Lemma device_resume_runs T dev state async st :
  syscore (pw st dev) = false -> direct_complete (pw st dev) = false ->
  resume_wait_ok E T dev async st = true ->
  is_suspended (pw (resume_waited E T dev async st) dev) = true ->
  runs_resolved E PHASE_RESUME dev state (resume_waited E T dev async st)
    (device_resume E T dev state async st).
Proof.
  intros Hs Hd Hok Hf. apply runs_resolved_plain; [discriminate|].
  rewrite <- (device_resume_callback_resolved E state).
  unfold resume_wait_ok, resume_waited in *. unfold device_resume.
  rewrite !pw_log_event, Hs, Hd. cbn.
  destruct (dpm_wait_for_superior E T dev async _) as [ok st2]. cbn in *. subst ok. cbn.
  rewrite pw_set_dev_same. cbn. rewrite Hf. cbn.
  rewrite fupd_same.
  change (device_resume_callback E (set_power _ (devices st2 dev)) state)
    with (device_resume_callback E (devices st2 dev) state).
  destruct (device_resume_callback _ _ _) as [info [f|]]; cbn.
  - eexists [_], [_]. cbn. repeat split; repeat constructor.
  - split; [reflexivity | extends_events; try reflexivity].
Qed.

Lemma device_complete_runs dev state st :
  syscore (pw st dev) = false ->
  match layered_callback E PHASE_COMPLETE state (devices st dev) with
  | Some f => runs_void_callback f dev st (device_complete dev state st)
  | None => extends not_call st (device_complete dev state st)
  end.
Proof.
  intros Hs.
  rewrite <- (chain_callback_resolved E _ state "completing ") by discriminate.
  change (phase_slot E PHASE_COMPLETE state) with complete.
  unfold device_complete. rewrite Hs.
  destruct (chain_callback _ _ _) as [info [f|]]; cbn.
  - eexists [], [_]. cbn. repeat split; repeat constructor.
  - extends_events; reflexivity.
Qed.

Lemma device_suspend_noirq_runs T dev state async st :
  async_error (suspend_waited E T dev async st) = 0%Z ->
  pm_wakeup_pending E (klog (suspend_waited E T dev async st)) = false ->
  syscore (pw (suspend_waited E T dev async st) dev) = false ->
  direct_complete (pw (suspend_waited E T dev async st) dev) = false ->
  runs_resolved E PHASE_SUSPEND_NOIRQ dev state (suspend_waited E T dev async st)
    (__device_suspend_noirq E T dev state async st).
Proof.
  intros Ha Hw Hs Hd. apply runs_resolved_plain; [discriminate|].
  rewrite <- (chain_callback_resolved E _ state "noirq ") by discriminate.
  change (phase_slot E PHASE_SUSPEND_NOIRQ state) with (fun p => pm_noirq_op E p state).
  unfold __device_suspend_noirq. fold (suspend_waited E T dev async st).
  set (st2 := suspend_waited E T dev async st) in *. clearbody st2.
  cbv zeta. rewrite Ha, Hw, Hs, Hd. cbn.
  destruct (chain_callback _ _ _) as [info [f|]]; cbn.
  - destruct (cb_result E _ f dev =? 0)%Z;
      eexists [_], [_]; cbn; repeat split; repeat constructor.
  - split; [reflexivity | extends_events; try reflexivity].
Qed.

Lemma device_suspend_late_runs T dev state async st :
  async_error (suspend_late_waited E T dev async st) = 0%Z ->
  pm_wakeup_pending E (klog (suspend_late_waited E T dev async st)) = false ->
  syscore (pw (suspend_late_waited E T dev async st) dev) = false ->
  direct_complete (pw (suspend_late_waited E T dev async st) dev) = false ->
  runs_resolved E PHASE_SUSPEND_LATE dev state (suspend_late_waited E T dev async st)
    (__device_suspend_late E T dev state async st).
Proof.
  intros Ha Hw Hs Hd. apply runs_resolved_plain; [discriminate|].
  rewrite <- (chain_callback_resolved E _ state "late ") by discriminate.
  change (phase_slot E PHASE_SUSPEND_LATE state)
    with (fun p => pm_late_early_op E p state).
  unfold __device_suspend_late. fold (suspend_late_waited E T dev async st).
  set (st2 := suspend_late_waited E T dev async st) in *. clearbody st2.
  cbv zeta. rewrite Ha, Hw, Hs, Hd. cbn.
  destruct (chain_callback _ _ _) as [info [f|]]; cbn.
  - destruct (cb_result E _ f dev =? 0)%Z;
      eexists [_], [_]; cbn; repeat split; repeat constructor.
  - split; [reflexivity | extends_events; try reflexivity].
Qed.

Lemma suspend_direct_complete_frame dev st :
  exists pre,
    klog (snd (suspend_direct_complete E dev st)) = pre ++ klog st
    /\ Forall not_call pre
    /\ (forall state,
          device_suspend_callback E (devices (snd (suspend_direct_complete E dev st)) dev)
            state
          = device_suspend_callback E (devices st dev) state).
Proof.
  unfold suspend_direct_complete.
  destruct (direct_complete (pw st dev)).
  - destruct (pm_runtime_status_suspended E (klog st) dev).
    + cbn [klog log_event].
      destruct (pm_runtime_status_suspended E _ dev); cbn [snd].
      * exists [ev_runtime_pm PM_RUNTIME_DISABLE dev]. repeat split; repeat constructor.
      * exists [ev_runtime_pm PM_RUNTIME_ENABLE dev; ev_runtime_pm PM_RUNTIME_DISABLE dev].
        repeat split; repeat constructor.
        intros state. cbn. now rewrite fupd_same.
    + exists []. repeat split; [constructor|]. intros state. cbn. now rewrite fupd_same.
  - exists []. repeat split. constructor.
Qed.

Lemma suspend_checked_frame dev st :
  klog (suspend_checked dev st) = [ev_runtime_pm PM_RUNTIME_BARRIER dev] ++ klog st
  /\ (forall state,
        device_suspend_callback E (devices (suspend_checked dev st) dev) state
        = device_suspend_callback E (devices st dev) state)
  /\ (direct_complete (pw st dev) = false ->
      direct_complete (pw (suspend_checked dev st) dev) = false).
Proof.
  unfold suspend_checked. cbv zeta. destruct (_ || _).
  - repeat split.
    + intros state. cbn. now rewrite fupd_same.
    + intros _. now rewrite pw_set_dev_same.
  - now repeat split.
Qed.

Lemma device_suspend_reaches T dev state async st :
  async_error (suspend_waited E T dev async st) = 0%Z ->
  pm_wakeup_pending E
    (ev_runtime_pm PM_RUNTIME_BARRIER dev :: klog (suspend_waited E T dev async st))
  = false ->
  syscore (pw (suspend_waited E T dev async st) dev) = false ->
  fst (suspend_direct_complete E dev
         (suspend_checked dev (suspend_waited E T dev async st))) = false ->
  runs_resolved E PHASE_SUSPEND dev state (suspend_waited E T dev async st)
    (__device_suspend E T dev state async st).
Proof.
  intros Ha Hw Hs Hd.
  unfold __device_suspend. fold (suspend_waited E T dev async st).
  set (st2 := suspend_waited E T dev async st) in *. clearbody st2.
  cbv zeta. rewrite Ha. cbn [negb Z.eqb]. rewrite klog_log_event, Hw.
  rewrite !pw_log_event, Hs.
  change (if device_may_wakeup
               (devices (log_event (ev_runtime_pm PM_RUNTIME_BARRIER dev) st2) dev)
             || wakeup_path (pw st2 dev)
          then set_dev dev (set_direct_complete false)
                 (log_event (ev_runtime_pm PM_RUNTIME_BARRIER dev) st2)
          else log_event (ev_runtime_pm PM_RUNTIME_BARRIER dev) st2)
    with (suspend_checked dev st2).
  destruct (suspend_checked_frame dev st2) as (Hl3 & Hc3 & _).
  destruct (suspend_direct_complete_frame dev (suspend_checked dev st2))
    as (pre & Hl4 & Hpre & Hc4).
  destruct (suspend_direct_complete E dev (suspend_checked dev st2)) as [skip st4].
  cbn [fst snd] in *. subst skip.
  assert (Hl : klog st4 = (pre ++ [ev_runtime_pm PM_RUNTIME_BARRIER dev]) ++ klog st2).
  { rewrite Hl4, Hl3. now rewrite app_assoc. }
  assert (Hnc : Forall not_call (pre ++ [ev_runtime_pm PM_RUNTIME_BARRIER dev])).
  { apply Forall_app. split; [exact Hpre | repeat constructor]. }
  rewrite Hc4, Hc3.
  unfold runs_resolved.
  pose proof (device_suspend_callback_provider E state (devices st2 dev)) as Hp.
  destruct (device_suspend_callback E (devices st2 dev) state) as [info cb|info f].
  - destruct Hp as [Hlc Hn]. rewrite Hlc.
    assert (Hplain : forall f r,
              runs_callback E f dev (fst r) st2 (snd r) ->
              match first_provider (layers PHASE_SUSPEND (devices st2 dev)) with
              | Some (LegacyHook _) => runs_legacy_hook E f dev state (fst r) st2 (snd r)
              | _ => runs_callback E f dev (fst r) st2 (snd r)
              end).
    { intros f r Hr.
      destruct (first_provider _) as [[t|h]|]; auto. now destruct (Hn h). }
    destruct cb as [f|].
    + apply Hplain.
      pose proof (dpm_run_callback_runs f dev state info st4) as Hrun.
      destruct (dpm_run_callback E (Some f) dev state info st4) as [error st5].
      cbn [fst snd] in *.
      eapply runs_callback_frame with (post := []);
        [exact Hrun | exact Hl | exact Hnc | | constructor].
      destruct (error =? 0)%Z; cbn; rewrite ?klog_suspend_succeeded; reflexivity.
    + cbn - [suspend_succeeded]. split; [reflexivity|].
      exists (pre ++ [ev_runtime_pm PM_RUNTIME_BARRIER dev]).
      split; [| exact Hnc].
      change (klog (complete_all dev (suspend_succeeded dev st4)))
        with (klog (suspend_succeeded dev st4)).
      rewrite klog_suspend_succeeded. exact Hl.
  - destruct Hp as [Hlc Hn]. rewrite Hlc, Hn.
    pose proof (legacy_suspend_runs f dev state info st4) as Hrun.
    destruct (legacy_suspend E dev state f info st4) as [error st5].
    cbn [fst snd] in *.
    eapply runs_legacy_hook_frame with (post := []);
      [exact Hrun | exact Hl | exact Hnc | | constructor].
    destruct (error =? 0)%Z; cbn; rewrite ?klog_suspend_succeeded; reflexivity.
Qed.

Lemma device_suspend_runs T dev state async st :
  async_error (suspend_waited E T dev async st) = 0%Z ->
  pm_wakeup_pending E
    (ev_runtime_pm PM_RUNTIME_BARRIER dev :: klog (suspend_waited E T dev async st))
  = false ->
  syscore (pw (suspend_waited E T dev async st) dev) = false ->
  direct_complete (pw (suspend_waited E T dev async st) dev) = false ->
  runs_resolved E PHASE_SUSPEND dev state (suspend_waited E T dev async st)
    (__device_suspend E T dev state async st).
Proof.
  intros Ha Hw Hs Hd. apply device_suspend_reaches; auto.
  destruct (suspend_checked_frame dev (suspend_waited E T dev async st)) as (_ & _ & H).
  unfold suspend_direct_complete. now rewrite (H Hd).
Qed.

Lemma device_prepare_runs dev state st :
  syscore (pw st dev) = false -> no_pm_callbacks (pw st dev) = false ->
  match layered_callback E PHASE_PREPARE state (devices st dev) with
  | Some f =>
      exists ret,
        runs_callback E f dev ret st (snd (device_prepare E dev state st))
        /\ fst (device_prepare E dev state st) = (if (ret <? 0)%Z then ret else 0%Z)
  | None =>
      fst (device_prepare E dev state st) = 0%Z
      /\ extends not_call st (snd (device_prepare E dev state st))
  end.
Proof.
  intros Hs Hn.
  rewrite <- (chain_callback_resolved E _ state "") by discriminate.
  change (phase_slot E PHASE_PREPARE state) with prepare.
  unfold device_prepare. rewrite Hs. cbv zeta.
  rewrite pw_set_dev_same, pw_log_event. cbn [no_pm_callbacks set_wakeup_path].
  rewrite Hn, devices_set_dev_same.
  change (chain_callback prepare "" (set_power _ _))
    with (chain_callback prepare "" (devices st dev)).
  destruct (chain_callback _ _ _) as [info [f|]]; cbn.
  - eexists. split.
    + destruct (_ <? 0)%Z; eexists [_]; [eexists [_] | eexists []];
        cbn; repeat split; repeat constructor.
    + now destruct (_ <? 0)%Z.
  - split; [reflexivity | extends_events; reflexivity].
Qed.

Ltac resolved :=
  fupd_hyps;
  match goal with
  | H : chain_callback ?op ?prefix ?d' = (_, Some ?c)
    |- layered_callback _ ?ph ?state ?d = Some ?c =>
      rewrite <- (chain_callback_resolved E ph state prefix d) by discriminate;
      transitivity (snd (chain_callback op prefix d'));
      [reflexivity | rewrite H; reflexivity]
  | H : snd (chain_callback ?op ?prefix ?d') = Some ?c
    |- layered_callback _ ?ph ?state ?d = Some ?c =>
      rewrite <- (chain_callback_resolved E ph state prefix d) by discriminate;
      transitivity (snd (chain_callback op prefix d'));
      [reflexivity | exact H]
  | H : device_resume_callback _ ?d' ?state = (_, Some ?c)
    |- layered_callback _ _ ?state ?d = Some ?c =>
      rewrite <- (device_resume_callback_resolved E state d);
      transitivity (snd (device_resume_callback E d' state));
      [reflexivity | rewrite H; reflexivity]
  | H : device_suspend_callback _ ?d' ?state = _
    |- layered_callback _ _ ?state ?d = Some ?c =>
      rewrite <- (device_suspend_callback_resolved E state d);
      transitivity (action_callback (device_suspend_callback E d' state));
      [reflexivity | rewrite H; reflexivity]
  end.

Ltac calls_leaf := cbn; try exact I; try (split; [reflexivity | resolved]).

Lemma device_resume_noirq_calls dev state async st :
  extends (calls_only dev (layered_callback E PHASE_RESUME_NOIRQ state (devices st dev)))
    st (snd (device_resume_noirq E worker dev state async st)).
Proof.
  unfold device_resume_noirq. rewrite dpm_wait_for_superior_worker.
  unfold dpm_run_callback. cbn.
  split_cases; extends_events; calls_leaf.
Qed.

Lemma device_resume_early_calls dev state async st :
  extends (calls_only dev (layered_callback E PHASE_RESUME_EARLY state (devices st dev)))
    st (snd (device_resume_early E worker dev state async st)).
Proof.
  unfold device_resume_early. rewrite dpm_wait_for_superior_worker.
  unfold dpm_run_callback. cbn.
  split_cases; extends_events; calls_leaf.
Qed.

Lemma device_resume_calls dev state async st :
  extends (calls_only dev (layered_callback E PHASE_RESUME state (devices st dev)))
    st (snd (device_resume E worker dev state async st)).
Proof.
  unfold device_resume. rewrite dpm_wait_for_superior_worker.
  unfold dpm_run_callback. cbn.
  split_cases; extends_events; calls_leaf.
Qed.

Lemma device_complete_calls dev state st :
  extends (calls_only dev (layered_callback E PHASE_COMPLETE state (devices st dev)))
    st (device_complete dev state st).
Proof.
  unfold device_complete. cbn.
  split_cases; extends_events; calls_leaf.
Qed.

Lemma device_suspend_noirq_calls dev state async st :
  extends (calls_only dev (layered_callback E PHASE_SUSPEND_NOIRQ state (devices st dev)))
    st (snd (__device_suspend_noirq E worker dev state async st)).
Proof.
  unfold __device_suspend_noirq. rewrite dpm_wait_for_subordinate_worker.
  unfold dpm_run_callback. cbn.
  split_cases; extends_events; calls_leaf.
Qed.

Lemma device_suspend_late_calls dev state async st :
  extends (calls_only dev (layered_callback E PHASE_SUSPEND_LATE state (devices st dev)))
    st (snd (__device_suspend_late E worker dev state async st)).
Proof.
  unfold __device_suspend_late. rewrite dpm_wait_for_subordinate_worker.
  unfold dpm_run_callback. cbn.
  split_cases; extends_events; calls_leaf.
Qed.

Lemma device_suspend_calls dev state async st :
  extends (calls_only dev (layered_callback E PHASE_SUSPEND state (devices st dev)))
    st (snd (__device_suspend E worker dev state async st)).
Proof.
  unfold __device_suspend. rewrite dpm_wait_for_subordinate_worker.
  unfold dpm_run_callback, legacy_suspend, suspend_direct_complete. cbn.
  split_cases; unfold extends; eexists;
    (split; [cbn; rewrite ?klog_suspend_succeeded; cbn; log_shape | ]);
    repeat apply Forall_cons; try apply Forall_nil; calls_leaf.
Qed.

Lemma device_prepare_calls dev state st :
  extends (calls_only dev (layered_callback E PHASE_PREPARE state (devices st dev)))
    st (snd (device_prepare E dev state st)).
Proof.
  unfold device_prepare. cbn.
  split_cases; extends_events; calls_leaf.
Qed.

(** When the layer that decides supplies a callback for the phase, or when
    no layer is there, the specification's resolver and the rule of main.c
    give the same callback. *)
Lemma first_callback_provider ph state (l : list (option provider)) rest p cb :
  first_provider l = Some p -> provided E ph state (Some p) = Some cb ->
  first_callback (map (provided E ph state) l ++ rest) = Some cb.
Proof.
  induction l as [|[q|] l IH]; cbn [first_provider map app]; intros Hp Hcb.
  - discriminate.
  - injection Hp as ->. cbn [first_callback]. now rewrite Hcb.
  - cbn [provided first_callback]. auto.
Qed.

Lemma first_callback_no_provider ph state (l : list (option provider)) rest :
  first_provider l = None ->
  first_callback (map (provided E ph state) l ++ rest) = first_callback rest.
Proof.
  induction l as [|[q|] l IH]; cbn [first_provider map app]; intros Hp.
  - reflexivity.
  - discriminate.
  - cbn [provided first_callback]. auto.
Qed.

Lemma resolvers_agree ph state d :
  match first_provider (layers ph d) with
  | Some p =>
      provided E ph state (Some p) <> None ->
      resolve_callback E ph state d = layered_callback E ph state d
  | None => resolve_callback E ph state d = layered_callback E ph state d
  end.
Proof.
  unfold resolve_callback, layered_callback.
  destruct (first_provider (layers ph d)) as [p|] eqn:Hp.
  - intros Hcb. destruct (provided E ph state (Some p)) as [cb|] eqn:Hq; [|congruence].
    rewrite (first_callback_provider _ _ _ _ _ _ Hp Hq).
    destruct p as [table|hook]; cbn in Hq; [now rewrite Hq | congruence].
  - rewrite (first_callback_no_provider _ _ _ _ Hp). cbn.
    now destruct (driver_slot E ph state d).
Qed.

(** C4.  The callback a per-device function runs is the one that the first
    layer that is there decides: power domain, then type, then class -- its
    table or, for suspend and resume, its legacy hook --, then bus in the
    same way; the driver's table is read when the deciding table has no
    callback for the phase or when no layer is there.  On the path on which
    the function reaches its callback (the device is not skipped) that
    callback is called on the device, once, and what it returns is what the
    function returns (device_prepare maps a positive answer to 0); a legacy
    suspend hook is called through legacy_suspend; when the resolution is
    null nothing is called and the result is 0, and dpm_run_callback on a
    NULL pointer returns 0 and changes nothing.  On a worker, whatever path
    is taken, no other callback is called.  The choice agrees with the
    resolver of the specification whenever the deciding layer supplies a
    callback for the phase or no layer is there. *)
Theorem callback_resolved_by_layer_priority :
  forall (T : thread) (dev : dev_id) (state : pm_message_t) (async : bool)
         (st : pm_state),
    (syscore (pw st dev) = false -> no_pm_callbacks (pw st dev) = false ->
     match layered_callback E PHASE_PREPARE state (devices st dev) with
     | Some f =>
         exists ret,
           runs_callback E f dev ret st (snd (device_prepare E dev state st))
           /\ fst (device_prepare E dev state st) = (if (ret <? 0)%Z then ret else 0%Z)
     | None =>
         fst (device_prepare E dev state st) = 0%Z
         /\ extends not_call st (snd (device_prepare E dev state st))
     end)
    /\ (async_error (suspend_waited E T dev async st) = 0%Z ->
        pm_wakeup_pending E
          (ev_runtime_pm PM_RUNTIME_BARRIER dev :: klog (suspend_waited E T dev async st))
        = false ->
        syscore (pw (suspend_waited E T dev async st) dev) = false ->
        fst (suspend_direct_complete E dev
               (suspend_checked dev (suspend_waited E T dev async st))) = false ->
        runs_resolved E PHASE_SUSPEND dev state (suspend_waited E T dev async st)
          (__device_suspend E T dev state async st))
    /\ (async_error (suspend_late_waited E T dev async st) = 0%Z ->
        pm_wakeup_pending E (klog (suspend_late_waited E T dev async st)) = false ->
        syscore (pw (suspend_late_waited E T dev async st) dev) = false ->
        direct_complete (pw (suspend_late_waited E T dev async st) dev) = false ->
        runs_resolved E PHASE_SUSPEND_LATE dev state
          (suspend_late_waited E T dev async st)
          (__device_suspend_late E T dev state async st))
    /\ (async_error (suspend_waited E T dev async st) = 0%Z ->
        pm_wakeup_pending E (klog (suspend_waited E T dev async st)) = false ->
        syscore (pw (suspend_waited E T dev async st) dev) = false ->
        direct_complete (pw (suspend_waited E T dev async st) dev) = false ->
        runs_resolved E PHASE_SUSPEND_NOIRQ dev state (suspend_waited E T dev async st)
          (__device_suspend_noirq E T dev state async st))
    /\ (syscore (pw st dev) = false -> direct_complete (pw st dev) = false ->
        is_noirq_suspended (pw st dev) = true ->
        resume_wait_ok E T dev async st = true ->
        runs_resolved E PHASE_RESUME_NOIRQ dev state (resume_waited E T dev async st)
          (device_resume_noirq E T dev state async st))
    /\ (syscore (pw st dev) = false -> direct_complete (pw st dev) = false ->
        is_late_suspended (pw st dev) = true ->
        resume_wait_ok E T dev async st = true ->
        runs_resolved E PHASE_RESUME_EARLY dev state (resume_waited E T dev async st)
          (device_resume_early E T dev state async st))
    /\ (syscore (pw st dev) = false -> direct_complete (pw st dev) = false ->
        resume_wait_ok E T dev async st = true ->
        is_suspended (pw (resume_waited E T dev async st) dev) = true ->
        runs_resolved E PHASE_RESUME dev state (resume_waited E T dev async st)
          (device_resume E T dev state async st))
    /\ (syscore (pw st dev) = false ->
        match layered_callback E PHASE_COMPLETE state (devices st dev) with
        | Some f => runs_void_callback f dev st (device_complete dev state st)
        | None => extends not_call st (device_complete dev state st)
        end)
    /\ extends (calls_only dev (layered_callback E PHASE_PREPARE state (devices st dev)))
         st (snd (device_prepare E dev state st))
    /\ extends (calls_only dev (layered_callback E PHASE_SUSPEND state (devices st dev)))
         st (snd (__device_suspend E worker dev state async st))
    /\ extends (calls_only dev (layered_callback E PHASE_SUSPEND_LATE state (devices st dev)))
         st (snd (__device_suspend_late E worker dev state async st))
    /\ extends (calls_only dev (layered_callback E PHASE_SUSPEND_NOIRQ state (devices st dev)))
         st (snd (__device_suspend_noirq E worker dev state async st))
    /\ extends (calls_only dev (layered_callback E PHASE_RESUME_NOIRQ state (devices st dev)))
         st (snd (device_resume_noirq E worker dev state async st))
    /\ extends (calls_only dev (layered_callback E PHASE_RESUME_EARLY state (devices st dev)))
         st (snd (device_resume_early E worker dev state async st))
    /\ extends (calls_only dev (layered_callback E PHASE_RESUME state (devices st dev)))
         st (snd (device_resume E worker dev state async st))
    /\ extends (calls_only dev (layered_callback E PHASE_COMPLETE state (devices st dev)))
         st (device_complete dev state st)
    /\ (forall info : string, dpm_run_callback E None dev state info st = (0%Z, st))
    /\ (forall d : device,
          action_callback (device_suspend_callback E d state)
          = layered_callback E PHASE_SUSPEND state d)
    /\ (forall d : device,
          snd (device_resume_callback E d state) = layered_callback E PHASE_RESUME state d)
    /\ (forall (ph : pm_phase) (prefix : string) (d : device),
          ph <> PHASE_SUSPEND -> ph <> PHASE_RESUME ->
          snd (chain_callback (phase_slot E ph state) prefix d)
          = layered_callback E ph state d)
    /\ (forall (ph : pm_phase) (d : device),
          match first_provider (layers ph d) with
          | Some p =>
              provided E ph state (Some p) <> None ->
              resolve_callback E ph state d = layered_callback E ph state d
          | None => resolve_callback E ph state d = layered_callback E ph state d
          end).
Proof.
  intros T dev state async st.
  split; [apply device_prepare_runs|].
  split; [apply device_suspend_reaches|].
  split; [apply device_suspend_late_runs|].
  split; [apply device_suspend_noirq_runs|].
  split; [apply device_resume_noirq_runs|].
  split; [apply device_resume_early_runs|].
  split; [apply device_resume_runs|].
  split; [apply device_complete_runs|].
  split; [apply device_prepare_calls|].
  split; [apply device_suspend_calls|].
  split; [apply device_suspend_late_calls|].
  split; [apply device_suspend_noirq_calls|].
  split; [apply device_resume_noirq_calls|].
  split; [apply device_resume_early_calls|].
  split; [apply device_resume_calls|].
  split; [apply device_complete_calls|].
  split; [reflexivity|].
  split; [apply device_suspend_callback_resolved|].
  split; [apply device_resume_callback_resolved|].
  split; [intros; now apply chain_callback_resolved|].
  intros ph d. apply resolvers_agree.
Qed.

End Calls.

(** ** Phase flags (C5, C9) *)

Section Flags.

Variable E : environment.

(** The power fields of a device across the elementary updates. *)
Lemma pw_set_dev (x d : dev_id) (f : dev_pm_info -> dev_pm_info) (st : pm_state) :
  pw (set_dev x f st) d = if Nat.eqb d x then f (pw st d) else pw st d.
Proof.
  destruct (Nat.eqb_spec d x) as [->|Hd].
  - apply pw_set_dev_same.
  - now apply pw_set_dev_other.
Qed.

Lemma pw_set_async_error v st d : pw (set_async_error v st) d = pw st d.
Proof. reflexivity. Qed.

Lemma pw_complete_all x st d :
  pw (complete_all x st) d = if Nat.eqb d x then set_completion true (pw st d) else pw st d.
Proof. apply pw_set_dev. Qed.

Lemma pw_clear_suppliers (P : dev_pm_info -> bool) dev st d :
  (forall p, P (set_direct_complete false p) = P p) ->
  P (pw (dpm_clear_suppliers_direct_complete dev st) d) = P (pw st d).
Proof.
  intros HP. unfold dpm_clear_suppliers_direct_complete.
  generalize (suppliers (devices st dev)). intros l. revert st.
  induction l as [|s l IH]; intros st; simpl; [reflexivity|].
  rewrite IH, pw_set_dev. destruct (Nat.eqb d (link_supplier s)); auto.
Qed.

Lemma suspend_succeeded_is_suspended dev st d :
  is_suspended (pw (suspend_succeeded dev st) d)
  = if Nat.eqb d dev then true else is_suspended (pw st d).
Proof.
  unfold suspend_succeeded.
  rewrite (pw_clear_suppliers is_suspended) by reflexivity.
  destruct (parent _) as [p|].
  - match goal with |- context [if ?c then _ else _] => destruct c end;
      rewrite ?pw_set_dev;
      destruct (Nat.eqb d p); destruct (Nat.eqb d dev); reflexivity.
  - rewrite pw_set_dev. destruct (Nat.eqb d dev); reflexivity.
Qed.

(** A call that was run is in the log. *)
Lemma runs_callback_In f dev ret st st' :
  runs_callback E f dev ret st st' -> In (ev_call f dev ret) (klog st').
Proof.
  intros (b & a & L & _). rewrite L. apply in_or_app. right. now left.
Qed.

Lemma resume_wait_ok_worker dev async st :
  resume_wait_ok E worker dev async st = in_dpm_list (pw st dev).
Proof. unfold resume_wait_ok. now rewrite dpm_wait_for_superior_worker. Qed.

Lemma resume_waited_worker dev async st :
  resume_waited E worker dev async st = log_event (ev_TRACE_DEVICE dev) st.
Proof. unfold resume_waited. now rewrite dpm_wait_for_superior_worker. Qed.

Lemma device_resume_noirq_clears T dev state async st :
  syscore (pw st dev) = false -> direct_complete (pw st dev) = false ->
  resume_wait_ok E T dev async st = true -> is_noirq_suspended (pw st dev) = true ->
  is_noirq_suspended (pw (snd (device_resume_noirq E T dev state async st)) dev) = false
  /\ (forall f : callback,
        layered_callback E PHASE_RESUME_NOIRQ state
          (devices (resume_waited E T dev async st) dev) = Some f ->
        In (ev_call f dev (fst (device_resume_noirq E T dev state async st)))
           (klog (snd (device_resume_noirq E T dev state async st)))).
Proof.
  intros Hsys Hdc Hok Hflag. split.
  - unfold resume_wait_ok in Hok. unfold device_resume_noirq.
    rewrite !pw_log_event, Hsys, Hdc, Hflag. cbn.
    destruct (dpm_wait_for_superior E T dev async _) as [ok st2]. cbn in Hok. subst ok. cbn.
    destruct (chain_callback _ _ _) as [info cb].
    destruct (dpm_run_callback E cb dev state info st2) as [error st3].
    cbn [fst snd]. unfold complete_all. now rewrite !pw_set_dev_same.
  - intros f Hf.
    pose proof (device_resume_noirq_runs E T dev state async st Hsys Hdc Hflag Hok) as H.
    unfold runs_resolved in H. rewrite Hf in H. eapply runs_callback_In, H.
Qed.

Lemma device_resume_noirq_skips T dev state async st :
  is_noirq_suspended (pw st dev) = false ->
  fst (device_resume_noirq E T dev state async st) = 0%Z
  /\ extends not_call st (snd (device_resume_noirq E T dev state async st)).
Proof.
  intros Hflag. unfold device_resume_noirq. rewrite !pw_log_event, Hflag.
  destruct (_ || _); cbn; (split; [reflexivity | extends_events; reflexivity]).
Qed.

Lemma device_resume_early_clears T dev state async st :
  syscore (pw st dev) = false -> direct_complete (pw st dev) = false ->
  resume_wait_ok E T dev async st = true -> is_late_suspended (pw st dev) = true ->
  is_late_suspended (pw (snd (device_resume_early E T dev state async st)) dev) = false
  /\ (forall f : callback,
        layered_callback E PHASE_RESUME_EARLY state
          (devices (resume_waited E T dev async st) dev) = Some f ->
        In (ev_call f dev (fst (device_resume_early E T dev state async st)))
           (klog (snd (device_resume_early E T dev state async st)))).
Proof.
  intros Hsys Hdc Hok Hflag. split.
  - unfold resume_wait_ok in Hok. unfold device_resume_early.
    rewrite !pw_log_event, Hsys, Hdc, Hflag. cbn.
    destruct (dpm_wait_for_superior E T dev async _) as [ok st2]. cbn in Hok. subst ok. cbn.
    destruct (chain_callback _ _ _) as [info cb].
    destruct (dpm_run_callback E cb dev state info st2) as [error st3].
    cbn [fst snd]. unfold complete_all.
    now rewrite pw_set_dev_same, pw_log_event, pw_set_dev_same.
  - intros f Hf.
    pose proof (device_resume_early_runs E T dev state async st Hsys Hdc Hflag Hok) as H.
    unfold runs_resolved in H. rewrite Hf in H. eapply runs_callback_In, H.
Qed.

Lemma device_resume_early_skips T dev state async st :
  is_late_suspended (pw st dev) = false ->
  fst (device_resume_early E T dev state async st) = 0%Z
  /\ extends not_call st (snd (device_resume_early E T dev state async st)).
Proof.
  intros Hflag. unfold device_resume_early. rewrite !pw_log_event, Hflag.
  destruct (_ || _); cbn; (split; [reflexivity | extends_events; reflexivity]).
Qed.

Lemma device_resume_clears T dev state async st :
  syscore (pw st dev) = false -> direct_complete (pw st dev) = false ->
  resume_wait_ok E T dev async st = true ->
  is_suspended (pw (resume_waited E T dev async st) dev) = true ->
  is_suspended (pw (snd (device_resume E T dev state async st)) dev) = false
  /\ (forall f : callback,
        layered_callback E PHASE_RESUME state
          (devices (resume_waited E T dev async st) dev) = Some f ->
        In (ev_call f dev (fst (device_resume E T dev state async st)))
           (klog (snd (device_resume E T dev state async st)))).
Proof.
  intros Hsys Hdc Hok Hflag. split.
  - unfold resume_wait_ok, resume_waited in *. unfold device_resume.
    rewrite !pw_log_event, Hsys, Hdc. cbn.
    destruct (dpm_wait_for_superior E T dev async _) as [ok st2]. cbn in *. subst ok. cbn.
    rewrite pw_set_dev_same. cbn. rewrite Hflag. cbn.
    destruct (device_resume_callback _ _ _) as [info cb].
    destruct (dpm_run_callback E cb dev state info _) as [error st3].
    cbn [fst snd]. unfold complete_all. now rewrite !pw_set_dev_same.
  - intros f Hf.
    pose proof (device_resume_runs E T dev state async st Hsys Hdc Hok Hflag) as H.
    unfold runs_resolved in H. rewrite Hf in H. eapply runs_callback_In, H.
Qed.

(** device_resume tests the flag after dpm_wait_for_superior. *)
Lemma device_resume_skips T dev state async st :
  syscore (pw st dev) = false -> direct_complete (pw st dev) = false ->
  is_suspended (pw (resume_waited E T dev async st) dev) = false ->
  fst (device_resume E T dev state async st) = 0%Z
  /\ extends not_call (resume_waited E T dev async st)
       (snd (device_resume E T dev state async st)).
Proof.
  intros Hsys Hdc Hflag. unfold resume_waited in *. unfold device_resume.
  rewrite !pw_log_event, Hsys, Hdc. cbn.
  destruct (dpm_wait_for_superior E T dev async _) as [ok st2]. cbn in *.
  destruct ok; cbn; [|split; [reflexivity | extends_events; reflexivity]].
  rewrite pw_set_dev_same. cbn. rewrite Hflag. cbn.
  split; [reflexivity | extends_events; reflexivity].
Qed.

Lemma device_resume_skips_worker dev state async st :
  is_suspended (pw st dev) = false ->
  fst (device_resume E worker dev state async st) = 0%Z
  /\ extends not_call st (snd (device_resume E worker dev state async st)).
Proof.
  intros Hflag. unfold device_resume. rewrite dpm_wait_for_superior_worker.
  rewrite !pw_log_event. cbn.
  split_cases; try (split; [reflexivity | extends_events; reflexivity]).
  all: exfalso; revert Hflag;
    repeat match goal with H : _ = _ |- _ => revert H end;
    rewrite ?pw_set_dev_same; cbn; rewrite ?pw_log_event;
    intros; destruct (is_suspended (pw st dev)); discriminate.
Qed.

(** C9.  For a device that reaches the callback step of a resume-direction
    function (not syscore, not direct_complete, still registered, phase flag
    set), the function clears the phase flag whatever the callback returned:
    the value returned by the callback is the value returned by the
    function, and the flag is false afterwards.  A second call of the same
    function then returns 0 without calling any callback.  This holds on
    either thread, with the tests read where the code makes them (the
    registration after dpm_wait_for_superior, the flag of device_resume
    after it as well); on a worker, where the waits return at once, the
    tests are those of the state in which the function is called. *)
Theorem resume_clears_flag_despite_error :
  forall (dev : dev_id) (state : pm_message_t) (async : bool) (st : pm_state),
    syscore (pw st dev) = false ->
    direct_complete (pw st dev) = false ->
    (in_dpm_list (pw st dev) = true ->
     (is_noirq_suspended (pw st dev) = true ->
      is_noirq_suspended (pw (snd (device_resume_noirq E worker dev state async st)) dev)
      = false
      /\ (forall f : callback,
            layered_callback E PHASE_RESUME_NOIRQ state (devices st dev) = Some f ->
            In (ev_call f dev (fst (device_resume_noirq E worker dev state async st)))
               (klog (snd (device_resume_noirq E worker dev state async st))))
      /\ (forall (state' : pm_message_t) (async' : bool),
            fst (device_resume_noirq E worker dev state' async'
                   (snd (device_resume_noirq E worker dev state async st))) = 0%Z
            /\ extends not_call
                 (snd (device_resume_noirq E worker dev state async st))
                 (snd (device_resume_noirq E worker dev state' async'
                         (snd (device_resume_noirq E worker dev state async st))))))
     /\ (is_late_suspended (pw st dev) = true ->
         is_late_suspended (pw (snd (device_resume_early E worker dev state async st)) dev)
         = false
         /\ (forall f : callback,
               layered_callback E PHASE_RESUME_EARLY state (devices st dev) = Some f ->
               In (ev_call f dev (fst (device_resume_early E worker dev state async st)))
                  (klog (snd (device_resume_early E worker dev state async st))))
         /\ (forall (state' : pm_message_t) (async' : bool),
               fst (device_resume_early E worker dev state' async'
                      (snd (device_resume_early E worker dev state async st))) = 0%Z
               /\ extends not_call
                    (snd (device_resume_early E worker dev state async st))
                    (snd (device_resume_early E worker dev state' async'
                            (snd (device_resume_early E worker dev state async st))))))
     /\ (is_suspended (pw st dev) = true ->
         is_suspended (pw (snd (device_resume E worker dev state async st)) dev) = false
         /\ (forall f : callback,
               layered_callback E PHASE_RESUME state (devices st dev) = Some f ->
               In (ev_call f dev (fst (device_resume E worker dev state async st)))
                  (klog (snd (device_resume E worker dev state async st))))
         /\ (forall (state' : pm_message_t) (async' : bool),
               fst (device_resume E worker dev state' async'
                      (snd (device_resume E worker dev state async st))) = 0%Z
               /\ extends not_call
                    (snd (device_resume E worker dev state async st))
                    (snd (device_resume E worker dev state' async'
                            (snd (device_resume E worker dev state async st)))))))
    /\ (forall T : thread,
          resume_wait_ok E T dev async st = true ->
          (is_noirq_suspended (pw st dev) = true ->
           is_noirq_suspended (pw (snd (device_resume_noirq E T dev state async st)) dev)
           = false
           /\ (forall f : callback,
                 layered_callback E PHASE_RESUME_NOIRQ state
                   (devices (resume_waited E T dev async st) dev) = Some f ->
                 In (ev_call f dev (fst (device_resume_noirq E T dev state async st)))
                    (klog (snd (device_resume_noirq E T dev state async st))))
           /\ (forall (T' : thread) (state' : pm_message_t) (async' : bool),
                 fst (device_resume_noirq E T' dev state' async'
                        (snd (device_resume_noirq E T dev state async st))) = 0%Z
                 /\ extends not_call
                      (snd (device_resume_noirq E T dev state async st))
                      (snd (device_resume_noirq E T' dev state' async'
                              (snd (device_resume_noirq E T dev state async st))))))
          /\ (is_late_suspended (pw st dev) = true ->
              is_late_suspended (pw (snd (device_resume_early E T dev state async st)) dev)
              = false
              /\ (forall f : callback,
                    layered_callback E PHASE_RESUME_EARLY state
                      (devices (resume_waited E T dev async st) dev) = Some f ->
                    In (ev_call f dev (fst (device_resume_early E T dev state async st)))
                       (klog (snd (device_resume_early E T dev state async st))))
              /\ (forall (T' : thread) (state' : pm_message_t) (async' : bool),
                    fst (device_resume_early E T' dev state' async'
                           (snd (device_resume_early E T dev state async st))) = 0%Z
                    /\ extends not_call
                         (snd (device_resume_early E T dev state async st))
                         (snd (device_resume_early E T' dev state' async'
                                 (snd (device_resume_early E T dev state async st))))))
          /\ (is_suspended (pw (resume_waited E T dev async st) dev) = true ->
              is_suspended (pw (snd (device_resume E T dev state async st)) dev) = false
              /\ (forall f : callback,
                    layered_callback E PHASE_RESUME state
                      (devices (resume_waited E T dev async st) dev) = Some f ->
                    In (ev_call f dev (fst (device_resume E T dev state async st)))
                       (klog (snd (device_resume E T dev state async st))))
              /\ (forall (state' : pm_message_t) (async' : bool),
                    fst (device_resume E worker dev state' async'
                           (snd (device_resume E T dev state async st))) = 0%Z
                    /\ extends not_call
                         (snd (device_resume E T dev state async st))
                         (snd (device_resume E worker dev state' async'
                                 (snd (device_resume E T dev state async st))))))).
Proof.
  intros dev state async st Hsys Hdc.
  assert (Hgen : forall T : thread,
    resume_wait_ok E T dev async st = true ->
    (is_noirq_suspended (pw st dev) = true ->
     is_noirq_suspended (pw (snd (device_resume_noirq E T dev state async st)) dev)
     = false
     /\ (forall f : callback,
           layered_callback E PHASE_RESUME_NOIRQ state
             (devices (resume_waited E T dev async st) dev) = Some f ->
           In (ev_call f dev (fst (device_resume_noirq E T dev state async st)))
              (klog (snd (device_resume_noirq E T dev state async st))))
     /\ (forall (T' : thread) (state' : pm_message_t) (async' : bool),
           fst (device_resume_noirq E T' dev state' async'
                  (snd (device_resume_noirq E T dev state async st))) = 0%Z
           /\ extends not_call
                (snd (device_resume_noirq E T dev state async st))
                (snd (device_resume_noirq E T' dev state' async'
                        (snd (device_resume_noirq E T dev state async st))))))
    /\ (is_late_suspended (pw st dev) = true ->
        is_late_suspended (pw (snd (device_resume_early E T dev state async st)) dev)
        = false
        /\ (forall f : callback,
              layered_callback E PHASE_RESUME_EARLY state
                (devices (resume_waited E T dev async st) dev) = Some f ->
              In (ev_call f dev (fst (device_resume_early E T dev state async st)))
                 (klog (snd (device_resume_early E T dev state async st))))
        /\ (forall (T' : thread) (state' : pm_message_t) (async' : bool),
              fst (device_resume_early E T' dev state' async'
                     (snd (device_resume_early E T dev state async st))) = 0%Z
              /\ extends not_call
                   (snd (device_resume_early E T dev state async st))
                   (snd (device_resume_early E T' dev state' async'
                           (snd (device_resume_early E T dev state async st))))))
    /\ (is_suspended (pw (resume_waited E T dev async st) dev) = true ->
        is_suspended (pw (snd (device_resume E T dev state async st)) dev) = false
        /\ (forall f : callback,
              layered_callback E PHASE_RESUME state
                (devices (resume_waited E T dev async st) dev) = Some f ->
              In (ev_call f dev (fst (device_resume E T dev state async st)))
                 (klog (snd (device_resume E T dev state async st))))
        /\ (forall (state' : pm_message_t) (async' : bool),
              fst (device_resume E worker dev state' async'
                     (snd (device_resume E T dev state async st))) = 0%Z
              /\ extends not_call
                   (snd (device_resume E T dev state async st))
                   (snd (device_resume E worker dev state' async'
                           (snd (device_resume E T dev state async st))))))).
  { intros T Hok. split; [|split]; intros Hflag.
    - destruct (device_resume_noirq_clears T dev state async st Hsys Hdc Hok Hflag)
        as [Hclear Hran].
      repeat split; auto; now apply device_resume_noirq_skips.
    - destruct (device_resume_early_clears T dev state async st Hsys Hdc Hok Hflag)
        as [Hclear Hran].
      repeat split; auto; now apply device_resume_early_skips.
    - destruct (device_resume_clears T dev state async st Hsys Hdc Hok Hflag)
        as [Hclear Hran].
      repeat split; auto; now apply device_resume_skips_worker. }
  split; [|exact Hgen].
  intros Hreg.
  specialize (Hgen worker). rewrite resume_wait_ok_worker in Hgen.
  rewrite resume_waited_worker in Hgen.
  destruct (Hgen Hreg) as (H1 & H2 & H3).
  split; [|split]; intros Hflag.
  - destruct (H1 Hflag) as (A & B & C). repeat split; auto; apply C.
  - destruct (H2 Hflag) as (A & B & C). repeat split; auto; apply C.
  - destruct (H3 Hflag) as (A & B & C). repeat split; auto; apply C.
Qed.

(** *** The suspend side *)

Lemma suspend_succeeded_flag dev st d :
  is_suspended (pw (suspend_succeeded dev st) d)
  = if Nat.eqb d dev then true else is_suspended (pw st d).
Proof. apply suspend_succeeded_is_suspended. Qed.

Ltac reach_hyps :=
  repeat match goal with
    | H : negb _ = false |- _ => apply negb_false_iff in H
    | H : negb _ = true |- _ => apply negb_true_iff in H
    | H : (_ || _)%bool = false |- _ => apply orb_false_iff in H; destruct H
    | H : (_ =? _)%Z = true |- _ => apply Z.eqb_eq in H
    end.

Lemma device_suspend_noirq_flag T dev state async st d :
  is_noirq_suspended (pw (snd (__device_suspend_noirq E T dev state async st)) d) = true ->
  is_noirq_suspended (pw (suspend_waited E T dev async st) d) = true
  \/ (d = dev
      /\ async_error (suspend_waited E T dev async st) = 0%Z
      /\ pm_wakeup_pending E (klog (suspend_waited E T dev async st)) = false
      /\ syscore (pw (suspend_waited E T dev async st) dev) = false
      /\ direct_complete (pw (suspend_waited E T dev async st) dev) = false
      /\ fst (__device_suspend_noirq E T dev state async st) = 0%Z
      /\ runs_resolved E PHASE_SUSPEND_NOIRQ dev state (suspend_waited E T dev async st)
           (__device_suspend_noirq E T dev state async st)).
Proof.
  intros Hflag.
  destruct (is_noirq_suspended (pw (suspend_waited E T dev async st) d)) eqn:Hold;
    [now left | right].
  assert (H : d = dev
      /\ async_error (suspend_waited E T dev async st) = 0%Z
      /\ pm_wakeup_pending E (klog (suspend_waited E T dev async st)) = false
      /\ syscore (pw (suspend_waited E T dev async st) dev) = false
      /\ direct_complete (pw (suspend_waited E T dev async st) dev) = false
      /\ fst (__device_suspend_noirq E T dev state async st) = 0%Z).
  { revert Hflag. unfold __device_suspend_noirq. fold (suspend_waited E T dev async st).
    set (st2 := suspend_waited E T dev async st) in *. clearbody st2.
    unfold dpm_run_callback. cbv zeta.
    split_cases; unfold complete_all;
      rewrite ?pw_set_dev, ?pw_log_event, ?pw_set_async_error;
      destruct (Nat.eqb_spec d dev) as [->|Hne]; cbn;
      rewrite ?pw_set_dev, ?pw_log_event, ?pw_set_async_error, ?Nat.eqb_refl; cbn;
      try (destruct (Nat.eqb_spec d dev); [contradiction|]);
      rewrite ?Hold; try discriminate;
      intros _; reach_hyps; repeat split; auto. }
  destruct H as (-> & Ha & Hw & Hs & Hd & Hr). repeat split; auto.
  now apply device_suspend_noirq_runs.
Qed.

Lemma device_suspend_late_flag T dev state async st d :
  is_late_suspended (pw (snd (__device_suspend_late E T dev state async st)) d) = true ->
  is_late_suspended (pw (suspend_late_waited E T dev async st) d) = true
  \/ (d = dev
      /\ async_error (suspend_late_waited E T dev async st) = 0%Z
      /\ pm_wakeup_pending E (klog (suspend_late_waited E T dev async st)) = false
      /\ syscore (pw (suspend_late_waited E T dev async st) dev) = false
      /\ direct_complete (pw (suspend_late_waited E T dev async st) dev) = false
      /\ fst (__device_suspend_late E T dev state async st) = 0%Z
      /\ runs_resolved E PHASE_SUSPEND_LATE dev state
           (suspend_late_waited E T dev async st)
           (__device_suspend_late E T dev state async st)).
Proof.
  intros Hflag.
  destruct (is_late_suspended (pw (suspend_late_waited E T dev async st) d)) eqn:Hold;
    [now left | right].
  assert (H : d = dev
      /\ async_error (suspend_late_waited E T dev async st) = 0%Z
      /\ pm_wakeup_pending E (klog (suspend_late_waited E T dev async st)) = false
      /\ syscore (pw (suspend_late_waited E T dev async st) dev) = false
      /\ direct_complete (pw (suspend_late_waited E T dev async st) dev) = false
      /\ fst (__device_suspend_late E T dev state async st) = 0%Z).
  { revert Hflag. unfold __device_suspend_late.
    fold (suspend_late_waited E T dev async st).
    set (st2 := suspend_late_waited E T dev async st) in *. clearbody st2.
    unfold dpm_run_callback. cbv zeta.
    split_cases; unfold complete_all;
      rewrite ?pw_set_dev, ?pw_log_event, ?pw_set_async_error;
      destruct (Nat.eqb_spec d dev) as [->|Hne]; cbn;
      rewrite ?pw_set_dev, ?pw_log_event, ?pw_set_async_error, ?Nat.eqb_refl; cbn;
      try (destruct (Nat.eqb_spec d dev); [contradiction|]);
      rewrite ?Hold; try discriminate;
      intros _; reach_hyps; repeat split; auto. }
  destruct H as (-> & Ha & Hw & Hs & Hd & Hr). repeat split; auto.
  now apply device_suspend_late_runs.
Qed.

Lemma suspend_checked_pw (P : dev_pm_info -> bool) dev st d :
  (forall p, P (set_direct_complete false p) = P p) ->
  P (pw (suspend_checked dev st) d) = P (pw st d).
Proof.
  intros HP. unfold suspend_checked. cbv zeta. destruct (_ || _).
  - rewrite pw_set_dev, pw_log_event. now destruct (Nat.eqb d dev).
  - reflexivity.
Qed.

Lemma suspend_direct_complete_pw (P : dev_pm_info -> bool) dev st d :
  (forall p, P (set_direct_complete false p) = P p) ->
  P (pw (snd (suspend_direct_complete E dev st)) d) = P (pw st d).
Proof.
  intros HP. unfold suspend_direct_complete.
  split_cases; rewrite ?pw_set_dev, ?pw_log_event; try reflexivity;
    now destruct (Nat.eqb d dev).
Qed.

Lemma pw_dpm_run_callback cb dev state info st d :
  pw (snd (dpm_run_callback E cb dev state info st)) d = pw st d.
Proof. now destruct cb. Qed.

Lemma pw_legacy_suspend dev state cb info st d :
  pw (snd (legacy_suspend E dev state cb info st)) d = pw st d.
Proof. reflexivity. Qed.

Lemma device_suspend_flag T dev state async st d :
  is_suspended (pw (snd (__device_suspend E T dev state async st)) d) = true ->
  is_suspended (pw (suspend_waited E T dev async st) d) = true
  \/ (d = dev
      /\ async_error (suspend_waited E T dev async st) = 0%Z
      /\ pm_wakeup_pending E
           (ev_runtime_pm PM_RUNTIME_BARRIER dev :: klog (suspend_waited E T dev async st))
         = false
      /\ syscore (pw (suspend_waited E T dev async st) dev) = false
      /\ fst (suspend_direct_complete E dev
                (suspend_checked dev (suspend_waited E T dev async st))) = false
      /\ fst (__device_suspend E T dev state async st) = 0%Z
      /\ runs_resolved E PHASE_SUSPEND dev state (suspend_waited E T dev async st)
           (__device_suspend E T dev state async st)).
Proof.
  intros Hflag.
  destruct (is_suspended (pw (suspend_waited E T dev async st) d)) eqn:Hold;
    [now left | right].
  assert (H : d = dev
      /\ async_error (suspend_waited E T dev async st) = 0%Z
      /\ pm_wakeup_pending E
           (ev_runtime_pm PM_RUNTIME_BARRIER dev :: klog (suspend_waited E T dev async st))
         = false
      /\ syscore (pw (suspend_waited E T dev async st) dev) = false
      /\ fst (suspend_direct_complete E dev
                (suspend_checked dev (suspend_waited E T dev async st))) = false
      /\ fst (__device_suspend E T dev state async st) = 0%Z).
  { revert Hflag. unfold __device_suspend. fold (suspend_waited E T dev async st).
    set (st2 := suspend_waited E T dev async st) in *. clearbody st2.
    cbv zeta.
    assert (Hsame : forall s,
              (forall x, is_suspended (pw s x) = is_suspended (pw st2 x)) ->
              is_suspended (pw (complete_all dev s) d) = true -> False).
    { intros s Hs. rewrite pw_complete_all.
      destruct (Nat.eqb d dev); cbn; rewrite Hs, Hold; discriminate. }
    destruct (negb (async_error st2 =? 0)%Z) eqn:Ha.
    { cbn [negb Z.eqb fst snd]. intros H. exfalso. revert H. apply Hsame.
      intros x. rewrite pw_set_dev. now destruct (Nat.eqb x dev). }
    rewrite klog_log_event.
    destruct (pm_wakeup_pending E _) eqn:Hw.
    { cbn [negb Z.eqb fst snd]. intros H. exfalso. revert H. apply Hsame.
      intros x. rewrite pw_set_async_error, pw_set_dev, pw_log_event.
      now destruct (Nat.eqb x dev). }
    rewrite !pw_log_event.
    destruct (syscore (pw st2 dev)) eqn:Hs.
    { cbn [negb Z.eqb fst snd]. intros H. exfalso. revert H. apply Hsame.
      intros x. now rewrite pw_log_event. }
    change (if device_may_wakeup
                 (devices (log_event (ev_runtime_pm PM_RUNTIME_BARRIER dev) st2) dev)
               || wakeup_path (pw st2 dev)
            then set_dev dev (set_direct_complete false)
                   (log_event (ev_runtime_pm PM_RUNTIME_BARRIER dev) st2)
            else log_event (ev_runtime_pm PM_RUNTIME_BARRIER dev) st2)
      with (suspend_checked dev st2).
    pose proof (fun x => suspend_direct_complete_pw is_suspended dev
                           (suspend_checked dev st2) x (fun p => eq_refl)) as H4.
    destruct (suspend_direct_complete E dev (suspend_checked dev st2)) as [skip st4].
    cbn [fst snd] in *.
    assert (Hf4 : forall x, is_suspended (pw st4 x) = is_suspended (pw st2 x)).
    { intros x. rewrite H4. now apply suspend_checked_pw. }
    destruct skip.
    { cbn [negb Z.eqb fst snd]. intros H. exfalso. revert H. now apply Hsame. }
    assert (Hf5 : forall x,
              is_suspended
                (pw (snd match device_suspend_callback E (devices st4 dev) state with
                         | Run info callback =>
                             dpm_run_callback E callback dev state info st4
                         | Legacy info cb => legacy_suspend E dev state cb info st4
                         end) x)
              = is_suspended (pw st2 x)).
    { intros x. destruct (device_suspend_callback _ _ _).
      - now rewrite pw_dpm_run_callback.
      - now rewrite pw_legacy_suspend. }
    destruct (match device_suspend_callback E (devices st4 dev) state with
              | Run info callback => dpm_run_callback E callback dev state info st4
              | Legacy info cb => legacy_suspend E dev state cb info st4
              end) as [error st5].
    cbn [fst snd] in *.
    destruct (error =? 0)%Z eqn:He; cbn [negb fst snd].
    - rewrite pw_complete_all.
      destruct (Nat.eqb_spec d dev) as [->|Hne].
      + intros _. reach_hyps. repeat split; auto.
      + rewrite suspend_succeeded_flag.
        destruct (Nat.eqb_spec d dev); [contradiction|].
        rewrite Hf5, Hold. discriminate.
    - intros H. exfalso. revert H. apply Hsame.
      intros x. now rewrite pw_set_async_error. }
  destruct H as (-> & Ha & Hw & Hs & Hd & Hr). repeat split; auto.
  now apply device_suspend_reaches.
Qed.

(** Conversely, the flag is set when the callback step returned 0. *)
Lemma device_suspend_noirq_sets T dev state async st :
  async_error (suspend_waited E T dev async st) = 0%Z ->
  pm_wakeup_pending E (klog (suspend_waited E T dev async st)) = false ->
  syscore (pw (suspend_waited E T dev async st) dev) = false ->
  direct_complete (pw (suspend_waited E T dev async st) dev) = false ->
  fst (__device_suspend_noirq E T dev state async st) = 0%Z ->
  is_noirq_suspended (pw (snd (__device_suspend_noirq E T dev state async st)) dev) = true.
Proof.
  unfold __device_suspend_noirq. fold (suspend_waited E T dev async st).
  set (st2 := suspend_waited E T dev async st) in *. clearbody st2.
  intros Ha Hw Hs Hd. cbv zeta. rewrite Ha, Hw, Hs, Hd. cbn [negb Z.eqb orb].
  destruct (chain_callback _ _ _) as [info cb].
  destruct (dpm_run_callback E cb dev state info st2) as [error st3].
  cbn [fst snd]. intros ->. cbn [Z.eqb]. unfold complete_all.
  now rewrite !pw_set_dev_same.
Qed.

Lemma device_suspend_late_sets T dev state async st :
  async_error (suspend_late_waited E T dev async st) = 0%Z ->
  pm_wakeup_pending E (klog (suspend_late_waited E T dev async st)) = false ->
  syscore (pw (suspend_late_waited E T dev async st) dev) = false ->
  direct_complete (pw (suspend_late_waited E T dev async st) dev) = false ->
  fst (__device_suspend_late E T dev state async st) = 0%Z ->
  is_late_suspended (pw (snd (__device_suspend_late E T dev state async st)) dev) = true.
Proof.
  unfold __device_suspend_late. fold (suspend_late_waited E T dev async st).
  set (st2 := suspend_late_waited E T dev async st) in *. clearbody st2.
  intros Ha Hw Hs Hd. cbv zeta. rewrite Ha, Hw, Hs, Hd. cbn [negb Z.eqb orb].
  destruct (chain_callback _ _ _) as [info cb].
  destruct (dpm_run_callback E cb dev state info st2) as [error st3].
  cbn [fst snd]. intros ->. cbn [Z.eqb]. unfold complete_all.
  now rewrite !pw_set_dev_same.
Qed.

Lemma device_suspend_sets T dev state async st :
  async_error (suspend_waited E T dev async st) = 0%Z ->
  pm_wakeup_pending E
    (ev_runtime_pm PM_RUNTIME_BARRIER dev :: klog (suspend_waited E T dev async st))
  = false ->
  syscore (pw (suspend_waited E T dev async st) dev) = false ->
  fst (suspend_direct_complete E dev
         (suspend_checked dev (suspend_waited E T dev async st))) = false ->
  fst (__device_suspend E T dev state async st) = 0%Z ->
  is_suspended (pw (snd (__device_suspend E T dev state async st)) dev) = true.
Proof.
  unfold __device_suspend. fold (suspend_waited E T dev async st).
  set (st2 := suspend_waited E T dev async st) in *. clearbody st2.
  intros Ha Hw Hs Hd. cbv zeta. rewrite Ha. cbn [negb Z.eqb].
  rewrite klog_log_event, Hw, !pw_log_event, Hs.
  change (if device_may_wakeup
               (devices (log_event (ev_runtime_pm PM_RUNTIME_BARRIER dev) st2) dev)
             || wakeup_path (pw st2 dev)
          then set_dev dev (set_direct_complete false)
                 (log_event (ev_runtime_pm PM_RUNTIME_BARRIER dev) st2)
          else log_event (ev_runtime_pm PM_RUNTIME_BARRIER dev) st2)
    with (suspend_checked dev st2).
  destruct (suspend_direct_complete E dev (suspend_checked dev st2)) as [skip st4].
  cbn [fst snd] in Hd. subst skip.
  destruct (match device_suspend_callback E (devices st4 dev) state with
            | Run info callback => dpm_run_callback E callback dev state info st4
            | Legacy info cb => legacy_suspend E dev state cb info st4
            end) as [error st5].
  cbn [fst snd]. intros ->. cbn [Z.eqb negb].
  rewrite pw_complete_all, Nat.eqb_refl.
  change (is_suspended (set_completion true (pw (suspend_succeeded dev st5) dev)))
    with (is_suspended (pw (suspend_succeeded dev st5) dev)).
  now rewrite suspend_succeeded_flag, Nat.eqb_refl.
Qed.

(** C5, as the code has it.  A suspend-direction function sets the phase
    flag of its own device only, and only on the path on which it reaches
    its callback (no error pending, no wakeup pending, the device neither
    syscore nor left in direct_complete) and dpm_run_callback returns 0: the
    callback that the layers give was called and returned 0, or they give
    none and the null callback succeeded.  On that path with result 0 the
    flag is set.  A resume-direction function whose flag is false returns 0
    and calls no callback.  So after a suspend-direction function that
    failed on a device whose flag was clear, the resume-direction function
    of the same level calls nothing for it. *)
Theorem phase_flags_gate_resume :
  forall (T : thread) (dev d : dev_id) (state : pm_message_t) (async : bool)
         (st : pm_state),
    (is_suspended (pw (snd (__device_suspend E T dev state async st)) d) = true ->
     is_suspended (pw (suspend_waited E T dev async st) d) = true
     \/ (d = dev
         /\ async_error (suspend_waited E T dev async st) = 0%Z
         /\ pm_wakeup_pending E
              (ev_runtime_pm PM_RUNTIME_BARRIER dev
               :: klog (suspend_waited E T dev async st)) = false
         /\ syscore (pw (suspend_waited E T dev async st) dev) = false
         /\ fst (suspend_direct_complete E dev
                   (suspend_checked dev (suspend_waited E T dev async st))) = false
         /\ fst (__device_suspend E T dev state async st) = 0%Z
         /\ runs_resolved E PHASE_SUSPEND dev state (suspend_waited E T dev async st)
              (__device_suspend E T dev state async st)))
    /\ (is_late_suspended (pw (snd (__device_suspend_late E T dev state async st)) d)
        = true ->
        is_late_suspended (pw (suspend_late_waited E T dev async st) d) = true
        \/ (d = dev
            /\ async_error (suspend_late_waited E T dev async st) = 0%Z
            /\ pm_wakeup_pending E (klog (suspend_late_waited E T dev async st)) = false
            /\ syscore (pw (suspend_late_waited E T dev async st) dev) = false
            /\ direct_complete (pw (suspend_late_waited E T dev async st) dev) = false
            /\ fst (__device_suspend_late E T dev state async st) = 0%Z
            /\ runs_resolved E PHASE_SUSPEND_LATE dev state
                 (suspend_late_waited E T dev async st)
                 (__device_suspend_late E T dev state async st)))
    /\ (is_noirq_suspended (pw (snd (__device_suspend_noirq E T dev state async st)) d)
        = true ->
        is_noirq_suspended (pw (suspend_waited E T dev async st) d) = true
        \/ (d = dev
            /\ async_error (suspend_waited E T dev async st) = 0%Z
            /\ pm_wakeup_pending E (klog (suspend_waited E T dev async st)) = false
            /\ syscore (pw (suspend_waited E T dev async st) dev) = false
            /\ direct_complete (pw (suspend_waited E T dev async st) dev) = false
            /\ fst (__device_suspend_noirq E T dev state async st) = 0%Z
            /\ runs_resolved E PHASE_SUSPEND_NOIRQ dev state
                 (suspend_waited E T dev async st)
                 (__device_suspend_noirq E T dev state async st)))
    /\ (async_error (suspend_waited E T dev async st) = 0%Z ->
        pm_wakeup_pending E
          (ev_runtime_pm PM_RUNTIME_BARRIER dev :: klog (suspend_waited E T dev async st))
        = false ->
        syscore (pw (suspend_waited E T dev async st) dev) = false ->
        fst (suspend_direct_complete E dev
               (suspend_checked dev (suspend_waited E T dev async st))) = false ->
        fst (__device_suspend E T dev state async st) = 0%Z ->
        is_suspended (pw (snd (__device_suspend E T dev state async st)) dev) = true)
    /\ (async_error (suspend_late_waited E T dev async st) = 0%Z ->
        pm_wakeup_pending E (klog (suspend_late_waited E T dev async st)) = false ->
        syscore (pw (suspend_late_waited E T dev async st) dev) = false ->
        direct_complete (pw (suspend_late_waited E T dev async st) dev) = false ->
        fst (__device_suspend_late E T dev state async st) = 0%Z ->
        is_late_suspended (pw (snd (__device_suspend_late E T dev state async st)) dev)
        = true)
    /\ (async_error (suspend_waited E T dev async st) = 0%Z ->
        pm_wakeup_pending E (klog (suspend_waited E T dev async st)) = false ->
        syscore (pw (suspend_waited E T dev async st) dev) = false ->
        direct_complete (pw (suspend_waited E T dev async st) dev) = false ->
        fst (__device_suspend_noirq E T dev state async st) = 0%Z ->
        is_noirq_suspended (pw (snd (__device_suspend_noirq E T dev state async st)) dev)
        = true)
    /\ (is_noirq_suspended (pw st dev) = false ->
        fst (device_resume_noirq E T dev state async st) = 0%Z
        /\ extends not_call st (snd (device_resume_noirq E T dev state async st)))
    /\ (is_late_suspended (pw st dev) = false ->
        fst (device_resume_early E T dev state async st) = 0%Z
        /\ extends not_call st (snd (device_resume_early E T dev state async st)))
    /\ (syscore (pw st dev) = false -> direct_complete (pw st dev) = false ->
        is_suspended (pw (resume_waited E T dev async st) dev) = false ->
        fst (device_resume E T dev state async st) = 0%Z
        /\ extends not_call (resume_waited E T dev async st)
             (snd (device_resume E T dev state async st)))
    /\ (is_suspended (pw st dev) = false ->
        fst (device_resume E worker dev state async st) = 0%Z
        /\ extends not_call st (snd (device_resume E worker dev state async st)))
    /\ (is_suspended (pw (suspend_waited E T dev async st) dev) = false ->
        fst (__device_suspend E T dev state async st) <> 0%Z ->
        forall (state' : pm_message_t) (async' : bool),
          fst (device_resume E worker dev state' async'
                 (snd (__device_suspend E T dev state async st))) = 0%Z
          /\ extends not_call (snd (__device_suspend E T dev state async st))
               (snd (device_resume E worker dev state' async'
                       (snd (__device_suspend E T dev state async st)))))
    /\ (is_late_suspended (pw (suspend_late_waited E T dev async st) dev) = false ->
        fst (__device_suspend_late E T dev state async st) <> 0%Z ->
        forall (T' : thread) (state' : pm_message_t) (async' : bool),
          fst (device_resume_early E T' dev state' async'
                 (snd (__device_suspend_late E T dev state async st))) = 0%Z
          /\ extends not_call (snd (__device_suspend_late E T dev state async st))
               (snd (device_resume_early E T' dev state' async'
                       (snd (__device_suspend_late E T dev state async st)))))
    /\ (is_noirq_suspended (pw (suspend_waited E T dev async st) dev) = false ->
        fst (__device_suspend_noirq E T dev state async st) <> 0%Z ->
        forall (T' : thread) (state' : pm_message_t) (async' : bool),
          fst (device_resume_noirq E T' dev state' async'
                 (snd (__device_suspend_noirq E T dev state async st))) = 0%Z
          /\ extends not_call (snd (__device_suspend_noirq E T dev state async st))
               (snd (device_resume_noirq E T' dev state' async'
                       (snd (__device_suspend_noirq E T dev state async st))))).
Proof.
  intros T dev d state async st.
  split; [apply device_suspend_flag|].
  split; [apply device_suspend_late_flag|].
  split; [apply device_suspend_noirq_flag|].
  split; [apply device_suspend_sets|].
  split; [apply device_suspend_late_sets|].
  split; [apply device_suspend_noirq_sets|].
  split; [apply device_resume_noirq_skips|].
  split; [apply device_resume_early_skips|].
  split; [apply device_resume_skips|].
  split; [apply device_resume_skips_worker|].
  split; [|split].
  - intros Hold Herr state' async'. apply device_resume_skips_worker.
    destruct (is_suspended (pw (snd (__device_suspend E T dev state async st)) dev))
      eqn:Hnew; [|reflexivity].
    destruct (device_suspend_flag T dev state async st dev Hnew)
      as [H|(_ & _ & _ & _ & _ & H & _)]; congruence.
  - intros Hold Herr T' state' async'. apply device_resume_early_skips.
    destruct (is_late_suspended
                (pw (snd (__device_suspend_late E T dev state async st)) dev))
      eqn:Hnew; [|reflexivity].
    destruct (device_suspend_late_flag T dev state async st dev Hnew)
      as [H|(_ & _ & _ & _ & _ & H & _)]; congruence.
  - intros Hold Herr T' state' async'. apply device_resume_noirq_skips.
    destruct (is_noirq_suspended
                (pw (snd (__device_suspend_noirq E T dev state async st)) dev))
      eqn:Hnew; [|reflexivity].
    destruct (device_suspend_noirq_flag T dev state async st dev Hnew)
      as [H|(_ & _ & _ & _ & _ & H & _)]; congruence.
Qed.

End Flags.

(** ** What one per-device function does to the state *)

Lemma static_log_event e st d :
  static_part (devices (log_event e st) d) = static_part (devices st d).
Proof. reflexivity. Qed.

Lemma static_set_async_error v st d :
  static_part (devices (set_async_error v st) d) = static_part (devices st d).
Proof. reflexivity. Qed.

Lemma static_set_dev x f st d :
  (forall p, static_power (f p) = static_power p) ->
  static_part (devices (set_dev x f st) d) = static_part (devices st d).
Proof.
  intros Hf. unfold set_dev, static_part, pw. cbn. unfold fupd.
  destruct (Nat.eqb_spec d x) as [->|]; cbn; [now rewrite Hf | reflexivity].
Qed.

Lemma clear_suppliers_frame dev st :
  queues (dpm_clear_suppliers_direct_complete dev st) = queues st
  /\ async_pending (dpm_clear_suppliers_direct_complete dev st) = async_pending st
  /\ pm_transition (dpm_clear_suppliers_direct_complete dev st) = pm_transition st
  /\ suspend_stats (dpm_clear_suppliers_direct_complete dev st) = suspend_stats st
  /\ async_error (dpm_clear_suppliers_direct_complete dev st) = async_error st
  /\ (forall d, static_part (devices (dpm_clear_suppliers_direct_complete dev st) d)
                = static_part (devices st d)).
Proof.
  unfold dpm_clear_suppliers_direct_complete.
  generalize (suppliers (devices st dev)). intros l. revert st.
  induction l as [|s l IH]; intros st; simpl; [repeat split|].
  destruct (IH (set_dev (link_supplier s) (set_direct_complete false) st))
    as (H1 & H2 & H3 & H4 & H5 & H6).
  rewrite H1, H2, H3, H4, H5. repeat split.
  intros d. rewrite H6. now apply static_set_dev.
Qed.

Lemma suspend_succeeded_frame dev st :
  queues (suspend_succeeded dev st) = queues st
  /\ async_pending (suspend_succeeded dev st) = async_pending st
  /\ pm_transition (suspend_succeeded dev st) = pm_transition st
  /\ suspend_stats (suspend_succeeded dev st) = suspend_stats st
  /\ async_error (suspend_succeeded dev st) = async_error st
  /\ (forall d, static_part (devices (suspend_succeeded dev st) d)
                = static_part (devices st d)).
Proof.
  unfold suspend_succeeded.
  match goal with
  | |- context [dpm_clear_suppliers_direct_complete dev ?X] =>
      destruct (clear_suppliers_frame dev X) as (H1 & H2 & H3 & H4 & H5 & H6)
  end.
  rewrite H1, H2, H3, H4, H5.
  destruct (parent _) as [p|];
    [match goal with |- context [if ?c then _ else _] => destruct c end|];
    repeat split; intros d; rewrite H6;
    repeat (rewrite static_set_dev by reflexivity); reflexivity.
Qed.

Lemma queues_suspend_succeeded dev st : queues (suspend_succeeded dev st) = queues st.
Proof. apply suspend_succeeded_frame. Qed.

Lemma pending_suspend_succeeded dev st :
  async_pending (suspend_succeeded dev st) = async_pending st.
Proof. apply suspend_succeeded_frame. Qed.

Lemma transition_suspend_succeeded dev st :
  pm_transition (suspend_succeeded dev st) = pm_transition st.
Proof. apply suspend_succeeded_frame. Qed.

Lemma stats_suspend_succeeded dev st :
  suspend_stats (suspend_succeeded dev st) = suspend_stats st.
Proof. apply suspend_succeeded_frame. Qed.

Lemma async_error_suspend_succeeded dev st :
  async_error (suspend_succeeded dev st) = async_error st.
Proof. apply suspend_succeeded_frame. Qed.

Lemma static_suspend_succeeded dev st d :
  static_part (devices (suspend_succeeded dev st) d) = static_part (devices st d).
Proof. apply suspend_succeeded_frame. Qed.

Lemma completion_suspend_succeeded dev st d :
  completion (pw (suspend_succeeded dev st) d) = completion (pw st d).
Proof.
  unfold suspend_succeeded.
  rewrite (pw_clear_suppliers completion) by reflexivity.
  destruct (parent _) as [p|].
  - match goal with |- context [if ?c then _ else _] => destruct c end;
      rewrite ?pw_set_dev;
      destruct (Nat.eqb d p); destruct (Nat.eqb d dev); reflexivity.
  - rewrite pw_set_dev. destruct (Nat.eqb d dev); reflexivity.
Qed.

Lemma device_step_refl dev err st : device_step dev err [] st st.
Proof. constructor; auto. Qed.

Lemma device_step_trans dev err evs1 evs2 st1 st2 st3 :
  device_step dev err evs1 st1 st2 -> device_step dev err evs2 st2 st3 ->
  device_step dev err (evs2 ++ evs1) st1 st3.
Proof.
  intros [Q1 P1 T1 S1 D1 L1 E1 C1] [Q2 P2 T2 S2 D2 L2 E2 C2]. constructor.
  - congruence.
  - congruence.
  - congruence.
  - congruence.
  - intros d. now rewrite D2, D1.
  - now rewrite L2, L1, app_assoc.
  - apply Forall_app. now split.
  - auto.
Qed.

Ltac frame_field :=
  repeat (cbn; rewrite ?queues_suspend_succeeded, ?pending_suspend_succeeded,
            ?transition_suspend_succeeded, ?stats_suspend_succeeded,
            ?async_error_suspend_succeeded, ?klog_suspend_succeeded);
  try reflexivity.

Ltac frame_static :=
  intros ?; unfold complete_all;
  repeat first
    [ rewrite static_log_event
    | rewrite static_set_async_error
    | rewrite static_suspend_succeeded
    | rewrite static_set_dev by reflexivity ];
  reflexivity.

Ltac kept_completions :=
  let d := fresh "d" in
  intros d; unfold complete_all;
  repeat (rewrite ?pw_set_dev, ?pw_log_event, ?pw_set_async_error,
            ?completion_suspend_succeeded;
          repeat match goal with
            | |- context [Nat.eqb d ?x] => destruct (Nat.eqb d x)
            end;
          cbn [completion set_completion set_is_prepared set_is_suspended
               set_is_noirq_suspended set_is_late_suspended set_direct_complete
               set_wakeup_path]);
  auto.

Ltac step_leaf :=
  constructor;
  [ frame_field | frame_field | frame_field | frame_field | frame_static
  | frame_field; log_shape
  | repeat apply Forall_cons; try apply Forall_nil; cbn; auto
  | kept_completions ].

Ltac done_leaf := unfold complete_all; rewrite pw_set_dev_same; reflexivity.

Section Steps.

Variable E : environment.

Ltac z_facts :=
  repeat match goal with
    | H : negb _ = true |- _ => apply negb_true_iff in H
    | H : negb _ = false |- _ => apply negb_false_iff in H
    | H : (_ =? _)%Z = true |- _ => apply Z.eqb_eq in H
    | H : (_ =? _)%Z = false |- _ => apply Z.eqb_neq in H
    end.

Ltac error_leaf :=
  constructor;
  [ intros ?; frame_field; try congruence
  | intros ?; try congruence;
    (split; [frame_field | split; [reflexivity|]]);
    repeat apply Forall_cons; try apply Forall_nil; reflexivity
  | intros ?; try congruence;
    first [ left; frame_field; fail | right; split; [assumption | frame_field] ] ].

(** The entry of a per-device function, up to its wait. *)
Lemma entry_run T dev err st st2 :
  waits T (log_event (ev_TRACE_DEVICE dev) st) st2 ->
  exists st1 pre,
    device_step dev err pre st st1 /\ visited pre = [dev]
    /\ Forall not_call pre /\ async_error st1 = async_error st
    /\ (forall d, pw st1 d = pw st d)
    /\ waits T st1 st2.
Proof.
  intros Hw. exists (log_event (ev_TRACE_DEVICE dev) st), [ev_TRACE_DEVICE dev].
  repeat split; auto; repeat constructor.
Qed.

Lemma entry_late_run T dev err st st2 :
  waits T (log_event (ev_runtime_pm PM_RUNTIME_DISABLE dev)
             (log_event (ev_TRACE_DEVICE dev) st)) st2 ->
  exists st1 pre,
    device_step dev err pre st st1 /\ visited pre = [dev]
    /\ Forall not_call pre /\ async_error st1 = async_error st
    /\ (forall d, pw st1 d = pw st d)
    /\ waits T st1 st2.
Proof.
  intros Hw.
  exists (log_event (ev_runtime_pm PM_RUNTIME_DISABLE dev)
            (log_event (ev_TRACE_DEVICE dev) st)),
    [ev_runtime_pm PM_RUNTIME_DISABLE dev; ev_TRACE_DEVICE dev].
  repeat split; auto; repeat constructor.
Qed.

Ltac resume_leaf :=
  first
    [ match goal with
      | H : dpm_wait_for_superior E ?T ?dev ?async ?s = (_, ?s2) |- _ =>
          let Hw := fresh "Hw" in
          pose proof (dpm_wait_for_superior_waits E T dev async s) as Hw;
          rewrite H in Hw; cbn [snd] in Hw;
          exists s2; eexists;
          (split;
           [ split; [apply entry_run; exact Hw|];
             split; [step_leaf|]; split; [reflexivity | done_leaf]
           | reflexivity ])
      end
    | match goal with
      | |- context [device_step ?dev _ _ ?st _] =>
          exists (log_event (ev_TRACE_DEVICE dev) st); eexists;
          (split;
           [ split; [apply entry_run; apply waits_done|];
             split; [step_leaf|]; split; [reflexivity | done_leaf]
           | reflexivity ])
      end ].

Lemma device_resume_noirq_run T dev state async st :
  exists st2 evs,
    device_run T dev (fst (device_resume_noirq E T dev state async st)) st st2 evs
      (snd (device_resume_noirq E T dev state async st))
    /\ async_error (snd (device_resume_noirq E T dev state async st)) = async_error st2.
Proof.
  unfold device_run, device_resume_noirq, dpm_run_callback. cbv zeta.
  split_cases; resume_leaf.
Qed.

Lemma device_resume_early_run T dev state async st :
  exists st2 evs,
    device_run T dev (fst (device_resume_early E T dev state async st)) st st2 evs
      (snd (device_resume_early E T dev state async st))
    /\ async_error (snd (device_resume_early E T dev state async st)) = async_error st2.
Proof.
  unfold device_run, device_resume_early, dpm_run_callback. cbv zeta.
  split_cases; resume_leaf.
Qed.

Lemma device_resume_run T dev state async st :
  exists st2 evs,
    device_run T dev (fst (device_resume E T dev state async st)) st st2 evs
      (snd (device_resume E T dev state async st))
    /\ async_error (snd (device_resume E T dev state async st)) = async_error st2.
Proof.
  unfold device_run, device_resume, dpm_run_callback. cbv zeta.
  split_cases; resume_leaf.
Qed.

Lemma device_suspend_noirq_run T dev state async st :
  exists evs,
    device_run T dev (fst (__device_suspend_noirq E T dev state async st)) st
      (suspend_waited E T dev async st) evs
      (snd (__device_suspend_noirq E T dev state async st))
    /\ suspend_error (fst (__device_suspend_noirq E T dev state async st)) evs
         (suspend_waited E T dev async st)
         (snd (__device_suspend_noirq E T dev state async st)).
Proof.
  unfold device_run.
  assert (Hw := entry_run T dev
                  (fst (__device_suspend_noirq E T dev state async st)) st _
                  (dpm_wait_for_subordinate_waits E T dev async _)).
  fold (suspend_waited E T dev async st) in Hw. revert Hw.
  unfold __device_suspend_noirq. fold (suspend_waited E T dev async st).
  generalize (suspend_waited E T dev async st). intros st2.
  unfold dpm_run_callback. cbv zeta.
  split_cases; intros Hw; z_facts; eexists;
    (split; [split; [exact Hw|]; split; [step_leaf|]; split; [reflexivity | done_leaf]
            | error_leaf]).
Qed.

Lemma device_suspend_late_run T dev state async st :
  exists evs,
    device_run T dev (fst (__device_suspend_late E T dev state async st)) st
      (suspend_late_waited E T dev async st) evs
      (snd (__device_suspend_late E T dev state async st))
    /\ suspend_error (fst (__device_suspend_late E T dev state async st)) evs
         (suspend_late_waited E T dev async st)
         (snd (__device_suspend_late E T dev state async st)).
Proof.
  unfold device_run.
  assert (Hw := entry_late_run T dev
                  (fst (__device_suspend_late E T dev state async st)) st _
                  (dpm_wait_for_subordinate_waits E T dev async _)).
  fold (suspend_late_waited E T dev async st) in Hw. revert Hw.
  unfold __device_suspend_late. fold (suspend_late_waited E T dev async st).
  generalize (suspend_late_waited E T dev async st). intros st2.
  unfold dpm_run_callback. cbv zeta.
  split_cases; intros Hw; z_facts; eexists;
    (split; [split; [exact Hw|]; split; [step_leaf|]; split; [reflexivity | done_leaf]
            | error_leaf]).
Qed.

Lemma device_suspend_run T dev state async st :
  exists evs,
    device_run T dev (fst (__device_suspend E T dev state async st)) st
      (suspend_waited E T dev async st) evs
      (snd (__device_suspend E T dev state async st))
    /\ suspend_error (fst (__device_suspend E T dev state async st)) evs
         (suspend_waited E T dev async st)
         (snd (__device_suspend E T dev state async st)).
Proof.
  unfold device_run.
  assert (Hw := entry_run T dev
                  (fst (__device_suspend E T dev state async st)) st _
                  (dpm_wait_for_subordinate_waits E T dev async _)).
  fold (suspend_waited E T dev async st) in Hw. revert Hw.
  unfold __device_suspend. fold (suspend_waited E T dev async st).
  generalize (suspend_waited E T dev async st). intros st2.
  unfold dpm_run_callback, legacy_suspend, suspend_direct_complete. cbv zeta.
  split_cases; intros Hw; z_facts; try congruence; eexists;
    (split; [split; [exact Hw|]; split; [step_leaf|]; split; [reflexivity | done_leaf]
            | error_leaf]).
Qed.

End Steps.

(** ** What one queued function does to the state *)

Lemma reported_mono evs evs' e :
  (forall x, In x evs -> In x evs') -> reported evs e -> reported evs' e.
Proof.
  intros Hsub. destruct e; cbn; auto; intros H Hr;
    destruct (H Hr) as (s & i & Hin); eauto.
Qed.

Lemma visited_In evs d : In d (visited evs) -> In (ev_TRACE_DEVICE d) evs.
Proof.
  induction evs as [|e evs IH]; cbn; [tauto|].
  destruct e; cbn; auto.
  intros [->|H]; auto.
Qed.

Lemma visited_app evs1 evs2 : visited (evs1 ++ evs2) = visited evs1 ++ visited evs2.
Proof.
  induction evs1 as [|e evs1 IH]; cbn; [reflexivity|].
  destruct e; cbn; now rewrite ?IH.
Qed.

Lemma step_event_quiet dev err e : step_event dev err e -> not_phase_event e.
Proof. destruct e; cbn; tauto || reflexivity. Qed.

Lemma step_event_err_info dev err info e : step_event dev err e -> err_info info e.
Proof. destruct e; cbn; tauto. Qed.

Lemma step_event_reported dev err s info evs e :
  step_event dev err e -> reported (ev_pm_dev_err dev s info err :: evs) e.
Proof.
  destruct e; cbn; auto; intros [-> ->] _; exists s, info; now left.
Qed.

Lemma step_event_reported_ok dev evs e :
  step_event dev 0%Z e -> reported evs e.
Proof. destruct e; cbn; auto; intros [_ ->] H; congruence. Qed.

Lemma step_event_failed dev err e :
  step_event dev err e -> is_failed_call e = true -> err <> 0%Z.
Proof.
  destruct e; cbn; try discriminate; intros [_ ->] H;
    apply negb_true_iff, Z.eqb_neq in H; exact H.
Qed.

Section Tasks.

Variable E : environment.

Lemma existsb_failed_step dev err evs :
  Forall (step_event dev err) evs -> existsb is_failed_call evs = true -> err <> 0%Z.
Proof.
  intros HF Hex. apply existsb_exists in Hex. destruct Hex as (e & Hin & Hf).
  rewrite Forall_forall in HF. eapply step_event_failed; eauto.
Qed.

Lemma stats_set_last_failed_dev_same s :
  set_last_failed_dev (last_failed_dev s) s = s.
Proof. now destruct s. Qed.

(** On a worker the function is one step. *)
Lemma worker_run_step dev err st st2 evs st' :
  device_run worker dev err st st2 evs st' ->
  exists pre,
    device_step dev err (evs ++ pre) st st'
    /\ visited (evs ++ pre) = [dev]
    /\ completion (pw st' dev) = true
    /\ Forall not_call pre
    /\ async_error st2 = async_error st
    /\ klog st2 = pre ++ klog st.
Proof.
  intros ((st1 & pre & Hpre & Hv & Hnc & Ha & _ & Hw) & Hstep & Hv2 & Hc).
  apply waits_worker in Hw. subst st2.
  exists pre.
  split; [eapply device_step_trans; eauto|].
  split; [now rewrite visited_app, Hv2, Hv|].
  split; [exact Hc|]. split; [exact Hnc|]. split; [exact Ha|].
  apply (step_log Hpre).
Qed.

(** A resume-direction function followed by what async_resume* does with
    its result. *)
Lemma resume_task_step (t : async_entry) (st st1 : pm_state) (err : Z)
    (evs : list trace_event) :
  suspend_kind t = false ->
  device_step (snd t) err evs st st1 ->
  visited evs = [snd t] ->
  completion (pw st1 (snd t)) = true ->
  async_error st1 = async_error st ->
  exists evs',
    task_step t evs' st
      (if negb (err =? 0)%Z
       then log_event (ev_pm_dev_err (snd t) (pm_transition st1) " async" err) st1
       else st1).
Proof.
  intros Hk [Hq Hp Ht Hs Hst Hl He Hcs] Hv Hc Ha.
  assert (Hin : In (ev_TRACE_DEVICE (snd t)) evs)
    by (apply visited_In; rewrite Hv; now left).
  destruct (Z.eqb_spec err 0) as [->|Hne]; cbn.
  - exists evs. constructor; auto; try congruence.
    + eapply Forall_impl; [|exact He]. apply step_event_quiet.
    + eapply Forall_impl; [|exact He]. intros e. apply step_event_reported_ok.
    + eapply Forall_impl; [|exact He]. intros e. apply step_event_err_info.
    + rewrite Hs. apply stats_set_last_failed_dev_same.
  - exists (ev_pm_dev_err (snd t) (pm_transition st1) " async" err :: evs).
    constructor; cbn; auto; try congruence.
    + constructor; [reflexivity|].
      eapply Forall_impl; [|exact He]. apply step_event_quiet.
    + constructor; [exact I|].
      eapply Forall_impl; [|exact He]. intros e. apply step_event_reported.
    + constructor; [reflexivity|].
      eapply Forall_impl; [|exact He]. intros e. apply step_event_err_info.
    + rewrite Hs. apply stats_set_last_failed_dev_same.
Qed.

(** A suspend-direction function followed by what async_suspend* does with
    its result. *)
Lemma suspend_task_step (t : async_entry) (st st1 : pm_state) (err : Z)
    (evs : list trace_event) :
  suspend_kind t = true ->
  device_step (snd t) err evs st st1 ->
  visited evs = [snd t] ->
  completion (pw st1 (snd t)) = true ->
  suspend_error err evs st st1 ->
  exists evs',
    task_step t evs' st
      (if negb (err =? 0)%Z
       then
         let st2 := dpm_save_failed_dev (dev_name (devices st1 (snd t))) st1 in
         log_event (ev_pm_dev_err (snd t) (pm_transition st2) " async" err) st2
       else st1).
Proof.
  intros Hk [Hq Hp Ht Hs Hst Hl He Hcs] Hv Hc [Hrec Hseen Hkept].
  assert (Hin : In (ev_TRACE_DEVICE (snd t)) evs)
    by (apply visited_In; rewrite Hv; now left).
  destruct (Z.eqb_spec err 0) as [->|Hne]; cbn.
  - exists evs. constructor; auto; try congruence.
    + eapply Forall_impl; [|exact He]. apply step_event_quiet.
    + eapply Forall_impl; [|exact He]. intros e. apply step_event_reported_ok.
    + eapply Forall_impl; [|exact He]. intros e. apply step_event_err_info.
    + rewrite Hs. apply stats_set_last_failed_dev_same.
    + intros _. split.
      * intros Hne. destruct (Hseen Hne) as (H1 & _ & H3). auto.
      * intros Hex. exfalso. eapply existsb_failed_step; eauto.
  - exists (ev_pm_dev_err (snd t) (pm_transition st1) " async" err :: evs).
    constructor; cbn; auto; try congruence.
    + constructor; [reflexivity|].
      eapply Forall_impl; [|exact He]. apply step_event_quiet.
    + constructor; [exact I|].
      eapply Forall_impl; [|exact He]. intros e. apply step_event_reported.
    + constructor; [reflexivity|].
      eapply Forall_impl; [|exact He]. intros e. apply step_event_err_info.
    + rewrite Hs. now destruct (suspend_stats st).
    + intros _. split.
      * intros Hne'. destruct (Hseen Hne') as (_ & H2 & _). congruence.
      * intros _. rewrite (Hrec Hne). exact Hne.
Qed.

(** The suspend-direction bookkeeping of async_error, seen from the state in
    which the function was called. *)
Lemma suspend_error_entry err evs pre st st2 st' :
  suspend_error err evs st2 st' ->
  async_error st2 = async_error st -> Forall not_call pre ->
  suspend_error err (evs ++ pre) st st'.
Proof.
  intros [Hrec Hseen Hkept] Ha Hnc. constructor.
  - exact Hrec.
  - intros Hne. rewrite <- Ha in Hne. destruct (Hseen Hne) as (H1 & H2 & H3).
    repeat split; [congruence | exact H2 | apply Forall_app; now split].
  - intros He. rewrite <- Ha. auto.
Qed.

Lemma resume_run_task (t : async_entry) (st st2 : pm_state) (r : Z * pm_state)
    (evs : list trace_event) :
  suspend_kind t = false ->
  device_run worker (snd t) (fst r) st st2 evs (snd r) ->
  async_error (snd r) = async_error st2 ->
  exists evs',
    task_step t evs' st
      (let '(error, st1) := r in
       if negb (error =? 0)%Z
       then log_event (ev_pm_dev_err (snd t) (pm_transition st1) " async" error) st1
       else st1).
Proof.
  intros Hk Hrun Ha.
  destruct (worker_run_step _ _ _ _ _ _ Hrun) as (pre & Hs & Hv & Hc & _ & Ha2 & _).
  destruct r as [err st1]. cbn [fst snd] in *.
  apply (resume_task_step t st st1 err (evs ++ pre)); auto. congruence.
Qed.

Lemma suspend_run_task (t : async_entry) (st st2 : pm_state) (r : Z * pm_state)
    (evs : list trace_event) :
  suspend_kind t = true ->
  device_run worker (snd t) (fst r) st st2 evs (snd r) ->
  suspend_error (fst r) evs st2 (snd r) ->
  exists evs',
    task_step t evs' st
      (let '(error, st1) := r in
       if negb (error =? 0)%Z
       then
         let st3 := dpm_save_failed_dev (dev_name (devices st1 (snd t))) st1 in
         log_event (ev_pm_dev_err (snd t) (pm_transition st3) " async" error) st3
       else st1).
Proof.
  intros Hk Hrun He.
  destruct (worker_run_step _ _ _ _ _ _ Hrun) as (pre & Hs & Hv & Hc & Hnc & Ha2 & _).
  destruct r as [err st1]. cbn [fst snd] in *.
  apply (suspend_task_step t st st1 err (evs ++ pre)); auto.
  eapply suspend_error_entry; eauto.
Qed.

Lemma run_async_step (t : async_entry) (st : pm_state) :
  exists evs, task_step t evs st (run_async E t st).
Proof.
  destruct t as [func dev]. unfold run_async. cbn [fst snd].
  destruct func.
  - unfold async_suspend.
    destruct (device_suspend_run E worker dev (pm_transition st) true st) as (evs & Hd & He).
    exact (suspend_run_task (ASYNC_SUSPEND, dev) st _ _ evs eq_refl Hd He).
  - unfold async_suspend_late.
    destruct (device_suspend_late_run E worker dev (pm_transition st) true st)
      as (evs & Hd & He).
    exact (suspend_run_task (ASYNC_SUSPEND_LATE, dev) st _ _ evs eq_refl Hd He).
  - unfold async_suspend_noirq.
    destruct (device_suspend_noirq_run E worker dev (pm_transition st) true st)
      as (evs & Hd & He).
    exact (suspend_run_task (ASYNC_SUSPEND_NOIRQ, dev) st _ _ evs eq_refl Hd He).
  - unfold async_resume.
    destruct (device_resume_run E worker dev (pm_transition st) true st)
      as (st2 & evs & Hd & He).
    exact (resume_run_task (ASYNC_RESUME, dev) st st2 _ evs eq_refl Hd He).
  - unfold async_resume_early.
    destruct (device_resume_early_run E worker dev (pm_transition st) true st)
      as (st2 & evs & Hd & He).
    exact (resume_run_task (ASYNC_RESUME_EARLY, dev) st st2 _ evs eq_refl Hd He).
  - unfold async_resume_noirq.
    destruct (device_resume_noirq_run E worker dev (pm_transition st) true st)
      as (st2 & evs & Hd & He).
    exact (resume_run_task (ASYNC_RESUME_NOIRQ, dev) st st2 _ evs eq_refl Hd He).
Qed.

End Tasks.

(** ** The pool: what holds across scheduling points *)

Lemma calm_refl st : calm st st.
Proof. repeat split; auto. Qed.

Lemma calm_trans st1 st2 st3 : calm st1 st2 -> calm st2 st3 -> calm st1 st3.
Proof.
  intros (Q1 & T1 & S1 & P1) (Q2 & T2 & S2 & P2). repeat split.
  - congruence.
  - congruence.
  - intros d. now rewrite S2, S1.
  - auto.
Qed.

Lemma quiet_refl st : quiet st st.
Proof. apply extends_refl. Qed.

Lemma quiet_trans st1 st2 st3 : quiet st1 st2 -> quiet st2 st3 -> quiet st1 st3.
Proof. apply extends_trans. Qed.



Lemma remove_nth_In {A : Type} (i : nat) (l : list A) (x : A) :
  In x (remove_nth i l) -> In x l.
Proof.
  revert i. induction l as [|y l IH]; intros [|i]; cbn; auto.
  intros [->|H]; eauto.
Qed.


Lemma remove_nth_length {A : Type} (i : nat) (l : list A) (t : A) :
  nth_error l i = Some t -> S (List.length (remove_nth i l)) = List.length l.
Proof.
  revert i. induction l as [|y l IH]; intros [|i]; cbn; try discriminate; auto.
Qed.

Section Pool.

Variable E : environment.

Lemma run_entry_step i t st :
  exists evs,
    task_step t evs (set_async_pending (remove_nth i (async_pending st)) st)
      (run_entry E i t st).
Proof. apply run_async_step. Qed.

Lemma run_entry_pending i t st :
  async_pending (run_entry E i t st) = remove_nth i (async_pending st).
Proof.
  destruct (run_entry_step i t st) as (evs & H). now rewrite (task_pending H).
Qed.

Lemma run_entry_calm i t st : calm st (run_entry E i t st).
Proof.
  destruct (run_entry_step i t st) as (evs & H).
  repeat split.
  - apply (task_queues H).
  - apply (task_transition H).
  - apply (task_static H).
  - intros x. rewrite (task_pending H). cbn. apply remove_nth_In.
Qed.

Lemma run_entry_quiet i t st : quiet st (run_entry E i t st).
Proof.
  destruct (run_entry_step i t st) as (evs & H).
  exists evs. split; [apply (task_log H) | apply (task_quiet H)].
Qed.


Lemma first_ready_valid l st i :
  first_ready l st = Some i ->
  exists t, nth_error l i = Some t /\ ready t st = true.
Proof.
  revert i. induction l as [|t l IH]; intros i; cbn; [discriminate|].
  destruct (ready t st) eqn:Hr.
  - intros [= <-]. now exists t.
  - destruct (first_ready l st) as [j|]; [|discriminate].
    intros [= <-]. cbn. now apply IH.
Qed.

Lemma ready_entry_valid st i :
  ready_entry E st = Some i ->
  exists t, nth_error (async_pending st) i = Some t /\ ready t st = true.
Proof.
  unfold ready_entry.
  destruct (sched E (klog st) (async_pending st)) as [j|];
    [|apply first_ready_valid].
  destruct (nth_error (async_pending st) j) as [t|] eqn:Hn;
    [|apply first_ready_valid].
  destruct (ready t st) eqn:Hr; [|apply first_ready_valid].
  intros [= <-]. now exists t.
Qed.

(** The scheduling points preserve any relation that is a preorder and
    that holds across the run of a queued entry. *)
Section Closure.

Variable R : pm_state -> pm_state -> Prop.
Hypothesis R_refl : forall st, R st st.
Hypothesis R_trans : forall st1 st2 st3, R st1 st2 -> R st2 st3 -> R st1 st3.
Hypothesis R_entry :
  forall i t st, nth_error (async_pending st) i = Some t -> R st (run_entry E i t st).

Lemma run_scheduled_closed fuel st : R st (run_scheduled E fuel st).
Proof.
  revert st. induction fuel as [|fuel IH]; intros st; cbn; [apply R_refl|].
  destruct (sched E (klog st) (async_pending st)) as [i|]; [|apply R_refl].
  destruct (nth_error (async_pending st) i) as [t|] eqn:Hn; [|apply R_refl].
  destruct (ready t st); [|apply R_refl].
  eapply R_trans; [apply R_entry; eassumption | apply IH].
Qed.

Lemma sched_point_closed st : R st (sched_point E st).
Proof. apply run_scheduled_closed. Qed.

Lemma mutex_unlock_closed st : R st (mutex_unlock E st).
Proof. apply run_scheduled_closed. Qed.

Lemma run_all_closed fuel st : R st (run_all E fuel st).
Proof.
  revert st. induction fuel as [|fuel IH]; intros st; cbn; [apply R_refl|].
  destruct (nth_error (async_pending st) (next_entry E st)) as [t|] eqn:Hn;
    [|apply R_refl].
  eapply R_trans; [apply R_entry; eassumption | apply IH].
Qed.

Lemma async_synchronize_full_closed st : R st (async_synchronize_full E st).
Proof. apply run_all_closed. Qed.

Lemma run_until_closed fuel d st : R st (run_until E fuel d st).
Proof.
  revert st. induction fuel as [|fuel IH]; intros st; cbn; [apply R_refl|].
  destruct (completion (pw st d)); [apply R_refl|].
  destruct (ready_entry E st) as [i|]; [|apply R_refl].
  destruct (nth_error (async_pending st) i) as [t|] eqn:Hn; [|apply R_refl].
  eapply R_trans; [apply R_entry; eassumption | apply IH].
Qed.

Lemma wait_for_completion_closed d st : R st (wait_for_completion E d st).
Proof. apply run_until_closed. Qed.

(** The waits of the driving thread. *)
Lemma waits_closed st st' : waits (main_thread E) st st' -> R st st'.
Proof.
  induction 1 as [st | st st' _ IH | d st st' _ IH].
  - apply R_refl.
  - eapply R_trans; [apply mutex_unlock_closed | exact IH].
  - eapply R_trans; [apply wait_for_completion_closed | exact IH].
Qed.

End Closure.




(** wait_for_completion returns with the completion done, unless no queued
    function can run. *)
Lemma run_until_done fuel d st :
  (List.length (async_pending st) <= fuel)%nat ->
  completion (pw (run_until E fuel d st) d) = true
  \/ ready_entry E (run_until E fuel d st) = None.
Proof.
  revert st. induction fuel as [|fuel IH]; intros st Hlen; cbn.
  - right. unfold ready_entry.
    destruct (async_pending st); [|cbn in Hlen; lia].
    now destruct (sched E (klog st) []) as [[|i]|].
  - destruct (completion (pw st d)) eqn:Hc; [now left|].
    destruct (ready_entry E st) as [i|] eqn:Hr; [|now right].
    destruct (ready_entry_valid st i Hr) as (t & Ht & _). rewrite Ht.
    apply IH. rewrite run_entry_pending.
    pose proof (remove_nth_length _ _ _ Ht). lia.
Qed.

Lemma wait_for_completion_done d st :
  completion (pw (wait_for_completion E d st) d) = true
  \/ ready_entry E (wait_for_completion E d st) = None.
Proof. apply run_until_done. lia. Qed.

End Pool.

(** ** A queued function that is ready does not sleep

    The pool starts a queued function when [ready] holds.  On any thread
    that would sleep in wait_for_completion only on a completion that is not
    done, the function then runs through as it does on [worker]: the waits
    it makes are those listed by [awaited]. *)

Section Ready.

Variable E : environment.
Variable T : thread.
Hypothesis T_sleeps : sleeps_when_blocked T.

Lemma dpm_wait_done d async st :
  match d with
  | Some x => completion (pw st x) = true
  | None => True
  end ->
  dpm_wait E T d async st = st.
Proof.
  unfold dpm_wait. destruct d as [x|]; [|reflexivity].
  intros Hc. destruct (_ || _); [|reflexivity]. now apply T_sleeps.
Qed.

Lemma fold_wait_done {A : Type} (f : pm_state -> A -> pm_state) (l : list A) st :
  (forall x, In x l -> f st x = st) -> fold_left f l st = st.
Proof.
  induction l as [|x l IH]; intros H; cbn; [reflexivity|].
  rewrite (H x) by now left. apply IH. intros y Hy. apply H. now right.
Qed.

Lemma dpm_wait_for_subordinate_done dev async st :
  forallb (fun d => completion (pw st d)) (subordinates dev st) = true ->
  dpm_wait_for_subordinate E T dev async st = st.
Proof.
  intros Hr. rewrite forallb_forall in Hr. unfold subordinates in Hr.
  assert (Hc : dpm_wait_for_children E T dev async st = st).
  { unfold dpm_wait_for_children. apply fold_wait_done.
    intros child Hin. apply dpm_wait_done, Hr, in_or_app. now left. }
  unfold dpm_wait_for_subordinate. rewrite Hc.
  unfold dpm_wait_for_consumers. apply fold_wait_done. intros link Hin.
  destruct (link_dormant link) eqn:Hd; cbn [negb]; [reflexivity|].
  apply dpm_wait_done, Hr, in_or_app. right.
  apply in_map. unfold active_links. apply filter_In. split; [exact Hin|].
  now rewrite Hd.
Qed.

Lemma dpm_wait_for_superior_done dev async st :
  forallb (fun d => completion (pw st d)) (superiors dev st) = true ->
  dpm_wait_for_superior E T dev async st = dpm_wait_for_superior E worker dev async st.
Proof.
  intros Hr. rewrite forallb_forall in Hr. unfold superiors in Hr.
  rewrite dpm_wait_for_superior_worker. unfold dpm_wait_for_superior.
  destruct T_sleeps as [Hunlock _]. rewrite Hunlock.
  destruct (device_pm_initialized (devices st dev)) eqn:Hi; cbn [negb]; [|reflexivity].
  rewrite dpm_wait_done.
  - unfold dpm_wait_for_suppliers. rewrite fold_wait_done; [now rewrite Hi|].
    intros link Hin.
    destruct (link_dormant link) eqn:Hd; cbn [negb]; [reflexivity|].
    apply dpm_wait_done, Hr, in_or_app. right.
    apply in_map. unfold active_links. apply filter_In. split; [exact Hin|].
    now rewrite Hd.
  - destruct (parent (devices st dev)) as [p|]; [|exact I].
    apply Hr, in_or_app. left. now left.
Qed.

Lemma ready_suspend dev state st :
  ready (ASYNC_SUSPEND, dev) st = true ->
  __device_suspend E T dev state true st = __device_suspend E worker dev state true st.
Proof.
  intros Hr. unfold __device_suspend.
  rewrite dpm_wait_for_subordinate_worker.
  now rewrite dpm_wait_for_subordinate_done by exact Hr.
Qed.

Lemma ready_suspend_late dev state st :
  ready (ASYNC_SUSPEND_LATE, dev) st = true ->
  __device_suspend_late E T dev state true st
  = __device_suspend_late E worker dev state true st.
Proof.
  intros Hr. unfold __device_suspend_late.
  rewrite dpm_wait_for_subordinate_worker.
  now rewrite dpm_wait_for_subordinate_done by exact Hr.
Qed.

Lemma ready_suspend_noirq dev state st :
  ready (ASYNC_SUSPEND_NOIRQ, dev) st = true ->
  __device_suspend_noirq E T dev state true st
  = __device_suspend_noirq E worker dev state true st.
Proof.
  intros Hr. unfold __device_suspend_noirq.
  rewrite dpm_wait_for_subordinate_worker.
  now rewrite dpm_wait_for_subordinate_done by exact Hr.
Qed.

Lemma ready_resume_noirq dev state st :
  ready (ASYNC_RESUME_NOIRQ, dev) st = true ->
  device_resume_noirq E T dev state true st
  = device_resume_noirq E worker dev state true st.
Proof.
  unfold ready, awaited. cbn [fst snd]. cbv zeta. intros Hr. unfold device_resume_noirq.
  rewrite !pw_log_event.
  destruct (syscore (pw st dev) || direct_complete (pw st dev)) eqn:H1;
    [reflexivity|].
  destruct (is_noirq_suspended (pw st dev)) eqn:H2; cbn [negb]; [|reflexivity].
  cbn [orb negb] in Hr.
  destruct (in_dpm_list (pw st dev)) eqn:Hi; cbn [negb orb] in Hr.
  - now rewrite dpm_wait_for_superior_done by exact Hr.
  - rewrite dpm_wait_for_superior_worker. unfold dpm_wait_for_superior.
    change (device_pm_initialized (devices (log_event (ev_TRACE_DEVICE dev) st) dev))
      with (in_dpm_list (pw st dev)).
    rewrite Hi. cbn [negb fst snd]. destruct T_sleeps as [Hunlock _].
    now rewrite Hunlock.
Qed.

Lemma ready_resume_early dev state st :
  ready (ASYNC_RESUME_EARLY, dev) st = true ->
  device_resume_early E T dev state true st
  = device_resume_early E worker dev state true st.
Proof.
  unfold ready, awaited. cbn [fst snd]. cbv zeta. intros Hr. unfold device_resume_early.
  rewrite !pw_log_event.
  destruct (syscore (pw st dev) || direct_complete (pw st dev)) eqn:H1;
    [reflexivity|].
  destruct (is_late_suspended (pw st dev)) eqn:H2; cbn [negb]; [|reflexivity].
  cbn [orb negb] in Hr.
  destruct (in_dpm_list (pw st dev)) eqn:Hi; cbn [negb orb] in Hr.
  - now rewrite dpm_wait_for_superior_done by exact Hr.
  - rewrite dpm_wait_for_superior_worker. unfold dpm_wait_for_superior.
    change (device_pm_initialized (devices (log_event (ev_TRACE_DEVICE dev) st) dev))
      with (in_dpm_list (pw st dev)).
    rewrite Hi. cbn [negb fst snd]. destruct T_sleeps as [Hunlock _].
    now rewrite Hunlock.
Qed.

Lemma ready_resume dev state st :
  ready (ASYNC_RESUME, dev) st = true ->
  device_resume E T dev state true st = device_resume E worker dev state true st.
Proof.
  unfold ready, awaited. cbn [fst snd]. cbv zeta. intros Hr. unfold device_resume.
  rewrite !pw_log_event.
  destruct (syscore (pw st dev)) eqn:Hs; [reflexivity|].
  destruct (direct_complete (pw st dev)) eqn:Hd; [reflexivity|].
  cbn [orb] in Hr.
  destruct (in_dpm_list (pw st dev)) eqn:Hi; cbn [negb orb] in Hr.
  - now rewrite dpm_wait_for_superior_done by exact Hr.
  - rewrite dpm_wait_for_superior_worker. unfold dpm_wait_for_superior.
    change (device_pm_initialized (devices (log_event (ev_TRACE_DEVICE dev) st) dev))
      with (in_dpm_list (pw st dev)).
    rewrite Hi. cbn [negb fst snd]. destruct T_sleeps as [Hunlock _].
    now rewrite Hunlock.
Qed.

End Ready.

(** ** Resume-direction phases *)








Lemma static_async d d' :
  static_part d' = static_part d ->
  power_async_suspend (power d') = power_async_suspend (power d).
Proof.
  intros H. exact (f_equal (fun x => power_async_suspend (power x)) H).
Qed.

Lemma is_async_static E dev st st' :
  (forall d, static_part (devices st' d) = static_part (devices st d)) ->
  is_async E dev st' = is_async E dev st.
Proof.
  intros H. unfold is_async, pw. now rewrite (static_async _ _ (H dev)).
Qed.

Lemma dev_name_static st st' d :
  static_part (devices st' d) = static_part (devices st d) ->
  dev_name (devices st' d) = dev_name (devices st d).
Proof. intros H. exact (f_equal dev_name H). Qed.

Lemma counts_resume_noirq : counts inc_failed_resume_noirq.
Proof. intros st. repeat split. Qed.

Lemma counts_resume_early : counts inc_failed_resume_early.
Proof. intros st. repeat split. Qed.

Lemma counts_resume : counts inc_failed_resume.
Proof. intros st. repeat split. Qed.

Lemma device_step_calm dev err evs st st' : device_step dev err evs st st' -> calm st st'.
Proof.
  intros H. repeat split.
  - apply (step_queues H).
  - apply (step_transition H).
  - apply (step_static H).
  - intros t. now rewrite (step_pending H).
Qed.


Lemma note_resume_failure_calm inc step info dev state err st :
  counts inc -> calm st (note_resume_failure inc step info dev state err st).
Proof.
  intros C. unfold note_resume_failure.
  destruct (negb (err =? 0)%Z); [|apply calm_refl].
  destruct (C st) as (Hd & Hl & Hp & Hq & Ht & _).
  repeat split; cbn; auto.
  - intros d. now rewrite Hd.
  - intros t. now rewrite Hp.
Qed.


Lemma list_remove_head dev l : list_remove dev (dev :: l) = list_remove dev l.
Proof. unfold list_remove. cbn. now rewrite Nat.eqb_refl. Qed.

Lemma first_entry_length_0 (l : list dev_id) :
  (List.length l <= 0)%nat -> l = [].
Proof. destruct l; cbn; [reflexivity | lia]. Qed.

Lemma entry_linked_In dev h st : In dev (queues st h) -> entry_linked dev st = true.
Proof.
  intros Hin. unfold entry_linked. apply existsb_exists. exists h. split.
  - destruct h; cbn; auto 10.
  - apply existsb_exists. exists dev. split; [exact Hin | apply Nat.eqb_refl].
Qed.

Section ResumePhases.

Variable E : environment.


(** What the driving thread does in a per-device function preserves any
    preorder that the pool and the steps of the function preserve. *)
Section RunClosed.

Variable R : pm_state -> pm_state -> Prop.
Hypothesis R_refl : forall st, R st st.
Hypothesis R_trans : forall st1 st2 st3, R st1 st2 -> R st2 st3 -> R st1 st3.
Hypothesis R_entry :
  forall i t st, nth_error (async_pending st) i = Some t -> R st (run_entry E i t st).
Hypothesis R_step :
  forall dev err evs st st', device_step dev err evs st st' -> R st st'.

Lemma device_run_closed dev err st st2 evs st' :
  device_run (main_thread E) dev err st st2 evs st' -> R st st'.
Proof.
  intros ((st1 & pre & Hpre & _ & _ & _ & _ & Hw) & Hstep & _).
  eapply R_trans; [eapply R_step; exact Hpre|].
  eapply R_trans; [|eapply R_step; exact Hstep].
  now apply (waits_closed E R R_refl R_trans R_entry).
Qed.

Lemma device_resume_noirq_closed dev state async st :
  R st (snd (device_resume_noirq E (main_thread E) dev state async st)).
Proof.
  destruct (device_resume_noirq_run E (main_thread E) dev state async st)
    as (st2 & evs & H & _).
  eapply device_run_closed; eauto.
Qed.

Lemma device_resume_early_closed dev state async st :
  R st (snd (device_resume_early E (main_thread E) dev state async st)).
Proof.
  destruct (device_resume_early_run E (main_thread E) dev state async st)
    as (st2 & evs & H & _).
  eapply device_run_closed; eauto.
Qed.

Lemma device_resume_closed dev state async st :
  R st (snd (device_resume E (main_thread E) dev state async st)).
Proof.
  destruct (device_resume_run E (main_thread E) dev state async st)
    as (st2 & evs & H & _).
  eapply device_run_closed; eauto.
Qed.

Lemma device_suspend_closed_main dev state async st :
  R st (snd (__device_suspend E (main_thread E) dev state async st)).
Proof.
  destruct (device_suspend_run E (main_thread E) dev state async st) as (evs & H & _).
  eapply device_run_closed; eauto.
Qed.

Lemma device_suspend_late_closed_main dev state async st :
  R st (snd (__device_suspend_late E (main_thread E) dev state async st)).
Proof.
  destruct (device_suspend_late_run E (main_thread E) dev state async st)
    as (evs & H & _).
  eapply device_run_closed; eauto.
Qed.

Lemma device_suspend_noirq_closed_main dev state async st :
  R st (snd (__device_suspend_noirq E (main_thread E) dev state async st)).
Proof.
  destruct (device_suspend_noirq_run E (main_thread E) dev state async st)
    as (evs & H & _).
  eapply device_run_closed; eauto.
Qed.

End RunClosed.

Lemma mutex_unlock_calm st : calm st (mutex_unlock E st).
Proof.
  apply (mutex_unlock_closed E calm calm_refl calm_trans).
  intros i t s _. apply run_entry_calm.
Qed.

Lemma async_synchronize_full_calm st : calm st (async_synchronize_full E st).
Proof.
  apply (async_synchronize_full_closed E calm calm_refl calm_trans).
  intros i t s _. apply run_entry_calm.
Qed.




Lemma async_schedule_calm func dev st :
  queues (async_schedule E func dev st) = queues st
  /\ pm_transition (async_schedule E func dev st) = pm_transition st
  /\ (forall d, static_part (devices (async_schedule E func dev st) d)
                = static_part (devices st d)).
Proof.
  unfold async_schedule.
  destruct (sched_point_closed E calm calm_refl calm_trans
              (fun i t s _ => run_entry_calm E i t s)
              (set_async_pending (async_pending st ++ [(func, dev)]) st))
    as (Hq & Ht & Hs & _).
  repeat split; auto.
Qed.


Lemma start_async_resume_queues func l st :
  queues (start_async_resume E func l st) = queues st.
Proof.
  unfold start_async_resume. revert st.
  induction l as [|dev l IH]; intros st; cbn [fold_left]; [reflexivity|].
  rewrite IH. destruct (is_async E dev _); [|reflexivity].
  now destruct (async_schedule_calm func dev (reinit_completion dev st)) as (-> & _).
Qed.


Lemma dpm_noirq_resume_loop_eq state fuel st :
  dpm_noirq_resume_loop E fuel state st
  = drain_head DPM_NOIRQ_LIST (dpm_noirq_resume_turn E state) fuel st.
Proof.
  revert st. induction fuel as [|fuel IH]; intros st; [reflexivity|].
  cbn. unfold dpm_noirq_list.
  destruct (first_entry (queues st DPM_NOIRQ_LIST)) as [dev|]; [|reflexivity].
  rewrite <- IH. unfold dpm_noirq_resume_turn. cbn zeta.
  destruct (is_async E dev _); cbn; [reflexivity|].
  now destruct (device_resume_noirq E (main_thread E) dev state false _).
Qed.

Lemma dpm_resume_early_loop_eq state fuel st :
  dpm_resume_early_loop E fuel state st
  = drain_head DPM_LATE_EARLY_LIST (dpm_resume_early_turn E state) fuel st.
Proof.
  revert st. induction fuel as [|fuel IH]; intros st; [reflexivity|].
  cbn. unfold dpm_late_early_list.
  destruct (first_entry (queues st DPM_LATE_EARLY_LIST)) as [dev|]; [|reflexivity].
  rewrite <- IH. unfold dpm_resume_early_turn. cbn zeta.
  destruct (is_async E dev _); cbn; [reflexivity|].
  now destruct (device_resume_early E (main_thread E) dev state false _).
Qed.

Lemma dpm_resume_loop_eq state fuel st :
  dpm_resume_loop E fuel state st
  = drain_head DPM_SUSPENDED_LIST (dpm_resume_turn E state) fuel st.
Proof.
  revert st. induction fuel as [|fuel IH]; intros st; [reflexivity|].
  cbn. unfold dpm_suspended_list.
  destruct (first_entry (queues st DPM_SUSPENDED_LIST)) as [dev|]; [|reflexivity].
  rewrite <- IH. unfold dpm_resume_turn. cbn zeta.
  destruct (is_async E dev _); cbn; [reflexivity|].
  now destruct (device_resume E (main_thread E) dev state false _).
Qed.








End ResumePhases.

(** ** Suspend-direction phases (C1, C2) *)

Section SuspendPhases.

Variable E : environment.

(** The three drains preserve any preorder that their steps preserve. *)
Section SuspendDrains.

Variable R : pm_state -> pm_state -> Prop.
Hypothesis R_refl : forall st, R st st.
Hypothesis R_trans : forall st1 st2 st3, R st1 st2 -> R st2 st3 -> R st1 st3.
Hypothesis R_unlock : forall st, R st (mutex_unlock E st).
Hypothesis R_suspend : forall dev st, R st (snd (device_suspend E dev st)).
Hypothesis R_late : forall dev st, R st (snd (device_suspend_late E dev st)).
Hypothesis R_noirq : forall dev st, R st (snd (device_suspend_noirq E dev st)).
Hypothesis R_err :
  forall dev state info err st,
    R st (dpm_save_failed_dev (dev_name (devices st dev))
            (log_event (ev_pm_dev_err dev state info err) st)).
Hypothesis R_move :
  forall dev h st, R st (if entry_linked dev st then list_move dev h st else st).




End SuspendDrains.

(** *** async_error is sticky *)














(** *** No phase is entered inside a drain *)

Lemma quiet_plain st st' evs :
  klog st' = evs ++ klog st -> Forall not_phase_event evs -> quiet st st'.
Proof. intros Hl He. now exists evs. Qed.

Lemma quiet_of_step dev err evs st st' : device_step dev err evs st st' -> quiet st st'.
Proof.
  intros Hs. exists evs. split; [apply (step_log Hs)|].
  eapply Forall_impl; [|apply (step_events Hs)]. intros e. apply step_event_quiet.
Qed.

Lemma mutex_unlock_quiet st : quiet st (mutex_unlock E st).
Proof.
  apply (mutex_unlock_closed E quiet quiet_refl quiet_trans).
  intros i t s _. apply run_entry_quiet.
Qed.


Lemma async_schedule_quiet func dev st : quiet st (async_schedule E func dev st).
Proof.
  unfold async_schedule.
  eapply quiet_trans;
    [|apply (sched_point_closed E quiet quiet_refl quiet_trans);
      intros i t s _; apply run_entry_quiet].
  now apply (quiet_plain _ _ []).
Qed.

Lemma run_entry_quiet_any i t st :
  nth_error (async_pending st) i = Some t -> quiet st (run_entry E i t st).
Proof. intros _. apply run_entry_quiet. Qed.


Lemma device_suspend_late_quiet dev st : quiet st (snd (device_suspend_late E dev st)).
Proof.
  unfold device_suspend_late.
  eapply quiet_trans; [now apply (quiet_plain st (reinit_completion dev st) [])|].
  destruct (is_async E dev _); cbn [snd].
  - apply async_schedule_quiet.
  - apply (device_suspend_late_closed_main E quiet quiet_refl quiet_trans
             run_entry_quiet_any quiet_of_step).
Qed.

Lemma device_suspend_noirq_quiet dev st : quiet st (snd (device_suspend_noirq E dev st)).
Proof.
  unfold device_suspend_noirq.
  eapply quiet_trans; [now apply (quiet_plain st (reinit_completion dev st) [])|].
  destruct (is_async E dev _); cbn [snd].
  - apply async_schedule_quiet.
  - apply (device_suspend_noirq_closed_main E quiet quiet_refl quiet_trans
             run_entry_quiet_any quiet_of_step).
Qed.







(** *** A callback failure makes the drain return an error *)









(** *** Once async_error is set (C2) *)













End SuspendPhases.

(** ** dpm_complete (C3, C7, C8) *)

Lemma started_app evs1 evs2 : started (evs1 ++ evs2) = started evs1 ++ started evs2.
Proof.
  induction evs1 as [|e evs1 IH]; cbn; [reflexivity|].
  destruct e; cbn; now rewrite ?IH.
Qed.

Lemma complete_event_started dev evs :
  Forall (complete_event dev) evs -> started evs = [].
Proof.
  induction 1 as [|e evs He _ IH]; [reflexivity|].
  destruct e; cbn in *; auto; contradiction.
Qed.

Lemma chain_callback_set_power (op : dev_pm_ops -> option callback) prefix p d :
  chain_callback op prefix (set_power p d) = chain_callback op prefix d.
Proof. reflexivity. Qed.

(** device_complete only writes to the log. *)
Lemma device_complete_logs dev state st :
  exists evs,
    device_complete dev state st = set_klog (evs ++ klog st) st
    /\ Forall (complete_event dev) evs.
Proof.
  unfold device_complete.
  destruct (syscore (pw st dev)).
  - exists []. split; [now destruct st | constructor].
  - destruct (chain_callback complete "completing " (devices st dev)) as [info [f|]].
    + exists [ev_runtime_pm PM_RUNTIME_PUT dev; ev_call_void f dev].
      split; [reflexivity | repeat constructor].
    + exists [ev_runtime_pm PM_RUNTIME_PUT dev].
      split; [reflexivity | repeat constructor].
Qed.

(** device_complete does not read power.is_prepared. *)
Lemma device_complete_flag dev state b st :
  device_complete dev state (set_dev dev (set_is_prepared b) st)
  = set_dev dev (set_is_prepared b) (device_complete dev state st).
Proof.
  unfold device_complete. rewrite pw_set_dev_same, devices_set_dev_same.
  rewrite chain_callback_set_power.
  replace (syscore (set_is_prepared b (pw st dev))) with (syscore (pw st dev))
    by now destruct (pw st dev).
  destruct (syscore (pw st dev)); [reflexivity|].
  destruct (chain_callback complete "completing " (devices st dev)) as [info [f|]];
    reflexivity.
Qed.

Section CompletePhase.

Variable E : environment.

Lemma sched_point_idle st : async_pending st = [] -> sched_point E st = st.
Proof. intros H. unfold sched_point. now rewrite H. Qed.

Lemma mutex_unlock_idle st : async_pending st = [] -> mutex_unlock E st = st.
Proof. apply sched_point_idle. Qed.

Lemma async_synchronize_full_idle st :
  async_pending st = [] -> async_synchronize_full E st = st.
Proof. intros H. unfold async_synchronize_full. now rewrite H. Qed.

Lemma list_remove_last dev l : ~ In dev l -> list_remove dev (l ++ [dev]) = l.
Proof.
  intros Hn. rewrite list_remove_app, (list_remove_not_In _ _ Hn).
  unfold list_remove. cbn. rewrite Nat.eqb_refl. cbn. apply app_nil_r.
Qed.

Lemma last_entry_In l dev : last_entry l = Some dev -> In dev l.
Proof.
  intros H. destruct (last_entry_Some _ _ H) as [l' ->].
  apply in_or_app. right. now left.
Qed.

Lemma list_remove_shorter dev l :
  In dev l -> (List.length (list_remove dev l) < List.length l)%nat.
Proof.
  induction l as [|x l IH]; cbn; [tauto|].
  destruct (Nat.eqb_spec x dev) as [->|Hne]; cbn.
  - intros _. pose proof (list_remove_length dev l). unfold list_remove in *. lia.
  - intros [->|Hin]; [congruence|]. specialize (IH Hin). unfold list_remove in *. lia.
Qed.

Lemma dpm_complete_turn_spec state dev st :
  (forall h, queues (dpm_complete_turn E state dev st) h = list_remove dev (queues st h))
  /\ (forall t, In t (async_pending (dpm_complete_turn E state dev st)) ->
                In t (async_pending st))
  /\ exists evs,
       klog (dpm_complete_turn E state dev st) = evs ++ klog st
       /\ In (ev_trace_device_pm_callback_start dev "" (event state)) evs
       /\ (async_pending st = [] -> started evs = [dev]).
Proof.
  unfold dpm_complete_turn. cbn zeta.
  set (st1 := list_del dev (set_dev dev (set_is_prepared false) st)).
  assert (Hq1 : forall h, queues st1 h = list_remove dev (queues st h)) by reflexivity.
  assert (Hp1 : async_pending st1 = async_pending st) by reflexivity.
  assert (Hl1 : klog st1 = klog st) by reflexivity.
  pose proof (mutex_unlock_calm E st1) as (Hq & _ & _ & Hp).
  pose proof (mutex_unlock_quiet E st1) as (e1 & Hl & _).
  pose proof (mutex_unlock_idle st1) as Hidle.
  set (st2 := mutex_unlock E st1) in *. clearbody st2. clearbody st1.
  destruct (device_complete_logs dev state
              (log_event (ev_trace_device_pm_callback_start dev "" (event state)) st2))
    as (e2 & -> & He2).
  cbn. split; [|split].
  - intros h. now rewrite Hq, Hq1.
  - intros t Ht. rewrite <- Hp1. apply (Hp t Ht).
  - exists (ev_trace_device_pm_callback_end dev 0
            :: e2 ++ ev_trace_device_pm_callback_start dev "" (event state) :: e1).
    split; [|split].
    + rewrite Hl, Hl1. cbn. now rewrite <- app_assoc.
    + right. apply in_or_app. right. now left.
    + intros Hi. cbn. rewrite started_app, (complete_event_started dev e2 He2). cbn.
      rewrite <- Hp1 in Hi. rewrite (Hidle Hi) in Hl.
      assert (e1 = []) as ->; [|reflexivity].
      apply (f_equal (@List.length _)) in Hl. rewrite length_app in Hl.
      destruct e1; [reflexivity | cbn in Hl; lia].
Qed.

Lemma dpm_complete_loop_spec fuel state local st :
  (List.length (dpm_prepared_list st) <= fuel)%nat ->
  dpm_prepared_list (snd (dpm_complete_loop E fuel state local st)) = []
  /\ (forall t, In t (async_pending (snd (dpm_complete_loop E fuel state local st))) ->
                In t (async_pending st))
  /\ exists evs,
       klog (snd (dpm_complete_loop E fuel state local st)) = evs ++ klog st
       /\ (forall d, In d (dpm_prepared_list st) ->
             In (ev_trace_device_pm_callback_start d "" (event state)) evs)
       /\ (async_pending st = [] -> NoDup (dpm_prepared_list st) ->
           started evs = dpm_prepared_list st).
Proof.
  revert local st. induction fuel as [|fuel IH]; intros local st Hlen.
  - apply first_entry_length_0 in Hlen. cbn. rewrite Hlen.
    split; [reflexivity|]. split; [auto|]. exists []. split; [reflexivity|].
    split; [intros d [] | reflexivity].
  - cbn [dpm_complete_loop].
    destruct (last_entry (dpm_prepared_list st)) as [dev|] eqn:Hlast.
    2:{ apply last_entry_None in Hlast. cbn [snd]. rewrite Hlast.
        split; [reflexivity|]. split; [auto|]. exists []. split; [reflexivity|].
        split; [intros d [] | reflexivity]. }
    fold (dpm_complete_turn E state dev st).
    destruct (dpm_complete_turn_spec state dev st) as (Hq & Hp & e1 & Hl1 & Hin1 & Hex1).
    pose proof (last_entry_In _ _ Hlast) as Hdev.
    destruct (IH (dev :: local) (dpm_complete_turn E state dev st))
      as (Hnil & Hp2 & e2 & Hl2 & Hin2 & Hex2).
    { unfold dpm_prepared_list in *. rewrite Hq.
      pose proof (list_remove_shorter dev _ Hdev). lia. }
    split; [exact Hnil|]. split; [auto|].
    exists (e2 ++ e1). split; [now rewrite Hl2, Hl1, app_assoc|]. split.
    + intros d Hd. apply in_or_app.
      destruct (Nat.eq_dec d dev) as [->|Hne]; [now right|].
      left. apply Hin2. unfold dpm_prepared_list in *. rewrite Hq.
      apply list_remove_In. now split.
    + intros Hi Hnd.
      destruct (last_entry_Some _ _ Hlast) as [l' Hl'].
      rewrite Hl' in Hnd. apply NoDup_remove in Hnd. rewrite app_nil_r in Hnd.
      destruct Hnd as [Hnd Hnot].
      assert (Hrest : dpm_prepared_list (dpm_complete_turn E state dev st) = l').
      { unfold dpm_prepared_list in *. rewrite Hq, Hl'. now apply list_remove_last. }
      rewrite started_app, (Hex1 Hi), Hex2, Hrest, Hl'; [reflexivity | | now rewrite Hrest].
      destruct (async_pending (dpm_complete_turn E state dev st)) as [|t p] eqn:Hpe;
        [reflexivity|].
      exfalso. specialize (Hp t). rewrite Hi in Hp. apply Hp. now left.
Qed.

(** dpm_complete hands every device of dpm_prepared_list to device_complete
    and leaves the list empty. *)
Lemma dpm_complete_spec state st :
  dpm_prepared_list (dpm_complete E state st) = []
  /\ (forall t, In t (async_pending (dpm_complete E state st)) -> In t (async_pending st))
  /\ exists evs,
       klog (dpm_complete E state st) = evs ++ klog st
       /\ (forall d, In d (dpm_prepared_list st) ->
             In (ev_trace_device_pm_callback_start d "" (event state)) evs)
       /\ (async_pending st = [] -> NoDup (dpm_prepared_list st) ->
           started evs = dpm_prepared_list st).
Proof.
  unfold dpm_complete. cbn zeta.
  set (st0 := log_event (ev_trace_suspend_resume "dpm_complete" (event state) true) st).
  destruct (dpm_complete_loop_spec (List.length (dpm_prepared_list st0)) state [] st0
              (le_n _)) as (Hnil & Hp & evs & Hl & Hin & Hex).
  destruct (dpm_complete_loop E _ state [] st0) as [local st1]. cbn [snd] in *.
  set (st2 := set_queue DPM_LIST (local ++ dpm_list st1) st1).
  assert (Hq2 : dpm_prepared_list st2 = dpm_prepared_list st1) by reflexivity.
  assert (Hp2 : async_pending st2 = async_pending st1) by reflexivity.
  assert (Hl2 : klog st2 = klog st1) by reflexivity.
  pose proof (mutex_unlock_calm E st2) as (Hq & _ & _ & Hpu).
  pose proof (mutex_unlock_quiet E st2) as (e3 & Hl3 & _).
  pose proof (mutex_unlock_idle st2) as Hidle.
  set (st3 := mutex_unlock E st2) in *. clearbody st3 st2.
  cbn. split; [|split].
  - unfold dpm_prepared_list in *. now rewrite Hq, Hq2.
  - intros t Ht. apply Hp. rewrite <- Hp2. now apply Hpu.
  - exists (ev_trace_suspend_resume "dpm_complete" (event state) false
            :: ev_sys DEVICE_UNBLOCK_PROBING
            :: e3 ++ evs ++ [ev_trace_suspend_resume "dpm_complete" (event state) true]).
    split; [|split].
    + rewrite Hl3, Hl2, Hl. subst st0. cbn. now rewrite <- !app_assoc.
    + intros d Hd. do 2 right. apply in_or_app. right. apply in_or_app. left.
      now apply Hin.
    + intros Hi Hnd. cbn. rewrite !started_app. cbn. rewrite app_nil_r.
      rewrite (Hex Hi Hnd).
      assert (He3 : e3 = []).
      { assert (Hp1 : async_pending st1 = []).
        { destruct (async_pending st1) as [|t p] eqn:Hpe; [reflexivity|].
          exfalso. specialize (Hp t). subst st0. cbn in Hp. rewrite Hi in Hp.
          apply Hp. now left. }
        rewrite <- Hp2 in Hp1. rewrite (Hidle Hp1) in Hl3.
        apply (f_equal (@List.length _)) in Hl3. rewrite length_app in Hl3.
        destruct e3; [reflexivity | cbn in Hl3; lia]. }
      now rewrite He3.
Qed.

Lemma dpm_complete_idle state st :
  dpm_prepared_list st = [] -> async_pending st = [] ->
  extends not_call st (dpm_complete E state st).
Proof.
  intros Hq Hp. unfold dpm_complete. cbn zeta.
  change (dpm_prepared_list (log_event (ev_trace_suspend_resume "dpm_complete"
                                          (event state) true) st))
    with (dpm_prepared_list st).
  rewrite Hq. cbn [List.length dpm_complete_loop]. rewrite mutex_unlock_idle by exact Hp.
  extends_by_events; reflexivity.
Qed.

(** With nothing queued, a turn of the loop of dpm_complete clears the
    flag of the device, unlinks it and adds to the log. *)
Lemma dpm_complete_turn_idle state dev st :
  async_pending st = [] ->
  exists evs,
    dpm_complete_turn E state dev st
    = set_klog (evs ++ klog st) (list_del dev (set_dev dev (set_is_prepared false) st)).
Proof.
  intros Hp. unfold dpm_complete_turn. cbn zeta.
  rewrite mutex_unlock_idle by exact Hp.
  destruct (device_complete_logs dev state
              (log_event (ev_trace_device_pm_callback_start dev "" (event state))
                 (list_del dev (set_dev dev (set_is_prepared false) st))))
    as (evs & -> & _).
  exists (ev_trace_device_pm_callback_end dev 0
          :: evs ++ [ev_trace_device_pm_callback_start dev "" (event state)]).
  cbn. now rewrite <- app_assoc.
Qed.

Lemma dpm_complete_loop_flags fuel state local st :
  async_pending st = [] ->
  (List.length (dpm_prepared_list st) <= fuel)%nat ->
  async_pending (snd (dpm_complete_loop E fuel state local st)) = []
  /\ (forall d, In d (dpm_prepared_list st) ->
        is_prepared (pw (snd (dpm_complete_loop E fuel state local st)) d) = false)
  /\ (forall d, is_prepared (pw (snd (dpm_complete_loop E fuel state local st)) d) = true ->
        is_prepared (pw st d) = true).
Proof.
  revert local st. induction fuel as [|fuel IH]; intros local st Hp Hlen.
  - apply first_entry_length_0 in Hlen. cbn. rewrite Hlen.
    split; [exact Hp|]. split; [intros d [] | auto].
  - cbn [dpm_complete_loop].
    destruct (last_entry (dpm_prepared_list st)) as [dev|] eqn:Hlast.
    2:{ apply last_entry_None in Hlast. cbn [snd]. rewrite Hlast.
        split; [exact Hp|]. split; [intros d [] | auto]. }
    fold (dpm_complete_turn E state dev st).
    destruct (dpm_complete_turn_idle state dev st Hp) as (evs & Hturn).
    pose proof (last_entry_In _ _ Hlast) as Hdev.
    assert (Hq : dpm_prepared_list (dpm_complete_turn E state dev st)
                 = list_remove dev (dpm_prepared_list st)) by (now rewrite Hturn).
    assert (Hpw : forall d, pw (dpm_complete_turn E state dev st) d
                            = pw (set_dev dev (set_is_prepared false) st) d)
      by (intros d; now rewrite Hturn).
    destruct (IH (dev :: local) (dpm_complete_turn E state dev st))
      as (Hp' & Hin & Hmono).
    { now rewrite Hturn. }
    { rewrite Hq. pose proof (list_remove_shorter dev _ Hdev). lia. }
    split; [exact Hp'|]. split.
    + intros d Hd. destruct (Nat.eq_dec d dev) as [->|Hne].
      * destruct (is_prepared (pw (snd (dpm_complete_loop E fuel state (dev :: local)
                                         (dpm_complete_turn E state dev st))) dev))
          eqn:Hflag; [|reflexivity].
        apply Hmono in Hflag. rewrite Hpw, pw_set_dev_same in Hflag. discriminate.
      * apply Hin. rewrite Hq. apply list_remove_In. now split.
    + intros d Hflag. apply Hmono in Hflag. rewrite Hpw, pw_set_dev in Hflag.
      destruct (Nat.eqb d dev); [discriminate | exact Hflag].
Qed.

(** dpm_complete leaves power.is_prepared false for every device that was
    on dpm_prepared_list. *)
Lemma dpm_complete_clears state st d :
  async_pending st = [] -> In d (dpm_prepared_list st) ->
  is_prepared (pw (dpm_complete E state st) d) = false.
Proof.
  intros Hp Hin. unfold dpm_complete. cbn zeta.
  set (st0 := log_event (ev_trace_suspend_resume "dpm_complete" (event state) true) st).
  destruct (dpm_complete_loop_flags (List.length (dpm_prepared_list st0)) state [] st0 Hp
              (le_n _)) as (Hp1 & Hflag & _).
  specialize (Hflag d Hin).
  destruct (dpm_complete_loop E _ state [] st0) as [local st1]. cbn [snd] in *.
  rewrite mutex_unlock_idle by exact Hp1. exact Hflag.
Qed.

(** C7, as the code has it.  device_complete does not read
    power.is_prepared: setting the flag commutes with it, and with the flag
    false it still calls the complete callback of the device.  A device is
    not completed twice because dpm_complete clears the flag and takes the
    device off dpm_prepared_list before it calls device_complete: in the
    turn of the loop the flag of the device is already false when
    device_complete runs, and the callback is called all the same; with
    nothing queued, every device that was on the list has the flag false
    when dpm_complete returns, the list is empty, and a second dpm_complete
    calls no callback. *)
Theorem complete_does_not_test_is_prepared :
  forall (dev : dev_id) (state : pm_message_t) (b : bool) (st : pm_state),
    async_pending st = [] ->
    device_complete dev state (set_dev dev (set_is_prepared b) st)
    = set_dev dev (set_is_prepared b) (device_complete dev state st)
    /\ (forall f : callback,
          syscore (pw st dev) = false ->
          snd (chain_callback complete "completing " (devices st dev)) = Some f ->
          klog (device_complete dev state (set_dev dev (set_is_prepared false) st))
          = ev_runtime_pm PM_RUNTIME_PUT dev :: ev_call_void f dev :: klog st)
    /\ dpm_prepared_list (dpm_complete E state st) = []
    /\ extends not_call (dpm_complete E state st)
         (dpm_complete E state (dpm_complete E state st))
    /\ (forall d : dev_id,
          In d (dpm_prepared_list st) ->
          is_prepared (pw (dpm_complete E state st) d) = false)
    /\ (let st1 := log_event (ev_trace_device_pm_callback_start dev "" (event state))
                     (list_del dev (set_dev dev (set_is_prepared false) st)) in
        dpm_complete_turn E state dev st
        = log_event (ev_trace_device_pm_callback_end dev 0) (device_complete dev state st1)
        /\ is_prepared (pw st1 dev) = false
        /\ (forall f : callback,
              syscore (pw st dev) = false ->
              snd (chain_callback complete "completing " (devices st dev)) = Some f ->
              In (ev_call_void f dev) (klog (dpm_complete_turn E state dev st))))
    /\ (forall (fuel : nat) (local : list dev_id),
          last_entry (dpm_prepared_list st) = Some dev ->
          dpm_complete_loop E (S fuel) state local st
          = dpm_complete_loop E fuel state (dev :: local)
              (dpm_complete_turn E state dev st)).
Proof.
  intros dev state b st Hp.
  split; [apply device_complete_flag|]. split; [|split; [|split; [|split; [|split]]]].
  - intros f Hs Hf. rewrite device_complete_flag. unfold device_complete.
    rewrite Hs. destruct (chain_callback complete "completing " (devices st dev))
      as [info cb]. cbn in Hf. now subst cb.
  - apply dpm_complete_spec.
  - destruct (dpm_complete_spec state st) as (Hnil & Hsub & _).
    apply dpm_complete_idle; [exact Hnil|].
    destruct (async_pending (dpm_complete E state st)) as [|t p] eqn:Hpe; [reflexivity|].
    exfalso. specialize (Hsub t). rewrite Hp in Hsub. apply Hsub. now left.
  - intros d Hd. now apply dpm_complete_clears.
  - cbv zeta.
    assert (Hturn : dpm_complete_turn E state dev st
                    = log_event (ev_trace_device_pm_callback_end dev 0)
                        (device_complete dev state
                           (log_event (ev_trace_device_pm_callback_start dev ""
                                         (event state))
                              (list_del dev (set_dev dev (set_is_prepared false) st))))).
    { unfold dpm_complete_turn. cbn zeta. now rewrite mutex_unlock_idle by exact Hp. }
    split; [exact Hturn|]. split.
    + change (is_prepared (pw (set_dev dev (set_is_prepared false) st) dev) = false).
      now rewrite pw_set_dev_same.
    + intros f Hs Hf. rewrite Hturn. unfold device_complete.
      change (pw (log_event (ev_trace_device_pm_callback_start dev "" (event state))
                    (list_del dev (set_dev dev (set_is_prepared false) st))) dev)
        with (pw (set_dev dev (set_is_prepared false) st) dev).
      rewrite pw_set_dev_same.
      replace (syscore (set_is_prepared false (pw st dev))) with (syscore (pw st dev))
        by now destruct (pw st dev).
      rewrite Hs.
      change (devices (log_event (ev_trace_device_pm_callback_start dev "" (event state))
                         (list_del dev (set_dev dev (set_is_prepared false) st))) dev)
        with (devices (set_dev dev (set_is_prepared false) st) dev).
      rewrite devices_set_dev_same, chain_callback_set_power.
      destruct (chain_callback complete "completing " (devices st dev)) as [info cb].
      cbn in Hf. subst cb. cbn. right. right. now left.
  - intros fuel local Hl. cbn [dpm_complete_loop]. now rewrite Hl.
Qed.

End CompletePhase.

(** ** dpm_prepare (C10) *)

Section PreparePhase.

Variable E : environment.

Lemma is_prepared_set_dev dev d f st :
  (forall p, is_prepared (f p) = is_prepared p) ->
  is_prepared (pw (set_dev dev f st) d) = is_prepared (pw st d).
Proof.
  intros Hf. destruct (Nat.eq_dec d dev) as [->|Hne].
  - now rewrite pw_set_dev_same.
  - now rewrite pw_set_dev_other.
Qed.

(** device_prepare leaves the lists, the pool and power.is_prepared alone. *)
Lemma device_prepare_frame dev state st :
  queues (snd (device_prepare E dev state st)) = queues st
  /\ async_pending (snd (device_prepare E dev state st)) = async_pending st
  /\ forall d, is_prepared (pw (snd (device_prepare E dev state st)) d)
               = is_prepared (pw st d).
Proof.
  unfold device_prepare.
  destruct (syscore (pw st dev)); [now repeat split|].
  set (st1 := set_dev dev _ (log_event _ st)).
  assert (H1 : forall d, is_prepared (pw st1 d) = is_prepared (pw st d)).
  { intros d. subst st1. rewrite is_prepared_set_dev; [reflexivity|].
    now intros []. }
  assert (Hq1 : queues st1 = queues st) by reflexivity.
  assert (Hp1 : async_pending st1 = async_pending st) by reflexivity.
  clearbody st1.
  destruct (no_pm_callbacks (pw st1 dev)).
  - cbn. repeat split; auto. intros d.
    rewrite is_prepared_set_dev; [apply H1 | now intros []].
  - destruct (snd (chain_callback prepare "" (devices st1 dev))) as [f|].
    + destruct (cb_result E (klog st1) f dev <? 0)%Z; cbn; repeat split; auto.
      intros d. rewrite is_prepared_set_dev; [|now intros []].
      apply (H1 d).
    + cbn. repeat split; auto. intros d.
      rewrite is_prepared_set_dev; [apply H1 | now intros []].
Qed.

(** What device_prepare makes of the value its callback returned. *)
Lemma device_prepare_result dev state st :
  exists evs,
    klog (snd (device_prepare E dev state st)) = evs ++ klog st
    /\ forall f d ret,
         In (ev_call f d ret) evs ->
         d = dev
         /\ ((ret < 0)%Z -> fst (device_prepare E dev state st) = ret)
         /\ ((0 <= ret)%Z ->
             fst (device_prepare E dev state st) = 0%Z
             /\ direct_complete (pw (snd (device_prepare E dev state st)) dev)
                = (0 <? ret)%Z && is_suspend_event state).
Proof.
  unfold device_prepare, is_suspend_event.
  destruct (syscore (pw st dev)); [exists []; split; [reflexivity | intros ? ? ? []]|].
  set (st1 := set_dev dev _ (log_event _ st)).
  assert (Hl1 : klog st1 = ev_runtime_pm PM_RUNTIME_GET_NORESUME dev :: klog st)
    by reflexivity.
  clearbody st1.
  destruct (no_pm_callbacks (pw st1 dev)).
  - cbn. exists [ev_runtime_pm PM_RUNTIME_GET_NORESUME dev]. split; [now rewrite Hl1|].
    intros f d ret [H|[]]. discriminate.
  - destruct (snd (chain_callback prepare "" (devices st1 dev))) as [f|].
    + set (ret := cb_result E (klog st1) f dev).
      destruct (Z.ltb_spec ret 0) as [Hneg|Hpos]; cbn.
      * exists [ev_runtime_pm PM_RUNTIME_PUT dev; ev_call f dev ret;
                ev_runtime_pm PM_RUNTIME_GET_NORESUME dev].
        split; [now rewrite Hl1|].
        intros f' d r [H|[H|[H|[]]]]; try discriminate.
        injection H as <- <- <-. split; [reflexivity|]. split; [reflexivity | lia].
      * exists [ev_call f dev ret; ev_runtime_pm PM_RUNTIME_GET_NORESUME dev].
        split; [now rewrite Hl1|].
        intros f' d r [H|[H|[]]]; try discriminate.
        injection H as <- <- <-. split; [reflexivity|]. split; [lia|].
        intros _. split; [reflexivity|]. rewrite pw_set_dev_same.
        now destruct (pw _ dev).
    + cbn. exists [ev_runtime_pm PM_RUNTIME_GET_NORESUME dev]. split; [now rewrite Hl1|].
      intros f d ret [H|[]]. discriminate.
Qed.

Lemma dpm_prepare_device_frame dev state st :
  async_pending st = [] ->
  queues (snd (dpm_prepare_device E dev state st)) = queues st
  /\ forall d, is_prepared (pw (snd (dpm_prepare_device E dev state st)) d)
               = is_prepared (pw st d).
Proof.
  intros Hp. unfold dpm_prepare_device. cbn zeta.
  rewrite (mutex_unlock_idle E st Hp).
  destruct (device_prepare_frame dev state
              (log_event (ev_trace_device_pm_callback_start dev "" (event state)) st))
    as (Hq & _ & Hf).
  destruct (device_prepare E dev state _) as [err st1]. cbn in *.
  split; [exact Hq | exact Hf].
Qed.

(** C10.  A turn of the loop of dpm_prepare on the first device of dpm_list:
    when device_prepare returned -EAGAIN the loop goes on from the state the
    call left, in which (nothing being queued) the lists and the is_prepared
    flags are as before; another error ends the loop, which returns it, and
    dpm_prepare returns what the loop returns; on 0 the device is marked
    prepared and moved to dpm_prepared_list.  In device_prepare a negative
    value of the callback is returned, and a value that is not negative
    gives 0, with direct_complete set when the value is positive and the
    event is PM_EVENT_SUSPEND. *)
Theorem prepare_retries_on_eagain :
  forall (dev : dev_id) (state : pm_message_t) (fuel : nat) (st : pm_state),
    first_entry (dpm_list st) = Some dev ->
    (fst (dpm_prepare_device E dev state st) = (- EAGAIN)%Z ->
     dpm_prepare_loop E (S fuel) state st
     = dpm_prepare_loop E fuel state (snd (dpm_prepare_device E dev state st)))
    /\ (async_pending st = [] ->
        queues (snd (dpm_prepare_device E dev state st)) = queues st
        /\ forall d, is_prepared (pw (snd (dpm_prepare_device E dev state st)) d)
                     = is_prepared (pw st d))
    /\ (fst (dpm_prepare_device E dev state st) <> 0%Z ->
        fst (dpm_prepare_device E dev state st) <> (- EAGAIN)%Z ->
        dpm_prepare_loop E (S fuel) state st
        = Some (fst (dpm_prepare_device E dev state st),
                dpm_save_failed_dev
                  (dev_name (devices (snd (dpm_prepare_device E dev state st)) dev))
                  (snd (dpm_prepare_device E dev state st))))
    /\ (fst (dpm_prepare_device E dev state st) = 0%Z ->
        dpm_prepare_loop E (S fuel) state st
        = dpm_prepare_loop E fuel state
            (move_tail_linked dev DPM_PREPARED_LIST
               (set_dev dev (set_is_prepared true)
                  (snd (dpm_prepare_device E dev state st)))))
    /\ option_map fst (dpm_prepare E fuel state st)
       = option_map fst (dpm_prepare_loop E fuel state (dpm_prepare_entry state st))
    /\ exists evs,
         klog (snd (device_prepare E dev state st)) = evs ++ klog st
         /\ forall f d ret,
              In (ev_call f d ret) evs ->
              d = dev
              /\ ((ret < 0)%Z -> fst (device_prepare E dev state st) = ret)
              /\ ((0 <= ret)%Z ->
                  fst (device_prepare E dev state st) = 0%Z
                  /\ direct_complete (pw (snd (device_prepare E dev state st)) dev)
                     = (0 <? ret)%Z && is_suspend_event state).
Proof.
  intros dev state fuel st Hfirst.
  split; [|split; [|split; [|split; [|split]]]].
  - cbn [dpm_prepare_loop]. rewrite Hfirst.
    destruct (dpm_prepare_device E dev state st) as [err st1]. cbn [fst snd].
    intros ->. reflexivity.
  - apply dpm_prepare_device_frame.
  - cbn [dpm_prepare_loop]. rewrite Hfirst.
    destruct (dpm_prepare_device E dev state st) as [err st1]. cbn [fst snd].
    intros H0 Hne. apply Z.eqb_neq in H0, Hne. now rewrite H0, Hne.
  - cbn [dpm_prepare_loop]. rewrite Hfirst.
    destruct (dpm_prepare_device E dev state st) as [err st1]. cbn [fst snd].
    intros ->. reflexivity.
  - unfold dpm_prepare, dpm_prepare_entry. cbn zeta.
    destruct (dpm_prepare_loop E fuel state _) as [[err st1]|]; reflexivity.
  - apply device_prepare_result.
Qed.

End PreparePhase.

(** ** The order in which the drains take the devices (C8) *)

Lemma same_lists_refl st : same_lists st st.
Proof. reflexivity. Qed.

Lemma same_lists_trans st1 st2 st3 :
  same_lists st1 st2 -> same_lists st2 st3 -> same_lists st1 st3.
Proof. unfold same_lists. congruence. Qed.

Lemma last_fresh (dev : dev_id) l : NoDup (l ++ [dev]) -> ~ In dev l.
Proof. intros H. apply NoDup_remove in H. rewrite app_nil_r in H. tauto. Qed.

Lemma head_fresh (dev : dev_id) l : NoDup (dev :: l) -> ~ In dev l.
Proof. intros H. now inversion H. Qed.

Lemma move_linked_src dev h src l st :
  list_head_eqb src h = false -> queues st src = l ++ [dev] -> ~ In dev l ->
  queues (move_linked dev h st) src = l.
Proof.
  intros Hne Hq Hn. unfold move_linked.
  rewrite (entry_linked_In dev src st) by (rewrite Hq; apply in_or_app; right; now left).
  unfold list_move, list_add, list_del, set_queue. cbn. rewrite Hne, Hq.
  now apply list_remove_last.
Qed.

Lemma list_move_tail_src dev h src l st :
  list_head_eqb src h = false -> queues st src = dev :: l -> ~ In dev l ->
  queues (list_move_tail dev h st) src = l.
Proof.
  intros Hne Hq Hn. unfold list_move_tail, list_add_tail, list_del, set_queue. cbn.
  rewrite Hne, Hq, list_remove_head. now apply list_remove_not_In.
Qed.

Section DrainOrder.

Variable src : list_head.

Section Tail.

Variable turn : dev_id -> pm_state -> Z * pm_state * bool.

Hypothesis turn_lists :
  forall dev l st,
    queues st src = l ++ [dev] -> NoDup (l ++ [dev]) ->
    (snd (turn dev st) = false -> queues (snd (fst (turn dev st))) src = l)
    /\ (snd (turn dev st) = true ->
        fst (fst (turn dev st)) <> 0%Z
        \/ async_error (snd (fst (turn dev st))) <> 0%Z).

Lemma drain_tail_order fuel st :
  (List.length (queues st src) <= fuel)%nat ->
  NoDup (queues st src) ->
  took_from_tail (queues st src) (drain_tail_takes src turn fuel st)
    (drain_tail src turn fuel st).
Proof.
  revert st. induction fuel as [|fuel IH]; intros st Hlen Hnd.
  - apply first_entry_length_0 in Hlen. exists [], []. cbn.
    rewrite Hlen. repeat split; auto.
  - cbn [drain_tail drain_tail_takes].
    destruct (last_entry (queues st src)) as [dev|] eqn:Hlast.
    2:{ apply last_entry_None in Hlast. exists [], []. cbn.
        rewrite Hlast. repeat split; auto. }
    destruct (last_entry_Some _ _ Hlast) as [l Hl].
    rewrite Hl in Hnd.
    destruct (turn_lists dev l st Hl Hnd) as (Hq & Hstop).
    destruct (turn dev st) as [[err st1] stop]. cbn [fst snd] in *.
    destruct stop.
    + exists l, [dev]. cbn [fst snd]. split; [exact Hl|]. split; [reflexivity|].
      split; [discriminate|].
      intros He Ha. destruct (Hstop eq_refl); contradiction.
    + specialize (Hq eq_refl).
      apply NoDup_remove in Hnd. rewrite app_nil_r in Hnd. destruct Hnd as [Hnd _].
      destruct (IH st1) as (kept & taken & Hq2 & Htk & _ & Hz).
      { rewrite Hq. rewrite Hl, length_app in Hlen. cbn in Hlen. lia. }
      { now rewrite Hq. }
      exists kept, (taken ++ [dev]). split; [|split; [|split]].
      * now rewrite Hl, <- Hq, Hq2, app_assoc.
      * rewrite rev_app_distr. cbn. now rewrite Htk.
      * intros _ H. now destruct taken.
      * exact Hz.
Qed.

Variable dest : list_head.

Hypothesis turn_dest :
  forall dev l st,
    queues st src = l ++ [dev] -> NoDup (l ++ [dev]) -> ~ In dev (queues st dest) ->
    snd (turn dev st) = false ->
    queues (snd (fst (turn dev st))) dest = dev :: queues st dest.

(** A drain that succeeded has put the whole list, in its order, in front
    of the list it fills. *)
Lemma drain_tail_dest fuel st :
  (List.length (queues st src) <= fuel)%nat ->
  NoDup (queues st src) ->
  (forall d, In d (queues st src) -> ~ In d (queues st dest)) ->
  fst (drain_tail src turn fuel st) = 0%Z ->
  async_error (snd (drain_tail src turn fuel st)) = 0%Z ->
  queues (snd (drain_tail src turn fuel st)) src = []
  /\ queues (snd (drain_tail src turn fuel st)) dest = queues st src ++ queues st dest.
Proof.
  revert st. induction fuel as [|fuel IH]; intros st Hlen Hnd Hdis.
  - apply first_entry_length_0 in Hlen. cbn. now rewrite Hlen.
  - cbn [drain_tail].
    destruct (last_entry (queues st src)) as [dev|] eqn:Hlast.
    2:{ apply last_entry_None in Hlast. cbn. now rewrite Hlast. }
    destruct (last_entry_Some _ _ Hlast) as [l Hl].
    pose proof Hnd as Hnd'. rewrite Hl in Hnd'.
    destruct (turn_lists dev l st Hl Hnd') as (Hq & Hstop).
    assert (Hfresh : ~ In dev (queues st dest)).
    { apply Hdis. rewrite Hl. apply in_or_app. right. now left. }
    pose proof (turn_dest dev l st Hl Hnd' Hfresh) as Hd.
    destruct (turn dev st) as [[err st1] stop]. cbn [fst snd] in *.
    destruct stop.
    + cbn [fst snd]. intros He Ha. destruct (Hstop eq_refl); contradiction.
    + specialize (Hq eq_refl). specialize (Hd eq_refl).
      pose proof (last_fresh dev l Hnd') as Hnl.
      apply NoDup_remove in Hnd'. rewrite app_nil_r in Hnd'. destruct Hnd' as [Hndl _].
      intros He Ha.
      destruct (IH st1) as (Hnil & Hfin); auto.
      { rewrite Hq. rewrite Hl, length_app in Hlen. cbn in Hlen. lia. }
      { now rewrite Hq. }
      { intros d Hin. rewrite Hq in Hin. rewrite Hd. intros [<-|Hin'].
        - contradiction.
        - apply (Hdis d); [|exact Hin']. rewrite Hl. apply in_or_app. now left. }
      split; [exact Hnil|]. rewrite Hfin, Hq, Hd, Hl. now rewrite <- app_assoc.
Qed.

End Tail.

Section Head.

Variable turn : dev_id -> pm_state -> pm_state.

Hypothesis turn_lists :
  forall dev l st,
    queues st src = dev :: l -> NoDup (dev :: l) -> queues (turn dev st) src = l.

Lemma drain_head_order fuel st :
  (List.length (queues st src) <= fuel)%nat ->
  NoDup (queues st src) ->
  drain_head_takes src turn fuel st = queues st src
  /\ queues (drain_head src turn fuel st) src = [].
Proof.
  revert st. induction fuel as [|fuel IH]; intros st Hlen Hnd.
  - apply first_entry_length_0 in Hlen. cbn. now rewrite Hlen.
  - cbn [drain_head drain_head_takes].
    destruct (queues st src) as [|dev l] eqn:Hl; cbn [first_entry].
    { now rewrite Hl. }
    pose proof (turn_lists dev l st Hl Hnd) as Hq.
    destruct (IH (turn dev st)) as (Ht2 & Hnil).
    { rewrite Hq. cbn in Hlen. lia. }
    { rewrite Hq. now inversion Hnd. }
    split; [|exact Hnil]. now rewrite Ht2, Hq.
Qed.

Variable dest : list_head.

Hypothesis turn_dest :
  forall dev l st,
    queues st src = dev :: l -> NoDup (dev :: l) -> ~ In dev (queues st dest) ->
    queues (turn dev st) dest = queues st dest ++ [dev].

(** A resume drain has put the whole list, in its order, behind the list
    it fills. *)
Lemma drain_head_dest fuel st :
  (List.length (queues st src) <= fuel)%nat ->
  NoDup (queues st src) ->
  (forall d, In d (queues st src) -> ~ In d (queues st dest)) ->
  queues (drain_head src turn fuel st) dest = queues st dest ++ queues st src.
Proof.
  revert st. induction fuel as [|fuel IH]; intros st Hlen Hnd Hdis.
  - apply first_entry_length_0 in Hlen. cbn. now rewrite Hlen, app_nil_r.
  - cbn [drain_head].
    destruct (queues st src) as [|dev l] eqn:Hl; cbn [first_entry];
      [now rewrite app_nil_r|].
    pose proof (turn_lists dev l st Hl Hnd) as Hq.
    assert (Hfresh : ~ In dev (queues st dest)) by (apply Hdis; now left).
    pose proof (turn_dest dev l st Hl Hnd Hfresh) as Hd.
    rewrite IH.
    + rewrite Hq, Hd. now rewrite <- app_assoc.
    + rewrite Hq. cbn in Hlen. lia.
    + rewrite Hq. now inversion Hnd.
    + intros d Hin. rewrite Hq in Hin. rewrite Hd. intros Hin'.
      apply in_app_or in Hin'. destruct Hin' as [Hin'|[<-|[]]].
      * apply (Hdis d); [now right | exact Hin'].
      * inversion Hnd. contradiction.
Qed.

End Head.

End DrainOrder.

Section Order.

Variable E : environment.

Lemma dpm_suspend_loop_eq state fuel st :
  dpm_suspend_loop E fuel state st
  = drain_tail DPM_PREPARED_LIST (dpm_suspend_turn E state) fuel st.
Proof.
  revert st. induction fuel as [|fuel IH]; intros st; [reflexivity|].
  cbn. unfold dpm_prepared_list.
  destruct (last_entry (queues st DPM_PREPARED_LIST)) as [dev|]; [|reflexivity].
  unfold dpm_suspend_turn, move_linked. cbn zeta.
  destruct (device_suspend E dev (mutex_unlock E st)) as [err st1]. cbn [fst snd].
  destruct (negb (err =? 0)%Z); [reflexivity|].
  destruct (negb (async_error _ =? 0)%Z); [reflexivity | apply IH].
Qed.

Lemma dpm_suspend_late_loop_eq state fuel st :
  dpm_suspend_late_loop E fuel state st
  = drain_tail DPM_SUSPENDED_LIST (dpm_suspend_late_turn E state) fuel st.
Proof.
  revert st. induction fuel as [|fuel IH]; intros st; [reflexivity|].
  cbn. unfold dpm_suspended_list.
  destruct (last_entry (queues st DPM_SUSPENDED_LIST)) as [dev|]; [|reflexivity].
  unfold dpm_suspend_late_turn, move_linked. cbn zeta.
  destruct (device_suspend_late E dev (mutex_unlock E st)) as [err st1]. cbn [fst snd].
  destruct (negb (err =? 0)%Z); [reflexivity|].
  destruct (negb (async_error _ =? 0)%Z); [reflexivity | apply IH].
Qed.

Lemma dpm_noirq_suspend_loop_eq state fuel st :
  dpm_noirq_suspend_loop E fuel state st
  = drain_tail DPM_LATE_EARLY_LIST (dpm_noirq_suspend_turn E state) fuel st.
Proof.
  revert st. induction fuel as [|fuel IH]; intros st; [reflexivity|].
  cbn. unfold dpm_late_early_list.
  destruct (last_entry (queues st DPM_LATE_EARLY_LIST)) as [dev|]; [|reflexivity].
  unfold dpm_noirq_suspend_turn, move_linked. cbn zeta.
  destruct (device_suspend_noirq E dev (mutex_unlock E st)) as [err st1]. cbn [fst snd].
  destruct (negb (err =? 0)%Z); [reflexivity|].
  destruct (negb (async_error _ =? 0)%Z); [reflexivity | apply IH].
Qed.

(** The pool and the per-device functions leave the lists alone. *)
Lemma run_entry_same_lists i t st :
  nth_error (async_pending st) i = Some t -> same_lists st (run_entry E i t st).
Proof. intros _. apply run_entry_calm. Qed.

Lemma device_step_same_lists dev err evs st st' :
  device_step dev err evs st st' -> same_lists st st'.
Proof. intros H. apply (step_queues H). Qed.

Lemma mutex_unlock_lists st : queues (mutex_unlock E st) = queues st.
Proof. apply mutex_unlock_calm. Qed.

Lemma async_schedule_lists func dev st :
  queues (async_schedule E func dev st) = queues st.
Proof. apply async_schedule_calm. Qed.

Lemma device_suspend_lists dev st : queues (snd (device_suspend E dev st)) = queues st.
Proof.
  unfold device_suspend. cbn zeta.
  destruct (is_async E dev _); cbn [snd]; [now rewrite async_schedule_lists|].
  now rewrite (device_suspend_closed_main E same_lists same_lists_refl same_lists_trans
                 run_entry_same_lists device_step_same_lists).
Qed.

Lemma device_suspend_late_lists dev st :
  queues (snd (device_suspend_late E dev st)) = queues st.
Proof.
  unfold device_suspend_late. cbn zeta.
  destruct (is_async E dev _); cbn [snd]; [now rewrite async_schedule_lists|].
  now rewrite (device_suspend_late_closed_main E same_lists same_lists_refl
                 same_lists_trans run_entry_same_lists device_step_same_lists).
Qed.

Lemma device_suspend_noirq_lists dev st :
  queues (snd (device_suspend_noirq E dev st)) = queues st.
Proof.
  unfold device_suspend_noirq. cbn zeta.
  destruct (is_async E dev _); cbn [snd]; [now rewrite async_schedule_lists|].
  now rewrite (device_suspend_noirq_closed_main E same_lists same_lists_refl
                 same_lists_trans run_entry_same_lists device_step_same_lists).
Qed.

Lemma note_resume_failure_lists inc step info dev state err st :
  counts inc -> queues (note_resume_failure inc step info dev state err st) = queues st.
Proof. intros C. apply (note_resume_failure_calm inc step info dev state err st C). Qed.

(** A turn that moves the device when the call succeeded. *)
Lemma move_on_success_lists dev h src l info state st (r : Z * pm_state) :
  list_head_eqb src h = false ->
  queues st src = l ++ [dev] -> NoDup (l ++ [dev]) ->
  queues (snd r) = queues st ->
  let t :=
    if negb (fst r =? 0)%Z then
      (fst r,
       dpm_save_failed_dev (dev_name (devices (snd r) dev))
         (log_event (ev_pm_dev_err dev state info (fst r)) (snd r)),
       true)
    else
      (fst r, move_linked dev h (snd r),
       negb (async_error (move_linked dev h (snd r)) =? 0)%Z) in
  (snd t = false -> queues (snd (fst t)) src = l)
  /\ (snd t = true -> fst (fst t) <> 0%Z \/ async_error (snd (fst t)) <> 0%Z).
Proof.
  intros Hne Hq Hnd Hq1. destruct r as [err st1]. cbn [fst snd] in *.
  pose proof (last_fresh dev l Hnd) as Hn.
  destruct (Z.eqb_spec err 0) as [->|Herr]; cbn [negb fst snd].
  - split.
    + intros _. apply move_linked_src; auto. now rewrite Hq1.
    + intros Hs. right. apply negb_true_iff, Z.eqb_neq in Hs. exact Hs.
  - split; [discriminate | intros _; now left].
Qed.

Lemma dpm_suspend_turn_lists state dev l st :
  queues st DPM_PREPARED_LIST = l ++ [dev] -> NoDup (l ++ [dev]) ->
  (snd (dpm_suspend_turn E state dev st) = false ->
   queues (snd (fst (dpm_suspend_turn E state dev st))) DPM_PREPARED_LIST = l)
  /\ (snd (dpm_suspend_turn E state dev st) = true ->
      fst (fst (dpm_suspend_turn E state dev st)) <> 0%Z
      \/ async_error (snd (fst (dpm_suspend_turn E state dev st))) <> 0%Z).
Proof.
  intros Hq Hnd. unfold dpm_suspend_turn. cbn zeta.
  apply (move_on_success_lists dev DPM_SUSPENDED_LIST DPM_PREPARED_LIST l "" state st
           (device_suspend E dev (mutex_unlock E st)) eq_refl Hq Hnd).
  now rewrite device_suspend_lists, mutex_unlock_lists.
Qed.

Lemma dpm_noirq_suspend_turn_lists state dev l st :
  queues st DPM_LATE_EARLY_LIST = l ++ [dev] -> NoDup (l ++ [dev]) ->
  (snd (dpm_noirq_suspend_turn E state dev st) = false ->
   queues (snd (fst (dpm_noirq_suspend_turn E state dev st))) DPM_LATE_EARLY_LIST = l)
  /\ (snd (dpm_noirq_suspend_turn E state dev st) = true ->
      fst (fst (dpm_noirq_suspend_turn E state dev st)) <> 0%Z
      \/ async_error (snd (fst (dpm_noirq_suspend_turn E state dev st))) <> 0%Z).
Proof.
  intros Hq Hnd. unfold dpm_noirq_suspend_turn. cbn zeta.
  apply (move_on_success_lists dev DPM_NOIRQ_LIST DPM_LATE_EARLY_LIST l " noirq" state st
           (device_suspend_noirq E dev (mutex_unlock E st)) eq_refl Hq Hnd).
  now rewrite device_suspend_noirq_lists, mutex_unlock_lists.
Qed.

Lemma dpm_suspend_late_turn_lists state dev l st :
  queues st DPM_SUSPENDED_LIST = l ++ [dev] -> NoDup (l ++ [dev]) ->
  (snd (dpm_suspend_late_turn E state dev st) = false ->
   queues (snd (fst (dpm_suspend_late_turn E state dev st))) DPM_SUSPENDED_LIST = l)
  /\ (snd (dpm_suspend_late_turn E state dev st) = true ->
      fst (fst (dpm_suspend_late_turn E state dev st)) <> 0%Z
      \/ async_error (snd (fst (dpm_suspend_late_turn E state dev st))) <> 0%Z).
Proof.
  intros Hq Hnd. unfold dpm_suspend_late_turn. cbn zeta.
  pose proof (device_suspend_late_lists dev (mutex_unlock E st)) as Hq1.
  rewrite mutex_unlock_lists in Hq1.
  destruct (device_suspend_late E dev (mutex_unlock E st)) as [err st1].
  cbn [fst snd] in *.
  pose proof (move_linked_src dev DPM_LATE_EARLY_LIST DPM_SUSPENDED_LIST l st1 eq_refl)
    as Hq2.
  destruct (Z.eqb_spec err 0) as [->|Herr]; cbn [negb fst snd].
  - split.
    + intros _. apply Hq2; [now rewrite Hq1 | now apply last_fresh].
    + intros Hs. right. apply negb_true_iff, Z.eqb_neq in Hs. exact Hs.
  - split; [discriminate | intros _; now left].
Qed.

Lemma dpm_noirq_resume_turn_lists state dev l st :
  queues st DPM_NOIRQ_LIST = dev :: l -> NoDup (dev :: l) ->
  queues (dpm_noirq_resume_turn E state dev st) DPM_NOIRQ_LIST = l.
Proof.
  intros Hq Hnd. unfold dpm_noirq_resume_turn. cbn zeta.
  pose proof (list_move_tail_src dev DPM_LATE_EARLY_LIST DPM_NOIRQ_LIST l st eq_refl Hq
                (head_fresh dev l Hnd)) as Hq1.
  set (st1 := mutex_unlock E (list_move_tail dev DPM_LATE_EARLY_LIST st)).
  assert (Hq2 : queues st1 DPM_NOIRQ_LIST = l)
    by (subst st1; now rewrite mutex_unlock_lists).
  destruct (negb (is_async E dev st1)); [|exact Hq2].
  rewrite (note_resume_failure_lists _ _ _ _ _ _ _ counts_resume_noirq).
  now rewrite (device_resume_noirq_closed E same_lists same_lists_refl same_lists_trans
                 run_entry_same_lists device_step_same_lists).
Qed.

Lemma dpm_resume_early_turn_lists state dev l st :
  queues st DPM_LATE_EARLY_LIST = dev :: l -> NoDup (dev :: l) ->
  queues (dpm_resume_early_turn E state dev st) DPM_LATE_EARLY_LIST = l.
Proof.
  intros Hq Hnd. unfold dpm_resume_early_turn. cbn zeta.
  pose proof (list_move_tail_src dev DPM_SUSPENDED_LIST DPM_LATE_EARLY_LIST l st eq_refl Hq
                (head_fresh dev l Hnd)) as Hq1.
  set (st1 := mutex_unlock E (list_move_tail dev DPM_SUSPENDED_LIST st)).
  assert (Hq2 : queues st1 DPM_LATE_EARLY_LIST = l)
    by (subst st1; now rewrite mutex_unlock_lists).
  destruct (negb (is_async E dev st1)); [|exact Hq2].
  rewrite (note_resume_failure_lists _ _ _ _ _ _ _ counts_resume_early).
  now rewrite (device_resume_early_closed E same_lists same_lists_refl same_lists_trans
                 run_entry_same_lists device_step_same_lists).
Qed.

Lemma dpm_resume_turn_lists state dev l st :
  queues st DPM_SUSPENDED_LIST = dev :: l -> NoDup (dev :: l) ->
  queues (dpm_resume_turn E state dev st) DPM_SUSPENDED_LIST = l.
Proof.
  intros Hq Hnd. unfold dpm_resume_turn. cbn zeta.
  match goal with
  | |- context [entry_linked dev ?s] => set (st2 := s)
  end.
  assert (Hq2 : queues st2 = queues st).
  { subst st2. destruct (negb (is_async E dev st)); [|reflexivity].
    rewrite (note_resume_failure_lists _ _ _ _ _ _ _ counts_resume).
    rewrite (device_resume_closed E same_lists same_lists_refl same_lists_trans
               run_entry_same_lists device_step_same_lists).
    apply mutex_unlock_lists. }
  rewrite (entry_linked_In dev DPM_SUSPENDED_LIST st2) by (rewrite Hq2, Hq; now left).
  apply list_move_tail_src; [reflexivity | now rewrite Hq2 | now apply head_fresh].
Qed.

Lemma list_head_eqb_refl h : list_head_eqb h h = true.
Proof. now destruct h. Qed.

Lemma move_linked_dest dev h src l st :
  queues st src = l ++ [dev] -> ~ In dev (queues st h) ->
  queues (move_linked dev h st) h = dev :: queues st h.
Proof.
  intros Hq Hn. unfold move_linked.
  rewrite (entry_linked_In dev src st) by (rewrite Hq; apply in_or_app; right; now left).
  unfold list_move, list_add, list_del, set_queue. cbn. rewrite list_head_eqb_refl.
  now rewrite list_remove_not_In.
Qed.

Lemma list_move_tail_dest dev h st :
  ~ In dev (queues st h) ->
  queues (list_move_tail dev h st) h = queues st h ++ [dev].
Proof.
  intros Hn. unfold list_move_tail, list_add_tail, list_del, set_queue. cbn.
  rewrite list_head_eqb_refl. now rewrite list_remove_not_In.
Qed.

Lemma dpm_suspend_turn_dest state dev l st :
  queues st DPM_PREPARED_LIST = l ++ [dev] -> NoDup (l ++ [dev]) ->
  ~ In dev (queues st DPM_SUSPENDED_LIST) ->
  snd (dpm_suspend_turn E state dev st) = false ->
  queues (snd (fst (dpm_suspend_turn E state dev st))) DPM_SUSPENDED_LIST
  = dev :: queues st DPM_SUSPENDED_LIST.
Proof.
  intros Hq Hnd Hn. unfold dpm_suspend_turn. cbn zeta.
  pose proof (device_suspend_lists dev (mutex_unlock E st)) as Hq1.
  rewrite mutex_unlock_lists in Hq1.
  destruct (device_suspend E dev (mutex_unlock E st)) as [err st1]. cbn [fst snd] in *.
  destruct (negb (err =? 0)%Z); cbn [fst snd]; [discriminate|].
  intros _. rewrite <- Hq1.
  apply (move_linked_dest dev DPM_SUSPENDED_LIST DPM_PREPARED_LIST l); now rewrite Hq1.
Qed.

Lemma dpm_suspend_late_turn_dest state dev l st :
  queues st DPM_SUSPENDED_LIST = l ++ [dev] -> NoDup (l ++ [dev]) ->
  ~ In dev (queues st DPM_LATE_EARLY_LIST) ->
  snd (dpm_suspend_late_turn E state dev st) = false ->
  queues (snd (fst (dpm_suspend_late_turn E state dev st))) DPM_LATE_EARLY_LIST
  = dev :: queues st DPM_LATE_EARLY_LIST.
Proof.
  intros Hq Hnd Hn. unfold dpm_suspend_late_turn. cbn zeta.
  pose proof (device_suspend_late_lists dev (mutex_unlock E st)) as Hq1.
  rewrite mutex_unlock_lists in Hq1.
  destruct (device_suspend_late E dev (mutex_unlock E st)) as [err st1].
  cbn [fst snd] in *.
  destruct (negb (err =? 0)%Z); cbn [fst snd]; [discriminate|].
  intros _. rewrite <- Hq1.
  apply (move_linked_dest dev DPM_LATE_EARLY_LIST DPM_SUSPENDED_LIST l); now rewrite Hq1.
Qed.

Lemma dpm_noirq_suspend_turn_dest state dev l st :
  queues st DPM_LATE_EARLY_LIST = l ++ [dev] -> NoDup (l ++ [dev]) ->
  ~ In dev (queues st DPM_NOIRQ_LIST) ->
  snd (dpm_noirq_suspend_turn E state dev st) = false ->
  queues (snd (fst (dpm_noirq_suspend_turn E state dev st))) DPM_NOIRQ_LIST
  = dev :: queues st DPM_NOIRQ_LIST.
Proof.
  intros Hq Hnd Hn. unfold dpm_noirq_suspend_turn. cbn zeta.
  pose proof (device_suspend_noirq_lists dev (mutex_unlock E st)) as Hq1.
  rewrite mutex_unlock_lists in Hq1.
  destruct (device_suspend_noirq E dev (mutex_unlock E st)) as [err st1].
  cbn [fst snd] in *.
  destruct (negb (err =? 0)%Z); cbn [fst snd]; [discriminate|].
  intros _. rewrite <- Hq1.
  apply (move_linked_dest dev DPM_NOIRQ_LIST DPM_LATE_EARLY_LIST l); now rewrite Hq1.
Qed.

Lemma dpm_noirq_resume_turn_dest state dev l st :
  queues st DPM_NOIRQ_LIST = dev :: l -> NoDup (dev :: l) ->
  ~ In dev (queues st DPM_LATE_EARLY_LIST) ->
  queues (dpm_noirq_resume_turn E state dev st) DPM_LATE_EARLY_LIST
  = queues st DPM_LATE_EARLY_LIST ++ [dev].
Proof.
  intros Hq Hnd Hn. unfold dpm_noirq_resume_turn. cbn zeta.
  pose proof (list_move_tail_dest dev DPM_LATE_EARLY_LIST st Hn) as Hq1.
  set (st1 := mutex_unlock E (list_move_tail dev DPM_LATE_EARLY_LIST st)).
  assert (Hq2 : queues st1 DPM_LATE_EARLY_LIST = queues st DPM_LATE_EARLY_LIST ++ [dev])
    by (subst st1; now rewrite mutex_unlock_lists).
  destruct (negb (is_async E dev st1)); [|exact Hq2].
  rewrite (note_resume_failure_lists _ _ _ _ _ _ _ counts_resume_noirq).
  now rewrite (device_resume_noirq_closed E same_lists same_lists_refl same_lists_trans
                 run_entry_same_lists device_step_same_lists).
Qed.

Lemma dpm_resume_early_turn_dest state dev l st :
  queues st DPM_LATE_EARLY_LIST = dev :: l -> NoDup (dev :: l) ->
  ~ In dev (queues st DPM_SUSPENDED_LIST) ->
  queues (dpm_resume_early_turn E state dev st) DPM_SUSPENDED_LIST
  = queues st DPM_SUSPENDED_LIST ++ [dev].
Proof.
  intros Hq Hnd Hn. unfold dpm_resume_early_turn. cbn zeta.
  pose proof (list_move_tail_dest dev DPM_SUSPENDED_LIST st Hn) as Hq1.
  set (st1 := mutex_unlock E (list_move_tail dev DPM_SUSPENDED_LIST st)).
  assert (Hq2 : queues st1 DPM_SUSPENDED_LIST = queues st DPM_SUSPENDED_LIST ++ [dev])
    by (subst st1; now rewrite mutex_unlock_lists).
  destruct (negb (is_async E dev st1)); [|exact Hq2].
  rewrite (note_resume_failure_lists _ _ _ _ _ _ _ counts_resume_early).
  now rewrite (device_resume_early_closed E same_lists same_lists_refl same_lists_trans
                 run_entry_same_lists device_step_same_lists).
Qed.

Lemma dpm_resume_turn_dest state dev l st :
  queues st DPM_SUSPENDED_LIST = dev :: l -> NoDup (dev :: l) ->
  ~ In dev (queues st DPM_PREPARED_LIST) ->
  queues (dpm_resume_turn E state dev st) DPM_PREPARED_LIST
  = queues st DPM_PREPARED_LIST ++ [dev].
Proof.
  intros Hq Hnd Hn. unfold dpm_resume_turn. cbn zeta.
  match goal with
  | |- context [entry_linked dev ?s] => set (st2 := s)
  end.
  assert (Hq2 : queues st2 = queues st).
  { subst st2. destruct (negb (is_async E dev st)); [|reflexivity].
    rewrite (note_resume_failure_lists _ _ _ _ _ _ _ counts_resume).
    rewrite (device_resume_closed E same_lists same_lists_refl same_lists_trans
               run_entry_same_lists device_step_same_lists).
    apply mutex_unlock_lists. }
  rewrite (entry_linked_In dev DPM_SUSPENDED_LIST st2) by (rewrite Hq2, Hq; now left).
  rewrite <- Hq2. apply list_move_tail_dest. now rewrite Hq2.
Qed.

(** The local list of dpm_complete receives the devices at its head, in the
    order in which they are taken. *)
Lemma dpm_complete_turn_lists state dev st h :
  queues (dpm_complete_turn E state dev st) h = list_remove dev (queues st h).
Proof. apply dpm_complete_turn_spec. Qed.

Lemma dpm_complete_loop_order fuel state local st :
  (List.length (dpm_prepared_list st) <= fuel)%nat ->
  NoDup (dpm_prepared_list st) ->
  fst (dpm_complete_loop E fuel state local st) = dpm_prepared_list st ++ local.
Proof.
  revert local st. induction fuel as [|fuel IH]; intros local st Hlen Hnd.
  - apply first_entry_length_0 in Hlen. cbn. now rewrite Hlen.
  - cbn [dpm_complete_loop].
    destruct (last_entry (dpm_prepared_list st)) as [dev|] eqn:Hlast.
    2:{ apply last_entry_None in Hlast. cbn [fst]. now rewrite Hlast. }
    fold (dpm_complete_turn E state dev st).
    destruct (last_entry_Some _ _ Hlast) as [l Hl].
    assert (Hq : dpm_prepared_list (dpm_complete_turn E state dev st) = l).
    { unfold dpm_prepared_list in *. rewrite dpm_complete_turn_lists, Hl.
      apply list_remove_last. apply last_fresh. now rewrite <- Hl. }
    rewrite IH.
    + now rewrite Hq, Hl, <- app_assoc.
    + rewrite Hq. rewrite Hl, length_app in Hlen. cbn in Hlen. lia.
    + rewrite Hq. rewrite Hl in Hnd. apply NoDup_remove in Hnd.
      rewrite app_nil_r in Hnd. tauto.
Qed.

(** C8, as the code has it.  Whether the devices are handled synchronously
    or handed to the pool, a drain takes them from its driving list in a
    fixed order.  The loops of dpm_suspend, dpm_suspend_late and
    dpm_noirq_suspend_devices take the last entry of their list at every
    turn: they go from the tail towards the head, take at least one device
    of a list that is not empty, and all of the list when they return 0 with
    async_error clear.  The loops of dpm_noirq_resume_devices,
    dpm_resume_early and dpm_resume take the first entry at every turn: they
    go from the head to the tail and take the whole list.  The loop of
    dpm_complete takes the last entry of dpm_prepared_list and puts it at
    the head of its local list, which ends up as the list was.  So the
    lists keep their order: a suspend drain that succeeded leaves its list
    empty and the list it fills holding the devices in the order they had,
    in front of what was there; a resume drain appends the devices, in
    their order, to the list it fills. *)
Theorem drains_follow_list_order :
  forall (state : pm_message_t) (fuel : nat) (st : pm_state),
    (dpm_suspend_loop E fuel state st
     = drain_tail DPM_PREPARED_LIST (dpm_suspend_turn E state) fuel st
     /\ ((List.length (dpm_prepared_list st) <= fuel)%nat ->
         NoDup (dpm_prepared_list st) ->
         took_from_tail (dpm_prepared_list st)
           (drain_tail_takes DPM_PREPARED_LIST (dpm_suspend_turn E state) fuel st)
           (dpm_suspend_loop E fuel state st)))
    /\ (dpm_suspend_late_loop E fuel state st
        = drain_tail DPM_SUSPENDED_LIST (dpm_suspend_late_turn E state) fuel st
        /\ ((List.length (dpm_suspended_list st) <= fuel)%nat ->
            NoDup (dpm_suspended_list st) ->
            took_from_tail (dpm_suspended_list st)
              (drain_tail_takes DPM_SUSPENDED_LIST (dpm_suspend_late_turn E state) fuel st)
              (dpm_suspend_late_loop E fuel state st)))
    /\ (dpm_noirq_suspend_loop E fuel state st
        = drain_tail DPM_LATE_EARLY_LIST (dpm_noirq_suspend_turn E state) fuel st
        /\ ((List.length (dpm_late_early_list st) <= fuel)%nat ->
            NoDup (dpm_late_early_list st) ->
            took_from_tail (dpm_late_early_list st)
              (drain_tail_takes DPM_LATE_EARLY_LIST (dpm_noirq_suspend_turn E state)
                 fuel st)
              (dpm_noirq_suspend_loop E fuel state st)))
    /\ (dpm_noirq_resume_loop E fuel state st
        = drain_head DPM_NOIRQ_LIST (dpm_noirq_resume_turn E state) fuel st
        /\ ((List.length (dpm_noirq_list st) <= fuel)%nat ->
            NoDup (dpm_noirq_list st) ->
            drain_head_takes DPM_NOIRQ_LIST (dpm_noirq_resume_turn E state) fuel st
            = dpm_noirq_list st
            /\ dpm_noirq_list (dpm_noirq_resume_loop E fuel state st) = []))
    /\ (dpm_resume_early_loop E fuel state st
        = drain_head DPM_LATE_EARLY_LIST (dpm_resume_early_turn E state) fuel st
        /\ ((List.length (dpm_late_early_list st) <= fuel)%nat ->
            NoDup (dpm_late_early_list st) ->
            drain_head_takes DPM_LATE_EARLY_LIST (dpm_resume_early_turn E state) fuel st
            = dpm_late_early_list st
            /\ dpm_late_early_list (dpm_resume_early_loop E fuel state st) = []))
    /\ (dpm_resume_loop E fuel state st
        = drain_head DPM_SUSPENDED_LIST (dpm_resume_turn E state) fuel st
        /\ ((List.length (dpm_suspended_list st) <= fuel)%nat ->
            NoDup (dpm_suspended_list st) ->
            drain_head_takes DPM_SUSPENDED_LIST (dpm_resume_turn E state) fuel st
            = dpm_suspended_list st
            /\ dpm_suspended_list (dpm_resume_loop E fuel state st) = []))
    /\ (forall (dev : dev_id) (local : list dev_id),
          last_entry (dpm_prepared_list st) = Some dev ->
          dpm_complete_loop E (S fuel) state local st
          = dpm_complete_loop E fuel state (dev :: local)
              (dpm_complete_turn E state dev st))
    /\ (forall local : list dev_id,
          (List.length (dpm_prepared_list st) <= fuel)%nat ->
          NoDup (dpm_prepared_list st) ->
          fst (dpm_complete_loop E fuel state local st) = dpm_prepared_list st ++ local)
    /\ ((List.length (dpm_prepared_list st) <= fuel)%nat ->
        NoDup (dpm_prepared_list st) ->
        (forall d, In d (dpm_prepared_list st) -> ~ In d (dpm_suspended_list st)) ->
        fst (dpm_suspend_loop E fuel state st) = 0%Z ->
        async_error (snd (dpm_suspend_loop E fuel state st)) = 0%Z ->
        dpm_prepared_list (snd (dpm_suspend_loop E fuel state st)) = []
        /\ dpm_suspended_list (snd (dpm_suspend_loop E fuel state st))
           = dpm_prepared_list st ++ dpm_suspended_list st)
    /\ ((List.length (dpm_suspended_list st) <= fuel)%nat ->
        NoDup (dpm_suspended_list st) ->
        (forall d, In d (dpm_suspended_list st) -> ~ In d (dpm_late_early_list st)) ->
        fst (dpm_suspend_late_loop E fuel state st) = 0%Z ->
        async_error (snd (dpm_suspend_late_loop E fuel state st)) = 0%Z ->
        dpm_suspended_list (snd (dpm_suspend_late_loop E fuel state st)) = []
        /\ dpm_late_early_list (snd (dpm_suspend_late_loop E fuel state st))
           = dpm_suspended_list st ++ dpm_late_early_list st)
    /\ ((List.length (dpm_late_early_list st) <= fuel)%nat ->
        NoDup (dpm_late_early_list st) ->
        (forall d, In d (dpm_late_early_list st) -> ~ In d (dpm_noirq_list st)) ->
        fst (dpm_noirq_suspend_loop E fuel state st) = 0%Z ->
        async_error (snd (dpm_noirq_suspend_loop E fuel state st)) = 0%Z ->
        dpm_late_early_list (snd (dpm_noirq_suspend_loop E fuel state st)) = []
        /\ dpm_noirq_list (snd (dpm_noirq_suspend_loop E fuel state st))
           = dpm_late_early_list st ++ dpm_noirq_list st)
    /\ ((List.length (dpm_noirq_list st) <= fuel)%nat ->
        NoDup (dpm_noirq_list st) ->
        (forall d, In d (dpm_noirq_list st) -> ~ In d (dpm_late_early_list st)) ->
        dpm_late_early_list (dpm_noirq_resume_loop E fuel state st)
        = dpm_late_early_list st ++ dpm_noirq_list st)
    /\ ((List.length (dpm_late_early_list st) <= fuel)%nat ->
        NoDup (dpm_late_early_list st) ->
        (forall d, In d (dpm_late_early_list st) -> ~ In d (dpm_suspended_list st)) ->
        dpm_suspended_list (dpm_resume_early_loop E fuel state st)
        = dpm_suspended_list st ++ dpm_late_early_list st)
    /\ ((List.length (dpm_suspended_list st) <= fuel)%nat ->
        NoDup (dpm_suspended_list st) ->
        (forall d, In d (dpm_suspended_list st) -> ~ In d (dpm_prepared_list st)) ->
        dpm_prepared_list (dpm_resume_loop E fuel state st)
        = dpm_prepared_list st ++ dpm_suspended_list st).
Proof.
  intros state fuel st.
  split; [|split; [|split; [|split; [|split; [|split; [|split; [|split; [|split;
    [|split; [|split; [|split; [|split]]]]]]]]]]]].
  - split; [apply dpm_suspend_loop_eq|]. intros Hlen Hnd.
    rewrite dpm_suspend_loop_eq.
    apply drain_tail_order; auto. apply dpm_suspend_turn_lists.
  - split; [apply dpm_suspend_late_loop_eq|]. intros Hlen Hnd.
    rewrite dpm_suspend_late_loop_eq.
    apply drain_tail_order; auto. apply dpm_suspend_late_turn_lists.
  - split; [apply dpm_noirq_suspend_loop_eq|]. intros Hlen Hnd.
    rewrite dpm_noirq_suspend_loop_eq.
    apply drain_tail_order; auto. apply dpm_noirq_suspend_turn_lists.
  - split; [apply dpm_noirq_resume_loop_eq|]. intros Hlen Hnd.
    rewrite dpm_noirq_resume_loop_eq.
    apply drain_head_order; auto. apply dpm_noirq_resume_turn_lists.
  - split; [apply dpm_resume_early_loop_eq|]. intros Hlen Hnd.
    rewrite dpm_resume_early_loop_eq.
    apply drain_head_order; auto. apply dpm_resume_early_turn_lists.
  - split; [apply dpm_resume_loop_eq|]. intros Hlen Hnd.
    rewrite dpm_resume_loop_eq.
    apply drain_head_order; auto. apply dpm_resume_turn_lists.
  - intros dev local Hl. cbn [dpm_complete_loop]. now rewrite Hl.
  - intros local. apply dpm_complete_loop_order.
  - rewrite dpm_suspend_loop_eq. intros Hlen Hnd Hdis.
    apply (drain_tail_dest DPM_PREPARED_LIST (dpm_suspend_turn E state)
             (dpm_suspend_turn_lists state) DPM_SUSPENDED_LIST
             (dpm_suspend_turn_dest state)); auto.
  - rewrite dpm_suspend_late_loop_eq. intros Hlen Hnd Hdis.
    apply (drain_tail_dest DPM_SUSPENDED_LIST (dpm_suspend_late_turn E state)
             (dpm_suspend_late_turn_lists state) DPM_LATE_EARLY_LIST
             (dpm_suspend_late_turn_dest state)); auto.
  - rewrite dpm_noirq_suspend_loop_eq. intros Hlen Hnd Hdis.
    apply (drain_tail_dest DPM_LATE_EARLY_LIST (dpm_noirq_suspend_turn E state)
             (dpm_noirq_suspend_turn_lists state) DPM_NOIRQ_LIST
             (dpm_noirq_suspend_turn_dest state)); auto.
  - rewrite dpm_noirq_resume_loop_eq. intros Hlen Hnd Hdis.
    apply (drain_head_dest DPM_NOIRQ_LIST (dpm_noirq_resume_turn E state)
             (dpm_noirq_resume_turn_lists state) DPM_LATE_EARLY_LIST
             (dpm_noirq_resume_turn_dest state)); auto.
  - rewrite dpm_resume_early_loop_eq. intros Hlen Hnd Hdis.
    apply (drain_head_dest DPM_LATE_EARLY_LIST (dpm_resume_early_turn E state)
             (dpm_resume_early_turn_lists state) DPM_SUSPENDED_LIST
             (dpm_resume_early_turn_dest state)); auto.
  - rewrite dpm_resume_loop_eq. intros Hlen Hnd Hdis.
    apply (drain_head_dest DPM_SUSPENDED_LIST (dpm_resume_turn E state)
             (dpm_resume_turn_lists state) DPM_PREPARED_LIST
             (dpm_resume_turn_dest state)); auto.
Qed.

End Order.

(** ** Failures of the resume phases (C3) *)

(** C3.  A resume callback that fails in the pool is logged and not
    recorded: async_resume, async_resume_early and async_resume_noirq leave
    suspend_stats as it is whatever the callback returned, where the
    synchronous branch of the same drain counts the failure and records the
    step and the name of the device, and where async_suspend records the
    name (last conjunct).  On the example machine the resume callback of device 0 returns
    -5: when the device resumes asynchronously dpm_resume logs the
    pm_dev_err line and the statistics are untouched; when it resumes
    synchronously failed_resume is 1 and the last failed device and step
    are recorded. *)
Theorem async_resume_failure_is_not_counted :
  (forall (E : environment) (t : async_entry) (st : pm_state),
     suspend_kind t = false ->
     suspend_stats (run_async E t st) = suspend_stats st)
  /\ klog (dpm_resume (failed_resume_env true) PMSG_RESUME (suspended_machine true))
     = [ev_trace_suspend_resume "dpm_resume" PM_EVENT_RESUME false;
        ev_sys CPUFREQ_RESUME;
        ev_trace_device_pm_callback_end 1 0;
        ev_call CB_RESUME 1 0;
        ev_trace_device_pm_callback_start 1 "driver " PM_EVENT_RESUME;
        ev_TRACE_DEVICE 1;
        ev_pm_dev_err 0 PMSG_RESUME " async" (-5);
        ev_trace_device_pm_callback_end 0 (-5);
        ev_call CB_RESUME 0 (-5);
        ev_trace_device_pm_callback_start 0 "driver " PM_EVENT_RESUME;
        ev_TRACE_DEVICE 0;
        ev_trace_suspend_resume "dpm_resume" PM_EVENT_RESUME true]
  /\ suspend_stats (dpm_resume (failed_resume_env true) PMSG_RESUME (suspended_machine true))
     = no_stats
  /\ suspend_stats (suspended_machine true) = no_stats
  /\ suspend_stats (dpm_resume (failed_resume_env false) PMSG_RESUME
                      (suspended_machine false))
     = {| failed_prepare := 0; failed_suspend := 0; failed_suspend_late := 0;
          failed_suspend_noirq := 0; failed_resume := 1; failed_resume_early := 0;
          failed_resume_noirq := 0; last_failed_dev := Some "alpha"%string;
          last_failed_step := Some SUSPEND_RESUME |}
  /\ last_failed_dev
       (suspend_stats (snd (dpm_suspend failed_async_suspend_env PMSG_SUSPEND
                              prepared_async_machine)))
     = Some "beta"%string.
Proof.
  split.
  - intros E t st Hk. destruct (run_async_step E t st) as (evs & Ht).
    exact (task_stats_resume Ht Hk).
  - repeat split.
Qed.

(** * The properties on the example machines *)

(** C6 on a device called cpu0: device_pm_add leaves the machine alone. *)
Lemma denylisted_device_kept_out_cpu0 :
  In "cpu0"%string suspend_deny_list
  /\ strcmp (dev_name (devices cpu0_machine 0%nat)) "cpu0" = 0%Z
  /\ device_pm_add 0%nat cpu0_machine = cpu0_machine
  /\ device_pm_move_last 0%nat cpu0_machine = cpu0_machine.
Proof.
  assert (Hin : In "cpu0"%string suspend_deny_list) by (left; reflexivity).
  assert (Hcmp : strcmp (dev_name (devices cpu0_machine 0%nat)) "cpu0" = 0%Z)
    by reflexivity.
  pose proof (denylisted_device_kept_out cpu0_machine 0%nat "cpu0"%string Hin Hcmp)
    as (Hadd & Hlast & _).
  exact (conj Hin (conj Hcmp (conj Hadd Hlast))).
Defined.

(** C9 on device 0, whose resume_noirq callback fails: the flag is cleared
    all the same, on a worker and on the driving thread. *)
Lemma resume_clears_flag_despite_error_on_failure :
  syscore (pw noirq_machine 0%nat) = false
  /\ direct_complete (pw noirq_machine 0%nat) = false
  /\ in_dpm_list (pw noirq_machine 0%nat) = true
  /\ fst (device_resume_noirq failed_resume_noirq_env worker 0%nat PMSG_RESUME false
            noirq_machine) = (-5)%Z
  /\ is_noirq_suspended
       (pw (snd (device_resume_noirq failed_resume_noirq_env worker 0%nat PMSG_RESUME false
                   noirq_machine)) 0%nat) = false
  /\ is_noirq_suspended
       (pw (snd (device_resume_noirq failed_resume_noirq_env
                   (main_thread failed_resume_noirq_env) 0%nat PMSG_RESUME false
                   noirq_machine)) 0%nat) = false.
Proof.
  pose proof (resume_clears_flag_despite_error failed_resume_noirq_env 0%nat PMSG_RESUME
                false noirq_machine eq_refl eq_refl) as (Hw & Hm).
  destruct (Hw eq_refl) as (Hn & _).
  destruct (Hn eq_refl) as (Hflag & _).
  destruct (Hm (main_thread failed_resume_noirq_env) eq_refl) as (Hn' & _).
  destruct (Hn' eq_refl) as (Hflag' & _).
  split; [reflexivity|]. split; [reflexivity|]. split; [reflexivity|].
  split; [reflexivity|]. split; [exact Hflag | exact Hflag'].
Defined.




(** C4 on device 0, whose resume callback comes from the driver's table
    and fails: device_resume on the driving thread calls it and returns what
    it returned. *)
Lemma callback_resolved_by_layer_priority_on_machine :
  layered_callback (failed_resume_env false) PHASE_RESUME PMSG_RESUME
    (devices (suspended_machine false) 0%nat) = Some CB_RESUME
  /\ runs_resolved (failed_resume_env false) PHASE_RESUME 0%nat PMSG_RESUME
       (resume_waited (failed_resume_env false) (main_thread (failed_resume_env false))
          0%nat false (suspended_machine false))
       (device_resume (failed_resume_env false) (main_thread (failed_resume_env false))
          0%nat PMSG_RESUME false (suspended_machine false))
  /\ fst (device_resume (failed_resume_env false) (main_thread (failed_resume_env false))
            0%nat PMSG_RESUME false (suspended_machine false)) = (-5)%Z
  /\ filter is_call
       (klog (snd (device_resume (failed_resume_env false)
                     (main_thread (failed_resume_env false))
                     0%nat PMSG_RESUME false (suspended_machine false))))
     = [ev_call CB_RESUME 0 (-5)].
Proof.
  pose proof (callback_resolved_by_layer_priority (failed_resume_env false)
                (main_thread (failed_resume_env false)) 0%nat PMSG_RESUME false
                (suspended_machine false))
    as (_ & _ & _ & _ & _ & _ & Hrun & _).
  split; [reflexivity|].
  split; [apply Hrun; reflexivity|]. split; reflexivity.
Defined.

(** C4 as stated fails when a layer is there without a callback for the
    phase.  Device 0 has a power domain with an empty table and a bus whose
    table has a resume callback, and no driver.  Tried in priority order
    the providers give the callback of the bus; device_resume takes the
    power domain's NULL, finds no driver, and calls nothing for the
    suspended device. *)
Lemma power_domain_hides_the_bus :
  resolve_callback (demo_env false all_succeed) PHASE_RESUME PMSG_RESUME
    (devices hidden_bus_machine 0%nat) = Some CB_RESUME
  /\ layered_callback (demo_env false all_succeed) PHASE_RESUME PMSG_RESUME
       (devices hidden_bus_machine 0%nat) = None
  /\ is_suspended (pw hidden_bus_machine 0%nat) = true
  /\ device_resume (demo_env false all_succeed) worker 0%nat PMSG_RESUME false
       hidden_bus_machine
     = (0%Z,
        complete_all 0%nat
          (set_dev 0%nat (set_is_suspended false)
             (set_dev 0%nat (set_is_prepared false)
                (log_event (ev_TRACE_DEVICE 0) hidden_bus_machine))))
  /\ filter is_call
       (klog (snd (device_resume (demo_env false all_succeed) worker 0%nat PMSG_RESUME
                     false hidden_bus_machine)))
     = [].
Proof. repeat split. Qed.

(** C5 on the example machine: the noirq callback of device 0 fails, the
    flag stays clear, and device_resume_noirq then calls nothing. *)
Lemma phase_flags_gate_resume_on_failure :
  fst (__device_suspend_noirq failed_noirq_env (main_thread failed_noirq_env) 0%nat
         PMSG_SUSPEND false registered_machine) = (-5)%Z
  /\ is_noirq_suspended
       (pw (snd (__device_suspend_noirq failed_noirq_env (main_thread failed_noirq_env)
                   0%nat PMSG_SUSPEND false registered_machine)) 0%nat) = false
  /\ fst (device_resume_noirq failed_noirq_env (main_thread failed_noirq_env) 0%nat
            PMSG_RESUME false
            (snd (__device_suspend_noirq failed_noirq_env (main_thread failed_noirq_env)
                    0%nat PMSG_SUSPEND false registered_machine))) = 0%Z
  /\ extends not_call
       (snd (__device_suspend_noirq failed_noirq_env (main_thread failed_noirq_env)
               0%nat PMSG_SUSPEND false registered_machine))
       (snd (device_resume_noirq failed_noirq_env (main_thread failed_noirq_env) 0%nat
               PMSG_RESUME false
               (snd (__device_suspend_noirq failed_noirq_env
                       (main_thread failed_noirq_env)
                       0%nat PMSG_SUSPEND false registered_machine)))).
Proof.
  pose proof (phase_flags_gate_resume failed_noirq_env (main_thread failed_noirq_env)
                0%nat 0%nat PMSG_SUSPEND false registered_machine)
    as (_ & _ & _ & _ & _ & _ & _ & _ & _ & _ & _ & _ & Hgate).
  assert (Herr : fst (__device_suspend_noirq failed_noirq_env
                        (main_thread failed_noirq_env) 0%nat
                        PMSG_SUSPEND false registered_machine) <> 0%Z)
    by (vm_compute; discriminate).
  destruct (Hgate eq_refl Herr (main_thread failed_noirq_env) PMSG_RESUME false)
    as (H0 & Hnc).
  split; [reflexivity|]. split; [reflexivity|]. split; [exact H0 | exact Hnc].
Defined.

(** C5 as stated fails in the resume direction: in dpm_resume_start the
    resume_noirq callback of device 0 returns -5 and its resume_early
    callback is called nevertheless (the calls, the last one first).  And a
    flag is set without any callback having returned 0: for a device that
    has no callback at all __device_suspend_noirq calls nothing and sets
    is_noirq_suspended. *)
Lemma resume_early_runs_after_failed_resume_noirq :
  filter is_call (klog (dpm_resume_start failed_resume_noirq_env PMSG_RESUME noirq_machine))
  = [ev_call CB_RESUME_EARLY 0 0; ev_call CB_RESUME_NOIRQ 0 (-5)]
  /\ is_noirq_suspended (pw bare_machine 0%nat) = false
  /\ is_noirq_suspended
       (pw (snd (__device_suspend_noirq (demo_env false all_succeed) worker 0%nat
                   PMSG_SUSPEND false bare_machine)) 0%nat) = true
  /\ filter is_call
       (klog (snd (__device_suspend_noirq (demo_env false all_succeed) worker 0%nat
                     PMSG_SUSPEND false bare_machine)))
     = [].
Proof. repeat split. Qed.

(** C7 as stated fails: with power.is_prepared false, device_complete calls
    the complete callback, and calls it again when it is run again. *)
Lemma device_complete_runs_with_flag_clear :
  is_prepared (pw registered_machine 0%nat) = false
  /\ klog (device_complete 0%nat PMSG_RESUME registered_machine)
     = [ev_runtime_pm PM_RUNTIME_PUT 0; ev_call_void CB_COMPLETE 0]
  /\ klog (device_complete 0%nat PMSG_RESUME
             (device_complete 0%nat PMSG_RESUME registered_machine))
     = [ev_runtime_pm PM_RUNTIME_PUT 0; ev_call_void CB_COMPLETE 0;
        ev_runtime_pm PM_RUNTIME_PUT 0; ev_call_void CB_COMPLETE 0].
Proof. repeat split. Qed.

(** C7 on the example machine: both devices have power.is_prepared set;
    dpm_complete clears it, empties dpm_prepared_list and calls the complete
    callback of both. *)
Lemma complete_does_not_test_is_prepared_on_machine :
  async_pending completing_machine = []
  /\ is_prepared (pw completing_machine 0%nat) = true
  /\ is_prepared (pw completing_machine 1%nat) = true
  /\ is_prepared (pw (dpm_complete failed_suspend_env PMSG_RESUME completing_machine)
                     0%nat) = false
  /\ is_prepared (pw (dpm_complete failed_suspend_env PMSG_RESUME completing_machine)
                     1%nat) = false
  /\ dpm_prepared_list (dpm_complete failed_suspend_env PMSG_RESUME completing_machine)
     = []
  /\ filter is_call (klog (dpm_complete failed_suspend_env PMSG_RESUME completing_machine))
     = [ev_call_void CB_COMPLETE 0; ev_call_void CB_COMPLETE 1].
Proof.
  pose proof (complete_does_not_test_is_prepared failed_suspend_env 0%nat PMSG_RESUME
                false completing_machine eq_refl) as (_ & _ & Hnil & _ & Hclear & _).
  split; [reflexivity|]. split; [reflexivity|]. split; [reflexivity|].
  split; [apply Hclear; left; reflexivity|].
  split; [apply Hclear; right; left; reflexivity|].
  split; [exact Hnil | reflexivity].
Defined.

(** C8 as stated fails for the suspend drain: dpm_suspend takes and enters
    device 1, the tail of dpm_prepared_list, before device 0, its head. *)
Lemma dpm_suspend_starts_at_the_tail :
  first_entry (dpm_prepared_list prepared_machine) = Some 0%nat
  /\ last_entry (dpm_prepared_list prepared_machine) = Some 1%nat
  /\ drain_tail_takes DPM_PREPARED_LIST
       (dpm_suspend_turn (demo_env false all_succeed) PMSG_SUSPEND) 2 prepared_machine
     = [1; 0]%nat
  /\ rev (visited (klog (snd (dpm_suspend (demo_env false all_succeed) PMSG_SUSPEND
                                 prepared_machine))))
     = [1; 0]%nat.
Proof. repeat split. Qed.

(** C8 on the example machine, with both devices handed to the pool. *)
Lemma drains_follow_list_order_on_machine :
  (List.length (dpm_prepared_list prepared_async_machine) <= 2)%nat
  /\ NoDup (dpm_prepared_list prepared_async_machine)
  /\ took_from_tail (dpm_prepared_list prepared_async_machine)
       (drain_tail_takes DPM_PREPARED_LIST
          (dpm_suspend_turn (demo_env true all_succeed) PMSG_SUSPEND) 2
          prepared_async_machine)
       (dpm_suspend_loop (demo_env true all_succeed) 2 PMSG_SUSPEND
          prepared_async_machine)
  /\ drain_tail_takes DPM_PREPARED_LIST
       (dpm_suspend_turn (demo_env true all_succeed) PMSG_SUSPEND) 2
       prepared_async_machine
     = [1; 0]%nat
  /\ visited (klog (snd (dpm_suspend_loop (demo_env true all_succeed) 2 PMSG_SUSPEND
                           prepared_async_machine)))
     = []
  /\ dpm_prepared_list prepared_async_machine = [0; 1]%nat
  /\ dpm_suspended_list (snd (dpm_suspend_loop (demo_env true all_succeed) 2 PMSG_SUSPEND
                                prepared_async_machine))
     = [0; 1]%nat.
Proof.
  assert (Hnd : NoDup (dpm_prepared_list prepared_async_machine)).
  { repeat constructor; cbn; intuition discriminate. }
  assert (Hlen : (List.length (dpm_prepared_list prepared_async_machine) <= 2)%nat)
    by (cbn; lia).
  pose proof (drains_follow_list_order (demo_env true all_succeed) PMSG_SUSPEND 2
                prepared_async_machine) as ((_ & Hs) & _).
  split; [exact Hlen|]. split; [exact Hnd|]. split; [exact (Hs Hlen Hnd)|].
  repeat split; reflexivity.
Defined.

(** C10 on the example machine: the prepare callback of device 0 answers
    -EAGAIN once; the loop takes device 0 again, and dpm_prepare returns 0
    with both devices on dpm_prepared_list; device 1, whose callback
    answered 1, has direct_complete set. *)
Lemma prepare_retries_on_eagain_once :
  first_entry (dpm_list registered_machine) = Some 0%nat
  /\ fst (dpm_prepare_device eagain_once_env 0%nat PMSG_SUSPEND registered_machine)
     = (- EAGAIN)%Z
  /\ dpm_prepare_loop eagain_once_env 4 PMSG_SUSPEND registered_machine
     = dpm_prepare_loop eagain_once_env 3 PMSG_SUSPEND
         (snd (dpm_prepare_device eagain_once_env 0%nat PMSG_SUSPEND registered_machine))
  /\ option_map fst (dpm_prepare eagain_once_env 4 PMSG_SUSPEND registered_machine)
     = Some 0%Z
  /\ option_map (fun r => dpm_prepared_list (snd r))
       (dpm_prepare eagain_once_env 4 PMSG_SUSPEND registered_machine)
     = Some [0; 1]%nat
  /\ option_map (fun r => direct_complete (pw (snd r) 1%nat))
       (dpm_prepare eagain_once_env 4 PMSG_SUSPEND registered_machine)
     = Some true.
Proof.
  pose proof (prepare_retries_on_eagain eagain_once_env 0%nat PMSG_SUSPEND 3
                registered_machine eq_refl) as (Hretry & _).
  split; [reflexivity|]. split; [reflexivity|].
  split; [exact (Hretry eq_refl)|]. repeat split.
Defined.
